(** * rag_web_app: the admin client's permission, impersonation and request logic

    A shallow embedding of the JavaScript service modules and component
    handlers of [rag_web_admin] (permission check, proxy header, fetch wrapper,
    batch upload, department deletion, grant picker, impersonation enter/leave)
    together with the access-control resolver the client talks to.

    Browser state is passed explicitly: [localStorage] is a finite map from
    keys to strings holding JSON text, the server answers a request as a
    function of the requests made before it, and every request issued is
    appended to a log. *)

From Stdlib Require Import ZArith Ascii DecimalPos DecimalFacts.
From stdpp Require Import gmap strings list.

Local Open Scope Z_scope.

(** ** JavaScript values

    The values this program handles all come out of [JSON.parse] or go into
    [JSON.stringify].  Numbers are kept as integers (ids, counts and status
    codes are), strings as the bytes of their UTF-8 text. An object is the list
    of its members in source order; reading a property finds the last member
    with that key, which is what [JSON.parse] leaves for a repeated key. *)

#[local] Unset Elimination Schemes.
Inductive JSON : Type :=
| JNull
| JBool (b : bool)
| JNum (z : Z)
| JStr (s : string)
| JArr (items : list JSON)
| JObj (members : list (string * JSON)).
#[local] Set Elimination Schemes.

(** [None] is JavaScript's [undefined]. *)
Abbreviation JsVal := (option JSON).
Abbreviation undefined := (@None JSON).

Section JSON_nested_induction.
Variable P : JSON → Prop.
Hypothesis Hnull : P JNull.
Hypothesis Hbool : ∀ b, P (JBool b).
Hypothesis Hnum : ∀ z, P (JNum z).
Hypothesis Hstr : ∀ s, P (JStr s).
Hypothesis Harr : ∀ vs, Forall P vs → P (JArr vs).
Hypothesis Hobj : ∀ ms, Forall (λ m, P m.2) ms → P (JObj ms).

Fixpoint JSON_nested_ind (v : JSON) : P v :=
  match v with
  | JNull => Hnull
  | JBool b => Hbool b
  | JNum z => Hnum z
  | JStr s => Hstr s
  | JArr vs =>
      Harr vs ((fix go (l : list JSON) : Forall P l :=
                  match l with
                  | [] => Forall_nil_2 P
                  | x :: l' => Forall_cons_2 P x l' (JSON_nested_ind x) (go l')
                  end) vs)
  | JObj ms =>
      Hobj ms ((fix go (l : list (string * JSON)) : Forall (λ m, P m.2) l :=
                  match l with
                  | [] => Forall_nil_2 _
                  | m :: l' => Forall_cons_2 (λ m, P m.2) m l'
                                 (JSON_nested_ind m.2) (go l')
                  end) ms)
  end.
End JSON_nested_induction.

(** Thrown values. [Error msg] is [new Error(msg)]; [NetworkError] is the
    rejection of [fetch] itself. *)
Inductive Exn : Type :=
| SyntaxError
| TypeError
| NetworkError
| Error (msg : string).

Inductive Completion (A : Type) : Type :=
| Return (a : A)
| Throw (e : Exn).
Arguments Return {A} a.
Arguments Throw {A} e.

(** *** Coercions and property access *)

Definition dquote : ascii := "034"%char.

Fixpoint print_uint (d : Decimal.uint) (k : string) : string :=
  match d with
  | Decimal.Nil => k
  | Decimal.D0 d' => String "0" (print_uint d' k)
  | Decimal.D1 d' => String "1" (print_uint d' k)
  | Decimal.D2 d' => String "2" (print_uint d' k)
  | Decimal.D3 d' => String "3" (print_uint d' k)
  | Decimal.D4 d' => String "4" (print_uint d' k)
  | Decimal.D5 d' => String "5" (print_uint d' k)
  | Decimal.D6 d' => String "6" (print_uint d' k)
  | Decimal.D7 d' => String "7" (print_uint d' k)
  | Decimal.D8 d' => String "8" (print_uint d' k)
  | Decimal.D9 d' => String "9" (print_uint d' k)
  end.

(** The decimal text of an integer, followed by [k]. *)
Definition print_Z (z : Z) (k : string) : string :=
  match z with
  | Z0 => String "0" k
  | Zpos p => print_uint (Pos.to_uint p) k
  | Zneg p => String "-" (print_uint (Pos.to_uint p) k)
  end.

Definition string_of_Z (z : Z) : string := print_Z z "".

(** [Boolean(v)]. *)
Definition truthy (v : JsVal) : bool :=
  match v with
  | None | Some JNull => false
  | Some (JBool b) => b
  | Some (JNum z) => negb (z =? 0)
  | Some (JStr s) => negb (bool_decide (s = ""))
  | Some (JArr _) | Some (JObj _) => true
  end.

(** [String(v)] on a defined value; an array joins its elements with a comma,
    printing [null] elements as the empty string. *)
Fixpoint js_String (v : JSON) : string :=
  match v with
  | JNull => "null"
  | JBool true => "true"
  | JBool false => "false"
  | JNum z => string_of_Z z
  | JStr s => s
  | JArr vs =>
      let elem (x : JSON) := match x with JNull => "" | _ => js_String x end in
      match vs with
      | [] => ""
      | x :: r =>
          elem x +:+ (fix rest (l : list JSON) : string :=
                        match l with
                        | [] => ""
                        | y :: l' => "," +:+ elem y +:+ rest l'
                        end) r
      end
  | JObj _ => "[object Object]"
  end.

(** [`${v}`] and the conversion of a property key. *)
Definition template (v : JsVal) : string :=
  match v with
  | None => "undefined"
  | Some j => js_String j
  end.

(** [v.toString()] for a value read from JSON text: a number, a string and
    a boolean give their text, null and undefined throw. An object gives the
    text of [Object.prototype.toString]; an object that carries a member
    named [toString] of its own, on which the call throws, is not told
    apart. *)
Definition toString (v : JsVal) : Completion string :=
  match v with
  | None | Some JNull => Throw TypeError
  | Some j => Return (js_String j)
  end.

Fixpoint lookup_member (k : string) (ms : list (string * JSON)) : JsVal :=
  match ms with
  | [] => None
  | (k', v) :: r =>
      match lookup_member k r with
      | Some w => Some w
      | None => if decide (k = k') then Some v else None
      end
  end.

(** [v.k] for the data property names this program reads (none of them is
    a built-in property of strings, numbers or arrays). *)
Definition get (v : JsVal) (k : string) : Completion JsVal :=
  match v with
  | None | Some JNull => Throw TypeError
  | Some (JObj ms) => Return (lookup_member k ms)
  | Some _ => Return None
  end.

Arguments get : simpl never.

(** [v.k] on a value that is not [null]. *)
Definition member (v : JSON) (k : string) : JsVal :=
  match v with
  | JObj ms => lookup_member k ms
  | _ => None
  end.

(** [a || b]. *)
Definition js_or (a b : JsVal) : JsVal := if truthy a then a else b.

(** ** JSON text

    [JSON.stringify] and [JSON.parse] are the platform's; they are modelled
    for the values above. The printer writes in front of a continuation
    string [k]; the parser is a recursive descent on the text with the
    nesting bounded by the length of the input. Number literals with a
    fraction or an exponent and escaped surrogates have no value in this
    model and are not accepted. *)

Definition hex_digit (n : N) : ascii :=
  if (n <? 10)%N then ascii_of_N (48 + n) else ascii_of_N (87 + n).

(** One character of a string literal, as [JSON.stringify] writes it. *)
Definition print_char (c : ascii) (k : string) : string :=
  match c with
  | "034"%char => String "\" (String dquote k)
  | "\"%char => String "\" (String "\" k)
  | "008"%char => String "\" (String "b" k)
  | "012"%char => String "\" (String "f" k)
  | "010"%char => String "\" (String "n" k)
  | "013"%char => String "\" (String "r" k)
  | "009"%char => String "\" (String "t" k)
  | _ =>
      let n := N_of_ascii c in
      if (n <? 32)%N
      then String "\" (String "u" (String "0" (String "0"
             (String (hex_digit (n / 16)) (String (hex_digit (n mod 16)) k)))))
      else String c k
  end.

Fixpoint print_chars (s : string) (k : string) : string :=
  match s with
  | EmptyString => k
  | String c r => print_char c (print_chars r k)
  end.

Definition print_string (s : string) (k : string) : string :=
  String dquote (print_chars s (String dquote k)).

Fixpoint print (v : JSON) (k : string) : string :=
  match v with
  | JNull => String "n" (String "u" (String "l" (String "l" k)))
  | JBool true => String "t" (String "r" (String "u" (String "e" k)))
  | JBool false => String "f" (String "a" (String "l" (String "s" (String "e" k))))
  | JNum z => print_Z z k
  | JStr s => print_string s k
  | JArr vs =>
      String "["
        match vs with
        | [] => String "]" k
        | x :: r =>
            print x ((fix rest (l : list JSON) : string :=
                        match l with
                        | [] => String "]" k
                        | y :: l' => String "," (print y (rest l'))
                        end) r)
        end
  | JObj ms =>
      String "{"
        match ms with
        | [] => String "}" k
        | m :: r =>
            print_string m.1 (String ":" (print m.2
              ((fix rest (l : list (string * JSON)) : string :=
                  match l with
                  | [] => String "}" k
                  | m' :: l' =>
                      String "," (print_string m'.1 (String ":" (print m'.2 (rest l'))))
                  end) r)))
        end
  end.

(** [JSON.stringify(v)] for a defined [v]. *)
Definition JSON_stringify (v : JSON) : string := print v "".

Definition is_ws (c : ascii) : bool :=
  match c with
  | " "%char | "009"%char | "010"%char | "013"%char => true
  | _ => false
  end.

Fixpoint skip_ws (s : string) : string :=
  match s with
  | String c r => if is_ws c then skip_ws r else s
  | EmptyString => s
  end.

Definition digit_of (c : ascii) : option (Decimal.uint → Decimal.uint) :=
  match c with
  | "0"%char => Some Decimal.D0 | "1"%char => Some Decimal.D1
  | "2"%char => Some Decimal.D2 | "3"%char => Some Decimal.D3
  | "4"%char => Some Decimal.D4 | "5"%char => Some Decimal.D5
  | "6"%char => Some Decimal.D6 | "7"%char => Some Decimal.D7
  | "8"%char => Some Decimal.D8 | "9"%char => Some Decimal.D9
  | _ => None
  end.

Fixpoint parse_digits (s : string) : Decimal.uint * string :=
  match s with
  | String c r =>
      match digit_of c with
      | Some d => let '(ds, r') := parse_digits r in (d ds, r')
      | None => (Decimal.Nil, s)
      end
  | EmptyString => (Decimal.Nil, s)
  end.

(** [0] or a digit string without a leading zero. *)
Definition int_literal (d : Decimal.uint) : bool :=
  match d with
  | Decimal.Nil => false
  | Decimal.D0 Decimal.Nil => true
  | Decimal.D0 _ => false
  | _ => true
  end.

Definition number_ends (s : string) : bool :=
  match s with
  | String "."%char _ | String "e"%char _ | String "E"%char _ => false
  | _ => true
  end.

Definition parse_number (s : string) : option (JSON * string) :=
  let '(neg, s1) := match s with
                    | String "-"%char r => (true, r)
                    | _ => (false, s)
                    end in
  let '(d, r) := parse_digits s1 in
  if int_literal d && number_ends r
  then Some (JNum (if neg : bool then - Z.of_uint d else Z.of_uint d), r)
  else None.

Definition hex_val (c : ascii) : option N :=
  let n := N_of_ascii c in
  if (48 <=? n)%N && (n <? 58)%N then Some (n - 48)%N
  else if (97 <=? n)%N && (n <? 103)%N then Some (n - 87)%N
  else if (65 <=? n)%N && (n <? 71)%N then Some (n - 55)%N
  else None.

(** The UTF-8 bytes of a code point of the basic plane, in front of [k]. *)
Definition utf8 (n : N) (k : string) : option string :=
  if (n <? 128)%N then Some (String (ascii_of_N n) k)
  else if (n <? 2048)%N
  then Some (String (ascii_of_N (192 + n / 64))
            (String (ascii_of_N (128 + n mod 64)) k))
  else if (55296 <=? n)%N && (n <? 57344)%N then None
  else Some (String (ascii_of_N (224 + n / 4096))
            (String (ascii_of_N (128 + (n / 64) mod 64))
            (String (ascii_of_N (128 + n mod 64)) k))).

(** The rest of a string literal, after its opening quote. *)
Fixpoint parse_string (s : string) : option (string * string) :=
  match s with
  | EmptyString => None
  | String "034"%char r => Some (EmptyString, r)
  | String "\"%char EmptyString => None
  | String "\"%char (String e r) =>
      let simple (c : ascii) :=
        '(t, r') ← parse_string r; Some (String c t, r') in
      match e with
      | "034"%char => simple dquote
      | "\"%char => simple "\"%char
      | "/"%char => simple "/"%char
      | "b"%char => simple "008"%char
      | "f"%char => simple "012"%char
      | "n"%char => simple "010"%char
      | "r"%char => simple "013"%char
      | "t"%char => simple "009"%char
      | "u"%char =>
          match r with
          | String h1 (String h2 (String h3 (String h4 r4))) =>
              a ← hex_val h1; b ← hex_val h2; c ← hex_val h3; d ← hex_val h4;
              '(t, r') ← parse_string r4;
              t' ← utf8 (((a * 16 + b) * 16 + c) * 16 + d)%N t;
              Some (t', r')
          | _ => None
          end
      | _ => None
      end
  | String c r =>
      if (N_of_ascii c <? 32)%N then None
      else '(t, r') ← parse_string r; Some (String c t, r')
  end.

(** Skip white space, then require the character [c]. *)
Definition expect (c : ascii) (s : string) : option string :=
  match skip_ws s with
  | String c' r => if Ascii.eqb c' c then Some r else None
  | EmptyString => None
  end.

Fixpoint parse_value (fuel : nat) (s : string) : option (JSON * string) :=
  match fuel with
  | O => None
  | S n =>
      match skip_ws s with
      | String "n"%char (String "u"%char (String "l"%char (String "l"%char r))) =>
          Some (JNull, r)
      | String "t"%char (String "r"%char (String "u"%char (String "e"%char r))) =>
          Some (JBool true, r)
      | String "f"%char (String "a"%char (String "l"%char (String "s"%char
          (String "e"%char r)))) =>
          Some (JBool false, r)
      | String "034"%char r =>
          '(t, r') ← parse_string r; Some (JStr t, r')
      | String "["%char r =>
          match expect "]" r with
          | Some r' => Some (JArr [], r')
          | None => '(vs, r') ← parse_elements n r; Some (JArr vs, r')
          end
      | String "{"%char r =>
          match expect "}" r with
          | Some r' => Some (JObj [], r')
          | None => '(ms, r') ← parse_members n r; Some (JObj ms, r')
          end
      | s' => parse_number s'
      end
  end
with parse_elements (fuel : nat) (s : string) : option (list JSON * string) :=
  match fuel with
  | O => None
  | S n =>
      '(v, r) ← parse_value n s;
      match expect "," r with
      | Some r' => '(vs, r'') ← parse_elements n r'; Some (v :: vs, r'')
      | None => r' ← expect "]" r; Some ([v], r')
      end
  end
with parse_members (fuel : nat) (s : string)
    : option (list (string * JSON) * string) :=
  match fuel with
  | O => None
  | S n =>
      r ← expect dquote s;
      '(key, r1) ← parse_string r;
      r2 ← expect ":" r1;
      '(v, r3) ← parse_value n r2;
      match expect "," r3 with
      | Some r4 => '(ms, r5) ← parse_members n r4; Some ((key, v) :: ms, r5)
      | None => r4 ← expect "}" r3; Some ([(key, v)], r4)
      end
  end.

(** [JSON.parse(s)]; [None] is the [SyntaxError]. *)
Definition JSON_parse (s : string) : option JSON :=
  '(v, r) ← parse_value (S (String.length s)) s;
  match skip_ws r with
  | EmptyString => Some v
  | _ => None
  end.

Arguments JSON_parse : simpl never.
Arguments JSON_stringify : simpl never.

(** Printing of the remaining elements and members, and the nesting bound
    the parser needs, as functions of their own. *)
Fixpoint print_rest (l : list JSON) (k : string) : string :=
  match l with
  | [] => String "]" k
  | y :: l' => String "," (print y (print_rest l' k))
  end.

Fixpoint print_members_rest (l : list (string * JSON)) (k : string) : string :=
  match l with
  | [] => String "}" k
  | m :: l' => String "," (print_string m.1 (String ":" (print m.2 (print_members_rest l' k))))
  end.

Fixpoint jsize (v : JSON) : nat :=
  match v with
  | JArr vs =>
      S ((fix sum (l : list JSON) : nat :=
            match l with [] => 0 | x :: l' => S (jsize x + sum l') end) vs)
  | JObj ms =>
      S ((fix sum (l : list (string * JSON)) : nat :=
            match l with [] => 0 | m :: l' => S (jsize m.2 + sum l') end) ms)
  | _ => 1
  end%nat.

Fixpoint size_elements (l : list JSON) : nat :=
  match l with [] => 0 | x :: l' => S (jsize x + size_elements l') end%nat.

Fixpoint size_members (l : list (string * JSON)) : nat :=
  match l with [] => 0 | m :: l' => S (jsize m.2 + size_members l') end%nat.

(** What may follow a value inside a text. *)
Inductive delimited : string → Prop :=
| delimited_end : delimited EmptyString
| delimited_comma r : delimited (String "," r)
| delimited_bracket r : delimited (String "]" r)
| delimited_brace r : delimited (String "}" r).

Definition parses_back (v : JSON) : Prop :=
  ∀ fuel k, (jsize v ≤ fuel)%nat → delimited k →
    parse_value fuel (print v k) = Some (v, k).

(** An object literal as [JSON.stringify] sees it: a member whose value is
    [undefined] is left out. The keys of a literal are distinct. *)
Definition object_literal (fields : list (string * JsVal)) : JSON :=
  JObj (omap (λ f, v ← f.2; Some (f.1, v)) fields).

(** [Set.prototype.has] compares with SameValueZero: primitives by value,
    arrays and objects by identity. Values decoded from different response
    bodies are never the same object. *)
Definition same_value_zero (a b : JsVal) : bool :=
  match a, b with
  | None, None => true
  | Some JNull, Some JNull => true
  | Some (JBool x), Some (JBool y) => bool_decide (x = y)
  | Some (JNum x), Some (JNum y) => bool_decide (x = y)
  | Some (JStr x), Some (JStr y) => bool_decide (x = y)
  | _, _ => false
  end.

Definition set_has (s : list JsVal) (x : JsVal) : bool :=
  existsb (same_value_zero x) s.

(** [new Set(l)]. A set is kept as the values added to it; [has] is all
    that is asked of one here. *)
Definition new_Set (l : list JsVal) : list JsVal := l.

(** ** The browser: storage, location and the network *)

(** [import.meta.env]. *)
Record Config := {
  BASE_URL : string;
  VITE_API_BASE_URL : option string
}.

(** A [File] of an upload form: [{ name, size, type }]. *)
Record File := {
  file_name : string;
  file_size : Z;
  file_type : string
}.

Inductive FormValue :=
| FormText (s : string)
| FormFile (f : File).

Inductive Body :=
| TextBody (s : string)
| FormData (entries : list (string * FormValue)).

(** The [options] argument of [fetch]; [None] is an absent member. *)
Record FetchOptions := {
  method : option string;
  headers : option (gmap string string);
  cache : option string;
  body : option Body
}.

Record Request := {
  url : string;
  options : FetchOptions
}.

Record Response := {
  status : Z;
  body_text : string
}.

(** [response.ok]. *)
Definition ok (r : Response) : bool :=
  (200 <=? status r) && (status r <=? 299).

Inductive FetchOutcome :=
| Responds (r : Response)
| Fails.

(** The far side answers a request knowing the requests made before it. *)
Record Browser := {
  env : Config;
  localStorage : gmap string string;
  href : string;
  route : string;
  remote : list Request → Request → FetchOutcome;
  sent : list Request
}.

(** A computation runs on the browser and completes normally or abruptly;
    what it did to the browser before a [throw] stays done. *)
Definition M (A : Type) : Type := Browser → Completion A * Browser.

Definition ret {A} (a : A) : M A := λ b, (Return a, b).
Definition throw {A} (e : Exn) : M A := λ b, (Throw e, b).
Definition bind {A B} (m : M A) (f : A → M B) : M B :=
  λ b, match m b with
       | (Return a, b') => f a b'
       | (Throw e, b') => (Throw e, b')
       end.
Definition try_catch {A} (m : M A) (handler : Exn → M A) : M A :=
  λ b, match m b with
       | (Return a, b') => (Return a, b')
       | (Throw e, b') => handler e b'
       end.
Definition lift {A} (c : Completion A) : M A := λ b, (c, b).

Notation "'do' x ← m ; k" := (bind m (λ x, k))
  (at level 10, x name, m at level 100, k at level 200,
   format "'[v' 'do'  x  ←  m ; '/' k ']'").
Notation "m ;; k" := (bind m (λ _, k))
  (at level 100, k at level 200, right associativity).

(** The same for code that only computes. *)
Definition bindC {A B} (c : Completion A) (f : A → Completion B) : Completion B :=
  match c with
  | Return a => f a
  | Throw e => Throw e
  end.
Notation "'let!' x := c 'in' k" := (bindC c (λ x, k))
  (at level 10, x name, c at level 100, k at level 200).

Definition getItem (key : string) : M (option string) :=
  λ b, (Return (localStorage b !! key), b).

Definition with_storage (f : gmap string string → gmap string string) (b : Browser)
    : Browser :=
  {| env := env b; localStorage := f (localStorage b); href := href b;
     route := route b; remote := remote b; sent := sent b |}.

Definition setItem (key value : string) : M unit :=
  λ b, (Return (), with_storage (insert key value) b).

Definition removeItem (key : string) : M unit :=
  λ b, (Return (), with_storage (delete key) b).

Definition set_href (h : string) : M unit :=
  λ b, (Return (),
        {| env := env b; localStorage := localStorage b; href := h;
           route := route b; remote := remote b; sent := sent b |}).

(** [navigate(path, { replace: true })]. *)
Definition navigate (path : string) : M unit :=
  λ b, (Return (),
        {| env := env b; localStorage := localStorage b; href := href b;
           route := path; remote := remote b; sent := sent b |}).

Definition fetch (u : string) (o : FetchOptions) : M Response :=
  λ b, let req := {| url := u; options := o |} in
       let b' := {| env := env b; localStorage := localStorage b; href := href b;
                    route := route b; remote := remote b;
                    sent := sent b ++ [req] |} in
       match remote b (sent b) req with
       | Responds r => (Return r, b')
       | Fails => (Throw NetworkError, b')
       end.

(** [response.json()]. *)
Definition json (r : Response) : Completion JSON :=
  match JSON_parse (body_text r) with
  | Some v => Return v
  | None => Throw SyntaxError
  end.

Arguments json : simpl never.

(** A stored string in a condition: absent and empty are both falsy. *)
Definition present (item : option string) : option string :=
  match item with
  | Some s => if decide (s = "") then None else Some s
  | None => None
  end.

(** [`${localStorage.getItem(key)}`]. *)
Definition template_item (item : option string) : string :=
  default "null" item.

(** ** config/config.js *)

Definition strip_trailing_slash (s : string) : string :=
  match String.rev s with
  | String "/"%char r => String.rev r
  | _ => s
  end.

Definition starts_with_slash (s : string) : bool :=
  match s with
  | String "/"%char _ => true
  | _ => false
  end.

Definition API_BASE_URL_of (c : Config) : string :=
  match present (VITE_API_BASE_URL c) with
  | Some u => u
  | None => "/api"
  end.

Definition getAppPath (c : Config) (path : string) : string :=
  let basePath := strip_trailing_slash (BASE_URL c) in
  let cleanPath := if starts_with_slash path then path else "/" +:+ path in
  basePath +:+ cleanPath.

Definition getApiUrl (c : Config) (endpoint : string) : string :=
  let baseUrl := strip_trailing_slash (API_BASE_URL_of c) in
  if decide (endpoint = "") then baseUrl
  else baseUrl +:+ (if starts_with_slash endpoint then endpoint else "/" +:+ endpoint).

(** [const API_BASE_URL = PathUtils.getApiUrl('')] of the service modules. *)
Definition API_BASE_URL (c : Config) : string := getApiUrl c "".

Arguments API_BASE_URL : simpl never.

(** ** services/utils: roles and the permission check *)

(** [ROLES]. *)
Inductive Role := SUPER_ADMIN | ADMIN.

Definition ROLES (r : Role) : string :=
  match r with
  | SUPER_ADMIN => "SUPER_ADMIN"
  | ADMIN => "ADMIN"
  end.

(** What [roleHierarchy[key]] evaluates to. Besides its two own members the
    literal answers to the names it inherits from [Object.prototype] with a
    function or an object, which is truthy and not a number. *)
Inductive Level :=
| LevelNumber (n : Z)
| LevelInherited
| LevelUndefined.

Definition Object_prototype_names : list string :=
  [ "constructor"; "hasOwnProperty"; "isPrototypeOf"; "propertyIsEnumerable";
    "toLocaleString"; "toString"; "valueOf"; "__proto__";
    "__defineGetter__"; "__defineSetter__"; "__lookupGetter__"; "__lookupSetter__" ].

Definition roleHierarchy (key : string) : Level :=
  if decide (key = "SUPER_ADMIN") then LevelNumber 2
  else if decide (key = "ADMIN") then LevelNumber 1
  else if decide (key ∈ Object_prototype_names) then LevelInherited
  else LevelUndefined.

(** [level || 0]. *)
Definition or_zero (l : Level) : Level :=
  match l with
  | LevelNumber n => LevelNumber n
  | LevelInherited => LevelInherited
  | LevelUndefined => LevelNumber 0
  end.

(** [userLevel >= requiredLevel] for a required level that is a number: a
    function or object on the left converts to [NaN], which compares false. *)
Definition level_ge (userLevel : Level) (requiredLevel : Z) : bool :=
  match userLevel with
  | LevelNumber n => bool_decide (requiredLevel ≤ n)
  | LevelInherited | LevelUndefined => false
  end.

(** [roleHierarchy[requiredRole] || 0] for a role of [ROLES]. *)
Definition requiredLevel (r : Role) : Z :=
  match or_zero (roleHierarchy (ROLES r)) with
  | LevelNumber n => n
  | _ => 0
  end.

Record Permission := {
  hasPermission : bool;
  permission_message : option string
}.

Definition checkPermission_try (ls : gmap string string) (requiredRole : Role)
    : Completion Permission :=
  match present (ls !! "user") with
  | None => Return {| hasPermission := false; permission_message := Some "未登入" |}
  | Some userStr =>
      match JSON_parse userStr with
      | None => Throw SyntaxError
      | Some user =>
          let! userRole := get (Some user) "role" in
          let userLevel := or_zero (roleHierarchy (template userRole)) in
          if level_ge userLevel (requiredLevel requiredRole)
          then Return {| hasPermission := true; permission_message := None |}
          else Return {| hasPermission := false;
                         permission_message := Some "權限不足，此操作需要更高權限" |}
      end
  end.

Definition checkPermission (ls : gmap string string) (requiredRole : Role)
    : Permission :=
  match checkPermission_try ls requiredRole with
  | Return p => p
  | Throw _ => {| hasPermission := false; permission_message := Some "權限驗證失敗" |}
  end.

Arguments checkPermission : simpl never.

(** ** services/api: the authorization header

    [getAuthHeader] is repeated word for word in files.js, users.js,
    departments.js, the upload module and the query-user module. *)

Definition getAuthHeader (ls : gmap string string)
    : Completion (gmap string string) :=
  let headers : gmap string string :=
    {[ "Authorization" := "Bearer " +:+ template_item (ls !! "token") ]} in
  match present (ls !! "user") with
  | Some userStr =>
      match JSON_parse userStr with
      | None => Throw SyntaxError
      | Some user =>
          let! proxy := get (Some user) "isSuperAdminProxy" in
          if truthy proxy then
            let! departmentId := get (Some user) "departmentId" in
            if truthy departmentId then
              let! text := toString departmentId in
              Return (<["X-Proxy-Department-Id" := text]> headers)
            else Return headers
          else Return headers
      end
  | None => Return headers
  end.

Arguments getAuthHeader : simpl never.

Definition getAuthHeaderM : M (gmap string string) :=
  λ b, (getAuthHeader (localStorage b), b).

Definition checkPermissionM (r : Role) : M Permission :=
  λ b, (Return (checkPermission (localStorage b) r), b).

(** ** services/apiClient.js *)

Definition handleTokenExpired : M unit :=
  removeItem "token" ;;
  removeItem "user" ;;
  removeItem "isAuthenticated" ;;
  removeItem "superAdminUser" ;;
  λ b, set_href (getAppPath (env b) "/") b.

Definition expired_message : string := "登入已過期，請重新登入".

Definition no_cache_headers : gmap string string :=
  {[ "Pragma" := "no-cache"; "Cache-Control" := "no-cache" ]}.

(** [finalOptions]: the caller's members win over the defaults. *)
Definition finalOptions (o : FetchOptions) : FetchOptions :=
  {| method := method o;
     headers := Some (default ∅ (headers o) ∪ no_cache_headers);
     cache := Some (default "no-store" (cache o));
     body := body o |}.

Definition apiFetch (u : string) (o : FetchOptions) : M Response :=
  try_catch
    (do response ← fetch u (finalOptions o);
     if decide (status response = 401)
     then handleTokenExpired ;; throw (Error expired_message)
     else ret response)
    (λ error, throw error).

Arguments apiFetch : simpl never.

(** ** The shape of what the service functions return *)

Record ApiResult (D : Type) := {
  success : bool;
  data : option D;
  message : JsVal
}.
Arguments success {D} _.
Arguments data {D} _.
Arguments message {D} _.

Definition failure {D} (msg : JsVal) : ApiResult D :=
  {| success := false; data := None; message := msg |}.

Definition text (s : string) : JsVal := Some (JStr s).

Definition get_options (h : gmap string string) : FetchOptions :=
  {| method := Some "GET"; headers := Some h; cache := None; body := None |}.

Definition delete_options (h : gmap string string) : FetchOptions :=
  {| method := Some "DELETE"; headers := Some h; cache := None; body := None |}.

Definition post_options (h : gmap string string) (b : Body) : FetchOptions :=
  {| method := Some "POST"; headers := Some h; cache := None; body := Some b |}.

(** [error.detail || fallback] on the decoded body of a response that is
    not ok. *)
Definition detail_or (r : Response) (fallback : string) : Completion JsVal :=
  let! error := json r in
  let! detail := get (Some error) "detail" in
  Return (js_or detail (text fallback)).

(** ** The upload module *)

Definition checkDuplicates_body (fileList : list File) : string :=
  JSON_stringify (JObj [("filenames", JArr (map (λ f, JStr (file_name f)) fileList))]).

Definition checkDuplicates (fileList : list File) : M (ApiResult JSON) :=
  try_catch
    (do auth ← getAuthHeaderM;
     do api ← (λ b, ret (API_BASE_URL (env b)) b);
     do response ← apiFetch (api +:+ "/upload/check-duplicates")
       (post_options (<["Content-Type" := "application/json"]> auth)
                     (TextBody (checkDuplicates_body fileList)));
     if ok response then
       do data ← lift (json response);
       do results ← lift (get (Some data) "results");
       ret {| success := true;
              data := js_or results (Some (JArr []));
              message := None |}
     else
       do msg ← lift (detail_or response "檢查重複檔案失敗");
       ret (failure msg))
    (λ _, ret (failure (text "檢查重複檔案失敗，請檢查網路連線"))).

(** [{ files: File[], categories: {}, removeFileIds: [] }]. *)
Record UploadData := {
  files : list File;
  categories : JsVal;
  removeFileIds : JsVal
}.

Record UploadTask := {
  taskId : JsVal;
  task_message : JsVal
}.

(** [JSON.stringify(v || fallback)]. *)
Definition stringify_or (v : JsVal) (fallback : JSON) : string :=
  match js_or v (Some fallback) with
  | Some j => JSON_stringify j
  | None => JSON_stringify fallback
  end.

Definition batchUpload_form (uploadData : UploadData) : list (string * FormValue) :=
  map (λ f, ("files", FormFile f)) (files uploadData) ++
  [ ("categories", FormText (stringify_or (categories uploadData) (JObj [])));
    ("removeFileIds", FormText (stringify_or (removeFileIds uploadData) (JArr [])));
    ("startProcessing", FormText "true") ].

Definition batchUpload (uploadData : UploadData) : M (ApiResult UploadTask) :=
  try_catch
    (do permission ← checkPermissionM ADMIN;
     if negb (hasPermission permission)
     then ret (failure (JStr <$> permission_message permission))
     else
       let formData := FormData (batchUpload_form uploadData) in
       do api ← (λ b, ret (API_BASE_URL (env b)) b);
       do auth ← getAuthHeaderM;
       do response ← apiFetch (api +:+ "/upload/batch") (post_options auth formData);
       if ok response then
         do data ← lift (json response);
         do id ← lift (get (Some data) "taskId");
         do msg ← lift (get (Some data) "message");
         ret {| success := true;
                data := Some {| taskId := id;
                                task_message :=
                                  js_or msg (text "上傳任務已建立，開始處理檔案") |};
                message := None |}
       else
         do msg ← lift (detail_or response "建立上傳任務失敗");
         ret (failure msg))
    (λ _, ret (failure (text "建立上傳任務失敗，請檢查網路連線"))).

(** ** services/api/users.js *)

(** A user as the client maps it from the backend's list. *)
Record User := {
  user_id : JsVal;
  user_name : JsVal;
  user_username : JsVal;
  user_email : JsVal;
  user_role : JsVal;
  user_departmentId : JsVal;
  user_status : string
}.

Definition map_user (user : JSON) : Completion User :=
  let! id := get (Some user) "id" in
  let! full_name := get (Some user) "full_name" in
  let! username := get (Some user) "username" in
  let! email := get (Some user) "email" in
  let! role := get (Some user) "role" in
  let! department_id := get (Some user) "department_id" in
  let! is_active := get (Some user) "is_active" in
  Return {| user_id := id; user_name := full_name; user_username := username;
            user_email := email; user_role := role;
            user_departmentId := department_id;
            user_status := if truthy is_active then "active" else "inactive" |}.

(** [array.map(f)] for an [f] that may throw. *)
Fixpoint map_throwing {A B} (f : A → Completion B) (l : list A) : Completion (list B) :=
  match l with
  | [] => Return []
  | x :: r =>
      let! y := f x in
      let! ys := map_throwing f r in
      Return (y :: ys)
  end.

(** [(v || []).map(f)]: only an array has [map]. *)
Definition map_or_empty {B} (v : JsVal) (f : JSON → Completion B)
    : Completion (list B) :=
  match js_or v (Some (JArr [])) with
  | Some (JArr l) => map_throwing f l
  | _ => Throw TypeError
  end.

Definition getUsersByDepartment (departmentId : JsVal) : M (ApiResult (list User)) :=
  try_catch
    (do api ← (λ b, ret (API_BASE_URL (env b)) b);
     do auth ← getAuthHeaderM;
     do response ← apiFetch (api +:+ "/users/?department_id=" +:+ template departmentId)
       (get_options auth);
     if ok response then
       do data ← lift (json response);
       do items ← lift (get (Some data) "items");
       do mappedUsers ← lift (map_or_empty items map_user);
       ret {| success := true; data := Some mappedUsers; message := None |}
     else
       do msg ← lift (detail_or response "獲取使用者列表失敗");
       ret (failure msg))
    (λ _, ret (failure (text "獲取使用者列表失敗，請檢查網路連線"))).

Definition deleteUser (userId : JsVal) : M (ApiResult unit) :=
  try_catch
    (do permission ← checkPermissionM SUPER_ADMIN;
     if negb (hasPermission permission)
     then ret (failure (JStr <$> permission_message permission))
     else
       do api ← (λ b, ret (API_BASE_URL (env b)) b);
       do auth ← getAuthHeaderM;
       do response ← apiFetch (api +:+ "/users/" +:+ template userId)
         (delete_options auth);
       if ok response then
         do data ← lift (json response);
         do msg ← lift (get (Some data) "message");
         ret {| success := true; data := None;
                message := js_or msg (text "使用者刪除成功") |}
       else
         do msg ← lift (detail_or response "刪除使用者失敗");
         ret (failure msg))
    (λ _, ret (failure (text "刪除使用者失敗，請檢查網路連線"))).

(** ** services/api/departments.js *)

(** The loop of [deleteDepartment] over the listed users: [None] when every
    user was deleted, the failure to return otherwise. *)
Fixpoint delete_users (users : list User) : M (option (ApiResult unit)) :=
  match users with
  | [] => ret None
  | user :: rest =>
      do deleteResult ← deleteUser (user_id user);
      if negb (success deleteResult) then
        ret (Some (failure (text
          ("刪除處室失敗：無法刪除使用者「" +:+ template (user_name user) +:+ "」 - "
             +:+ template (message deleteResult)))))
      else delete_users rest
  end.

Definition delete_department_request (departmentId : JsVal) : M (ApiResult unit) :=
  do api ← (λ b, ret (API_BASE_URL (env b)) b);
  do auth ← getAuthHeaderM;
  do response ← apiFetch (api +:+ "/departments/" +:+ template departmentId)
    (delete_options auth);
  if ok response then
    do data ← lift (json response);
    do msg ← lift (get (Some data) "message");
    ret {| success := true; data := None;
           message := js_or msg (text "處室刪除成功") |}
  else
    do msg ← lift (detail_or response "刪除處室失敗");
    ret (failure msg).

Definition deleteDepartment (departmentId : JsVal) : M (ApiResult unit) :=
  try_catch
    (do permission ← checkPermissionM SUPER_ADMIN;
     if negb (hasPermission permission)
     then ret (failure (JStr <$> permission_message permission))
     else
       do usersResult ← getUsersByDepartment departmentId;
       do stopped ←
         match success usersResult, data usersResult with
         | true, Some (user :: users) => delete_users (user :: users)
         | _, _ => ret None
         end;
       match stopped with
       | Some result => ret result
       | None => delete_department_request departmentId
       end)
    (λ _, ret (failure (text "刪除處室失敗，請檢查網路連線"))).

(** ** The query-user module *)

Definition getAvailableFilesForPermissions (departmentId : JsVal) : M JSON :=
  try_catch
    (do api ← (λ b, ret (API_BASE_URL (env b)) b);
     do auth ← getAuthHeaderM;
     do response ← apiFetch
       (api +:+ "/query-users/available-files/" +:+ template departmentId)
       (get_options auth);
     if ok response then lift (json response)
     else
       do msg ← lift (detail_or response "獲取可授權文件失敗");
       throw (Error (template msg)))
    (λ error, throw error).

(** ** components/QueryUserPermissions.jsx *)

(** The state of the component that the grant picker reads and writes. *)
Record PermissionsView := {
  permissions : list JSON;
  categoriesData : list JSON;
  expandedCategories : list JsVal;
  grantForm_department_id : JsVal;
  grantForm_file_ids : list JsVal;
  toasts : list string
}.

(** [array.filter(p)] for a [p] that may throw. *)
Fixpoint filter_throwing {A} (p : A → Completion bool) (l : list A)
    : Completion (list A) :=
  match l with
  | [] => Return []
  | x :: r =>
      let! keep := p x in
      let! r' := filter_throwing p r in
      Return (if keep then x :: r' else r')
  end.

(** [{ ...category, files: category.files.filter(...) }]. *)
Definition filter_category (permittedFileIds : list JsVal) (category : JSON)
    : Completion JSON :=
  let! files := get (Some category) "files" in
  match files, category with
  | Some (JArr fs), JObj members =>
      let! kept := filter_throwing
                     (λ file, let! id := get (Some file) "id" in
                              Return (negb (set_has permittedFileIds id))) fs in
      Return (JObj (members ++ [("files", JArr kept)]))
  | _, _ => Throw TypeError
  end.

(** [category.files.length > 0] on a category built by [filter_category]. *)
Definition has_files (category : JSON) : bool :=
  match get (Some category) "files" with
  | Return (Some (JArr (_ :: _))) => true
  | _ => false
  end.

Definition filteredCategories (perms : list JSON) (data : JSON)
    : Completion (list JSON) :=
  let! ids := map_throwing (λ p, get (Some p) "file_id") perms in
  let permittedFileIds := new_Set ids in
  let! categories := get (Some data) "categories" in
  match categories with
  | Some (JArr cs) =>
      let! mapped := map_throwing (filter_category permittedFileIds) cs in
      Return (filter (λ c, has_files c = true) mapped)
  | _ => Throw TypeError
  end.

Definition category_id_of (category : JSON) : JsVal :=
  match get (Some category) "category_id" with
  | Return v => v
  | Throw _ => None
  end.

Definition loadAvailableFiles (view : PermissionsView) : M PermissionsView :=
  if negb (truthy (grantForm_department_id view)) then ret view
  else
    try_catch
      (do data ← getAvailableFilesForPermissions (grantForm_department_id view);
       do filtered ← lift (filteredCategories (permissions view) data);
       ret {| permissions := permissions view;
              categoriesData := filtered;
              expandedCategories := new_Set (map category_id_of filtered);
              grantForm_department_id := grantForm_department_id view;
              grantForm_file_ids := grantForm_file_ids view;
              toasts := toasts view |})
      (λ _, ret {| permissions := permissions view;
                   categoriesData := [];
                   expandedCategories := expandedCategories view;
                   grantForm_department_id := grantForm_department_id view;
                   grantForm_file_ids := grantForm_file_ids view;
                   toasts := toasts view ++ ["載入可用文件失敗"] |}).

(** ** Impersonation: entering a department and returning *)

(** [getUserInfo] of the super-admin dashboard. *)
Definition default_super_admin : JSON :=
  JObj [("name", JStr "系統管理員"); ("username", JStr "SuperAdmin");
        ("role", JStr "SUPER_ADMIN")].

Definition getUserInfo : M JSON :=
  try_catch
    (do userStr ← getItem "user";
     match present userStr with
     | Some s =>
         match JSON_parse s with
         | Some user => ret user
         | None => throw SyntaxError
         end
     | None => ret default_super_admin
     end)
    (λ _, ret default_super_admin).

(** A department of the list the dashboard shows. *)
Record Department := {
  dept_id : JsVal;
  dept_name : JsVal
}.

Definition superAdminUser_of (id name username : JsVal) : JSON :=
  object_literal
    [("id", id); ("name", name); ("username", username);
     ("role", text "SUPER_ADMIN")].

Definition tempUser_of (id username : JsVal) (dept : Department) : JSON :=
  object_literal
    [("id", id);
     ("username", username);
     ("name", text (template (dept_name dept) +:+ " 管理員 (系統管理員代理)"));
     ("role", text "ADMIN");
     ("departmentId", dept_id dept);
     ("departmentName", dept_name dept);
     ("isSuperAdminProxy", Some (JBool true));
     ("_originalRole", text "SUPER_ADMIN")].

(** The body of [enterDepartmentDashboard] once [currentUser] is known. *)
Definition enter_as (currentUser : JSON) (dept : Department) : M unit :=
  do existingSuperAdminUser ← getItem "superAdminUser";
  do _ ← match present existingSuperAdminUser with
         | Some _ => ret ()
         | None =>
             do id ← lift (get (Some currentUser) "id");
             do name ← lift (get (Some currentUser) "name");
             do username ← lift (get (Some currentUser) "username");
             setItem "superAdminUser"
               (JSON_stringify (superAdminUser_of id name username))
         end;
  do id ← lift (get (Some currentUser) "id");
  do username ← lift (get (Some currentUser) "username");
  setItem "user" (JSON_stringify (tempUser_of id username dept)) ;;
  navigate "/dashboard".

(** The dashboard's version reads the current user with [getUserInfo]. *)
Definition enterDepartmentDashboard (dept : Department) : M unit :=
  do currentUser ← getUserInfo;
  enter_as currentUser dept.

(** The version of components/superadmin/DepartmentManagement.jsx parses
    [localStorage.getItem('user') || '{}'] itself. *)
Definition enterDepartmentDashboard_management (dept : Department) : M unit :=
  do userStr ← getItem "user";
  match JSON_parse (default "{}" (present userStr)) with
  | Some currentUser => enter_as currentUser dept
  | None => throw SyntaxError
  end.

Definition returnToSuperAdmin : M unit :=
  try_catch
    (do superAdminUserStr ← getItem "superAdminUser";
     match present superAdminUserStr with
     | Some s =>
         match JSON_parse s with
         | Some superAdminUser =>
             setItem "user" (JSON_stringify superAdminUser) ;;
             removeItem "superAdminUser" ;;
             navigate "/super-admin"
         | None => throw SyntaxError
         end
     | None => ret ()
     end)
    (λ _, ret ()).

(** What Login.jsx stores after a successful login, and what the dashboard's
    [handleLogout] removes (on both of its paths). Neither touches the
    [superAdminUser] entry. *)
Definition Login_store (token : string) (user : JSON) : M unit :=
  setItem "isAuthenticated" "true" ;;
  setItem "token" token ;;
  setItem "user" (JSON_stringify user).

Definition handleLogout_clear : M unit :=
  removeItem "isAuthenticated" ;;
  removeItem "token" ;;
  removeItem "user".

(** Entering [n] departments in a row. *)
Fixpoint enter_all (enter : Department → M unit) (depts : list Department) : M unit :=
  match depts with
  | [] => ret ()
  | d :: rest => enter d ;; enter_all enter rest
  end.

(** The user object a storage holds, when it holds one. *)
Definition stored_user (ls : gmap string string) : option JSON :=
  s ← present (ls !! "user"); JSON_parse s.

(** ** The access-control resolver *)

(** Modelled from the spec: the backend's resolver, its files and its
    permission rows are not among the sources. A [KnowledgeFile] has a
    department and the flag [is_public] (section 3). *)
Record KnowledgeFile := {
  department_id : Z;
  is_public : bool
}.

(** Modelled from the spec: a [FilePermission] row, one per pair of query
    user and file (section 3). *)
Record FilePermission := {
  permission_id : Z;
  query_user_id : Z;
  file_id : Z
}.

(** Modelled from the spec: the two relations the resolver reads. *)
Record Resolver := {
  knowledge_files : gmap Z KnowledgeFile;
  file_permissions : list FilePermission
}.

(** Modelled from the spec: [file.is_public] of the file with id [f]. *)
Definition file_is_public (st : Resolver) (f : Z) : bool :=
  match knowledge_files st !! f with
  | Some file => is_public file
  | None => false
  end.

(** Modelled from the spec: a FilePermission row exists for the pair. *)
Definition has_permission_row (st : Resolver) (u f : Z) : bool :=
  existsb (λ p, bool_decide (query_user_id p = u ∧ file_id p = f))
          (file_permissions st).

(** Modelled from the spec: [canRead(query_user_id, file_id)] is true iff
    [file.is_public] or a FilePermission row exists for the pair
    (section 4.3). *)
Definition canRead (st : Resolver) (u f : Z) : bool :=
  file_is_public st f || has_permission_row st u f.

(** Modelled from the spec: changing a file's visibility touches the flag of
    that file and no permission row; grants are never deleted when a file
    becomes public (section 4.3, rationale). *)
Definition set_is_public (f : Z) (public : bool) (st : Resolver) : Resolver :=
  {| knowledge_files :=
       alter (λ file, {| department_id := department_id file; is_public := public |})
             f (knowledge_files st);
     file_permissions := file_permissions st |}.

(** ** The statements' vocabulary *)

(** The level a role stands for: SUPER_ADMIN is 2, ADMIN is 1, anything else
    is 0. The role is read the way a property key is. *)
Definition hierarchy_level (role : JsVal) : Z :=
  if decide (template role = "SUPER_ADMIN") then 2
  else if decide (template role = "ADMIN") then 1
  else 0.

Definition proxy_header : string := "X-Proxy-Department-Id".

Definition bearer (ls : gmap string string) : string :=
  "Bearer " +:+ template_item (ls !! "token").

(** A file of a picker category is one the user already holds a grant for. *)
Definition already_granted (perms : list JSON) (file : JSON) : Prop :=
  ∃ p, p ∈ perms ∧
       same_value_zero (member file "id") (member p "file_id") = true.

(** The browser once [req] has gone out. *)
Definition after_request (b : Browser) (req : Request) : Browser :=
  {| env := env b; localStorage := localStorage b; href := href b;
     route := route b; remote := remote b; sent := sent b ++ [req] |}.

(** The request [batchUpload] makes. *)
Definition batchUpload_request (b : Browser) (auth : gmap string string)
    (uploadData : UploadData) : Request :=
  {| url := API_BASE_URL (env b) +:+ "/upload/batch";
     options := finalOptions
                  (post_options auth (FormData (batchUpload_form uploadData))) |}.

(** The request [checkDuplicates] makes, and the filenames it carries. *)
Definition candidate_filenames (fileList : list File) : JSON :=
  JObj [("filenames", JArr (map (λ f, JStr (file_name f)) fileList))].

Definition checkDuplicates_request (b : Browser) (auth : gmap string string)
    (fileList : list File) : Request :=
  {| url := API_BASE_URL (env b) +:+ "/upload/check-duplicates";
     options := finalOptions
                  (post_options (<["Content-Type" := "application/json"]> auth)
                                (TextBody (checkDuplicates_body fileList))) |}.

(** What [enterDepartmentDashboard] leaves in storage when the current user
    is [user]. *)
Definition entered_storage (user : JSON) (dept : Department)
    (ls : gmap string string) : gmap string string :=
  <["user" := JSON_stringify
                (tempUser_of (member user "id") (member user "username") dept)]>
    (match present (ls !! "superAdminUser") with
     | Some _ => ls
     | None =>
         <["superAdminUser" :=
             JSON_stringify (superAdminUser_of (member user "id") (member user "name")
                               (member user "username"))]> ls
     end).

Definition entered (user : JSON) (dept : Department) (b : Browser) : Browser :=
  {| env := env b; localStorage := entered_storage user dept (localStorage b);
     href := href b; route := "/dashboard"; remote := remote b; sent := sent b |}.

(** The storage while a department is entered: the saved identity is [saved]
    and some acting user is stored. *)
Definition impersonating (saved : JSON) (token : option string)
    (ls : gmap string string) : Prop :=
  ls !! "superAdminUser" = Some (JSON_stringify saved)
  ∧ ls !! "token" = token
  ∧ ∃ acting, stored_user ls = Some acting ∧ acting ≠ JNull.

(** The calls [deleteDepartment] makes, by method and address. *)
Definition listing_call (c : Config) (departmentId : JsVal) : option string * string :=
  (Some "GET", API_BASE_URL c +:+ "/users/?department_id=" +:+ template departmentId).

Definition user_delete_call (c : Config) (userId : JsVal) : option string * string :=
  (Some "DELETE", API_BASE_URL c +:+ "/users/" +:+ template userId).

Definition department_delete_call (c : Config) (departmentId : JsVal)
    : option string * string :=
  (Some "DELETE", API_BASE_URL c +:+ "/departments/" +:+ template departmentId).

(** The picker's list in the words of its description: each category keeps
    the files that are not granted yet, and a category left without files is
    dropped. *)
Definition ungranted (perms : list JSON) (file : JSON) : bool :=
  negb (set_has (map (λ p, member p "file_id") perms) (member file "id")).

Definition without_granted (perms : list JSON) (category : JSON) : JSON :=
  match category, member category "files" with
  | JObj members, Some (JArr fs) =>
      JObj (members ++ [("files", JArr (filter (λ f, ungranted perms f = true) fs))])
  | _, _ => category
  end.

(** A category as the backend sends it: an object whose [files] is an array
    of objects. *)
Definition category_shape (category : JSON) : Prop :=
  ∃ members fs, category = JObj members
                ∧ member category "files" = Some (JArr fs)
                ∧ Forall (λ f, f ≠ JNull) fs.

(** ** config/config.js: spelling of paths *)

(** [s] ends with a slash: the pattern [/\/$/] matches. *)
Definition ends_with_slash (s : string) : bool :=
  match String.rev s with
  | String "/"%char _ => true
  | _ => false
  end.

(** ** services/api/auth.js *)

(** [v?.k]. *)
Definition get_optional (v : JsVal) (k : string) : Completion JsVal :=
  match v with
  | None | Some JNull => Return None
  | _ => get v k
  end.

(** [a || b], where [b] is evaluated only when [a] is falsy. *)
Definition or_else (a : JsVal) (b : Completion JsVal) : Completion JsVal :=
  if truthy a then Return a else b.

(** [{ user, token }] of a successful login. *)
Record LoginData := {
  login_user : JSON;
  login_token : JsVal
}.

Definition login_options (username password : string) : FetchOptions :=
  {| method := Some "POST";
     headers := Some {[ "Content-Type" := "application/json" ]};
     cache := None;
     body := Some (TextBody (JSON_stringify
               (JObj [("username", JStr username); ("password", JStr password)]))) |}.

(** [login] calls [fetch] itself, not [apiFetch], and decodes the body before
    it looks at the status. *)
Definition login (username password : string) : M (ApiResult LoginData) :=
  try_catch
    (do api ← (λ b, ret (API_BASE_URL (env b)) b);
     do response ← fetch (api +:+ "/auth/login") (login_options username password);
     do data ← lift (json response);
     if ok response then
       do user ← lift (get (Some data) "user");
       do id ← lift (get user "id");
       do username' ← lift (get user "username");
       do name' ← lift (get user "name");
       do name ← lift (or_else name' (get user "fullName"));
       do email ← lift (get user "email");
       do role ← lift (get user "role");
       do department ← lift (get user "department");
       do departmentId ← lift (get_optional department "id");
       do department' ← lift (get user "department");
       do departmentName ← lift (get_optional department' "name");
       do isSuperAdmin ← lift (get user "isSuperAdmin");
       do token ← lift (get (Some data) "token");
       ret {| success := true;
              data := Some
                {| login_user := object_literal
                     [("id", id); ("username", username'); ("name", name);
                      ("email", email); ("role", role);
                      ("departmentId", js_or departmentId (Some JNull));
                      ("departmentName", js_or departmentName (Some JNull));
                      ("isSuperAdmin", js_or isSuperAdmin (Some (JBool false)))];
                   login_token := token |};
              message := text "登入成功" |}
     else
       do detail ← lift (get (Some data) "detail");
       do msg ← lift (or_else detail (get (Some data) "message"));
       ret (failure (js_or msg (text "帳號或密碼錯誤"))))
    (λ _, ret (failure (text "登入失敗，請檢查網路連線或稍後再試"))).

Definition logout_options (token : option string) : FetchOptions :=
  {| method := Some "POST";
     headers := Some {[ "Authorization" := "Bearer " +:+ template_item token ]};
     cache := None;
     body := None |}.

Definition logged_out : ApiResult unit :=
  {| success := true; data := None; message := text "登出成功" |}.

Definition logout : M (ApiResult unit) :=
  try_catch
    (do token ← getItem "token";
     do api ← (λ b, ret (API_BASE_URL (env b)) b);
     do response ← fetch (api +:+ "/auth/logout") (logout_options token);
     removeItem "token" ;;
     removeItem "user" ;;
     if ok response then ret logged_out else ret logged_out)
    (λ _, removeItem "token" ;;
          removeItem "user" ;;
          ret logged_out).

Definition verifyToken (token : JsVal) : M (ApiResult JsVal) :=
  try_catch
    (do api ← (λ b, ret (API_BASE_URL (env b)) b);
     do response ← apiFetch (api +:+ "/auth/verify")
       (get_options {[ "Authorization" := "Bearer " +:+ template token ]});
     if ok response then
       do data ← lift (json response);
       do user ← lift (get (Some data) "user");
       ret {| success := true; data := Some user; message := text "Token 有效" |}
     else ret (failure (text "Token 無效或已過期")))
    (λ _, ret (failure (text "驗證失敗"))).

(** ** services/utils/helpers.js *)

Definition getCurrentUser (ls : gmap string string) : JSON :=
  match present (ls !! "user") with
  | Some userStr =>
      match JSON_parse userStr with
      | Some user => user
      | None => JNull
      end
  | None => JNull
  end.

(** ** components/Login.jsx *)

(** What [handleSubmit] does to the component and to its parent: it calls
    [onLogin(true, role)] or shows an error. *)
Inductive LoginOutcome :=
| onLogin (status : bool) (role : JsVal)
| setError (error : JsVal).

Definition handleSubmit (username password : string) : M LoginOutcome :=
  try_catch
    (do response ← login username password;
     if success response then
       match data response with
       | Some d =>
           setItem "isAuthenticated" "true" ;;
           setItem "token" (template (login_token d)) ;;
           setItem "user" (JSON_stringify (login_user d)) ;;
           do role ← lift (get (Some (login_user d)) "role");
           ret (onLogin true role)
       | None => throw TypeError
       end
     else ret (setError (js_or (message response) (text "帳號或密碼錯誤"))))
    (λ _, ret (setError (text "登入失敗，請稍後再試"))).

(** ** App.jsx *)

Record AppState := {
  isAuthenticated : bool;
  userRole : JsVal
}.

(** [checkAuth], run when the app mounts and at every [storage] and
    [authChange] event. *)
Definition checkAuth (ls : gmap string string) : AppState :=
  {| isAuthenticated := bool_decide (ls !! "isAuthenticated" = Some "true");
     userRole :=
       match present (ls !! "user") with
       | Some userStr =>
           match JSON_parse userStr with
           | Some user =>
               match get (Some user) "role" with
               | Return role => role
               | Throw _ => Some JNull
               end
           | None => Some JNull
           end
       | None => Some JNull
       end |}.

(** [handleLogin], the [onLogin] the login page is given. *)
Definition handleLogin (status : bool) (role : JsVal) : AppState :=
  {| isAuthenticated := status; userRole := role |}.

(** The [Route] that matches the location, and what it renders. *)
Inductive Location := Root | SuperAdminPath | DashboardPath | Elsewhere.

Inductive Element :=
| LoginPage
| SuperAdminDashboard
| Dashboard
| Navigate (to : Location).

(** [userRole === 'SUPER_ADMIN']. *)
Definition is_SUPER_ADMIN (role : JsVal) : bool :=
  match role with
  | Some (JStr s) => bool_decide (s = "SUPER_ADMIN")
  | _ => false
  end.

Definition App (st : AppState) (l : Location) : Element :=
  match l with
  | Root =>
      if isAuthenticated st then
        if is_SUPER_ADMIN (userRole st) then Navigate SuperAdminPath
        else Navigate DashboardPath
      else LoginPage
  | SuperAdminPath =>
      if isAuthenticated st && is_SUPER_ADMIN (userRole st)
      then SuperAdminDashboard else Navigate Root
  | DashboardPath =>
      if isAuthenticated st && negb (is_SUPER_ADMIN (userRole st))
      then Dashboard else Navigate Root
  | Elsewhere => Navigate Root
  end.

(** Rendering at a location and following [Navigate] at most [n] times. *)
Fixpoint settle (n : nat) (st : AppState) (l : Location) : Element :=
  match App st l, n with
  | Navigate to, S n' => settle n' st to
  | e, _ => e
  end.

(** ** components/Dashboard.jsx *)

(** [handleLogout]; the [authChange] event it dispatches makes [App] run
    [checkAuth] on the storage it leaves. *)
Definition handleLogout : M unit :=
  try_catch
    (logout ;;
     removeItem "isAuthenticated" ;;
     removeItem "token" ;;
     removeItem "user" ;;
     navigate "/")
    (λ _, removeItem "isAuthenticated" ;;
          removeItem "token" ;;
          removeItem "user" ;;
          navigate "/").

Definition default_admin : JSON :=
  JObj [("name", JStr "管理員"); ("username", JStr "Admin");
        ("role", JStr "admin"); ("departmentId", JNull)].

(** [getUserInfo] of the department dashboard. *)
Definition Dashboard_getUserInfo (ls : gmap string string) : JSON :=
  match present (ls !! "user") with
  | Some userStr =>
      match JSON_parse userStr with
      | Some user => user
      | None => default_admin
      end
  | None => default_admin
  end.

(** [getDepartmentName], for [user = getUserInfo()]. Reading a property of
    [null] throws while the component renders. *)
Definition getDepartmentName (user : JSON) : Completion JsVal :=
  let! departmentName := get (Some user) "departmentName" in
  if truthy departmentName then Return departmentName
  else
    let! departmentId := get (Some user) "departmentId" in
    if negb (truthy departmentId) then Return (text "系統")
    else Return (text "未知處室").

(** ** services/api/departments.js, continued *)

Definition json_headers (auth : gmap string string) : gmap string string :=
  <["Content-Type" := "application/json"]> auth.

Definition put_options (h : gmap string string) (b : Body) : FetchOptions :=
  {| method := Some "PUT"; headers := Some h; cache := None; body := Some b |}.

Definition addDepartment (departmentData : JSON) : M (ApiResult JSON) :=
  try_catch
    (do permission ← checkPermissionM SUPER_ADMIN;
     if negb (hasPermission permission)
     then ret (failure (JStr <$> permission_message permission))
     else
       do api ← (λ b, ret (API_BASE_URL (env b)) b);
       do auth ← getAuthHeaderM;
       do response ← apiFetch (api +:+ "/departments/")
         (post_options (json_headers auth)
                       (TextBody (JSON_stringify departmentData)));
       if ok response then
         do data ← lift (json response);
         do id ← lift (get (Some data) "id");
         do name ← lift (get (Some data) "name");
         do description ← lift (get (Some data) "description");
         do color ← lift (get (Some data) "color");
         do createdAt ← lift (get (Some data) "createdAt");
         ret {| success := true;
                data := Some (object_literal
                  [("id", id); ("name", name); ("description", description);
                   ("color", color); ("userCount", Some (JNum 0));
                   ("fileCount", Some (JNum 0)); ("createdAt", createdAt)]);
                message := text "處室新增成功" |}
       else
         do msg ← lift (detail_or response "新增處室失敗");
         ret (failure msg))
    (λ _, ret (failure (text "新增處室失敗，請檢查網路連線"))).

Definition updateDepartment (departmentId : JsVal) (departmentData : JSON)
    : M (ApiResult unit) :=
  try_catch
    (do permission ← checkPermissionM SUPER_ADMIN;
     if negb (hasPermission permission)
     then ret (failure (JStr <$> permission_message permission))
     else
       do api ← (λ b, ret (API_BASE_URL (env b)) b);
       do auth ← getAuthHeaderM;
       do response ← apiFetch (api +:+ "/departments/" +:+ template departmentId)
         (put_options (json_headers auth)
                      (TextBody (JSON_stringify departmentData)));
       if ok response then
         do data ← lift (json response);
         do msg ← lift (get (Some data) "message");
         ret {| success := true; data := None;
                message := js_or msg (text "處室更新成功") |}
       else
         do msg ← lift (detail_or response "更新處室失敗");
         ret (failure msg))
    (λ _, ret (failure (text "更新處室失敗，請檢查網路連線"))).

(** ** services/api/users.js, continued *)

(** [getUsers(departmentId = null)]: the default stands in for [undefined]
    only. *)
Definition getUsers (departmentId : JsVal) : M (ApiResult (list User)) :=
  let departmentId := match departmentId with None => Some JNull | _ => departmentId end in
  try_catch
    (do api ← (λ b, ret (API_BASE_URL (env b)) b);
     let url := api +:+ "/users/" in
     let url := if truthy departmentId
                then url +:+ "?department_id=" +:+ template departmentId
                else url in
     do auth ← getAuthHeaderM;
     do response ← apiFetch url (get_options auth);
     if ok response then
       do data ← lift (json response);
       do items ← lift (get (Some data) "items");
       do mappedUsers ← lift (map_or_empty items map_user);
       ret {| success := true; data := Some mappedUsers; message := None |}
     else
       do msg ← lift (detail_or response "獲取使用者列表失敗");
       ret (failure msg))
    (λ _, ret (failure (text "獲取使用者列表失敗，請檢查網路連線"))).

(** ** services/api/files.js *)

(** What [deleteFile] returns: [success] is the body's own [success] when it
    has one, and need not be a boolean. *)
Record Deletion := {
  deletion_success : JsVal;
  deletion_message : JsVal
}.

Definition deleteFile (fileId : JsVal) : M Deletion :=
  try_catch
    (do permission ← checkPermissionM ADMIN;
     if negb (hasPermission permission)
     then ret {| deletion_success := Some (JBool false);
                 deletion_message := JStr <$> permission_message permission |}
     else
       do api ← (λ b, ret (API_BASE_URL (env b)) b);
       do auth ← getAuthHeaderM;
       do response ← apiFetch (api +:+ "/files/" +:+ template fileId)
         (delete_options auth);
       if ok response then
         do data ← lift (json response);
         do success ← lift (get (Some data) "success");
         do msg ← lift (get (Some data) "message");
         ret {| deletion_success :=
                  match success with
                  | Some v => Some v
                  | None => Some (JBool true)
                  end;
                deletion_message := js_or msg (text "檔案刪除成功") |}
       else
         do msg ← lift (detail_or response "檔案刪除失敗");
         ret {| deletion_success := Some (JBool false); deletion_message := msg |})
    (λ _, ret {| deletion_success := Some (JBool false);
                 deletion_message := text "檔案刪除失敗，請檢查網路連線" |}).

(** [updateFile] asks for no permission and does not read the body of an
    answer that is ok. *)
Definition updateFile (fileId : JsVal) (data : JSON) : M (ApiResult unit) :=
  try_catch
    (do api ← (λ b, ret (API_BASE_URL (env b)) b);
     do auth ← getAuthHeaderM;
     do response ← apiFetch (api +:+ "/files/" +:+ template fileId)
       (put_options (json_headers auth) (TextBody (JSON_stringify data)));
     if ok response then
       ret {| success := true; data := None; message := text "檔案資訊已更新" |}
     else
       do msg ← lift (detail_or response "更新檔案資訊失敗");
       ret (failure msg))
    (λ _, ret (failure (text "更新檔案資訊失敗，請檢查網路連線"))).

(** ** components/QueryUserPermissions.jsx: the selection of the grant form

    A handler is given the state of the render it was created in and returns
    the next state. File ids are numbers or strings, compared as primitives
    are: [includes] with SameValueZero and [===] agree on them. *)

Definition includes (l : list JsVal) (x : JsVal) : bool :=
  existsb (same_value_zero x) l.

(** [a === b]. *)
Definition strict_equal (a b : JsVal) : bool := same_value_zero a b.

(** [[...new Set(l)]]: the values of [l] in the order they first occur. *)
Fixpoint Set_add_all (s l : list JsVal) : list JsVal :=
  match l with
  | [] => s
  | x :: r => Set_add_all (if set_has s x then s else s ++ [x]) r
  end.

Definition spread_Set (l : list JsVal) : list JsVal := Set_add_all [] l.

Definition setGrantForm_file_ids (view : PermissionsView) (ids : list JsVal)
    : PermissionsView :=
  {| permissions := permissions view;
     categoriesData := categoriesData view;
     expandedCategories := expandedCategories view;
     grantForm_department_id := grantForm_department_id view;
     grantForm_file_ids := ids;
     toasts := toasts view |}.

Definition resetGrantForm (view : PermissionsView) : PermissionsView :=
  {| permissions := permissions view;
     categoriesData := [];
     expandedCategories := new_Set [];
     grantForm_department_id := Some JNull;
     grantForm_file_ids := [];
     toasts := toasts view |}.

Definition toggleFileSelection (fileId : JsVal) (view : PermissionsView)
    : PermissionsView :=
  setGrantForm_file_ids view
    (if includes (grantForm_file_ids view) fileId
     then filter (λ id, strict_equal id fileId = false) (grantForm_file_ids view)
     else grantForm_file_ids view ++ [fileId]).

(** [categoriesData.find(c => c.category_id === categoryId)]. *)
Fixpoint find_category (categoryId : JsVal) (cs : list JSON) : Completion JsVal :=
  match cs with
  | [] => Return undefined
  | c :: r =>
      let! id := get (Some c) "category_id" in
      if strict_equal id categoryId then Return (Some c)
      else find_category categoryId r
  end.

(** [category.files.map(f => f.id)]. *)
Definition categoryFileIds (category : JsVal) : Completion (list JsVal) :=
  let! files := get category "files" in
  match files with
  | Some (JArr fs) => map_throwing (λ f, get (Some f) "id") fs
  | _ => Throw TypeError
  end.

Definition toggleCategorySelection (categoryId : JsVal) (view : PermissionsView)
    : Completion PermissionsView :=
  let! category := find_category categoryId (categoriesData view) in
  if negb (truthy category) then Return view
  else
    let! ids := categoryFileIds category in
    let allSelected := forallb (includes (grantForm_file_ids view)) ids in
    if allSelected then
      Return (setGrantForm_file_ids view
                (filter (λ id, includes ids id = false) (grantForm_file_ids view)))
    else
      Return (setGrantForm_file_ids view
                (spread_Set (grantForm_file_ids view ++ ids))).

(** [array.flatMap(f)] for an [f] that may throw. *)
Fixpoint flatMap_throwing {A B} (f : A → Completion (list B)) (l : list A)
    : Completion (list B) :=
  match l with
  | [] => Return []
  | x :: r =>
      let! ys := f x in
      let! rest := flatMap_throwing f r in
      Return (ys ++ rest)
  end.

Definition selectAllFiles (view : PermissionsView) : Completion PermissionsView :=
  let! allFileIds := flatMap_throwing (λ c, categoryFileIds (Some c))
                       (categoriesData view) in
  Return (setGrantForm_file_ids view allFileIds).

Definition deselectAllFiles (view : PermissionsView) : PermissionsView :=
  setGrantForm_file_ids view [].

Definition isCategorySelected (categoryId : JsVal) (view : PermissionsView)
    : Completion bool :=
  let! category := find_category categoryId (categoriesData view) in
  if negb (truthy category) then Return false
  else
    let! ids := categoryFileIds category in
    Return (bool_decide (0 < length ids)%nat
            && forallb (includes (grantForm_file_ids view)) ids).

Definition isCategoryPartiallySelected (categoryId : JsVal) (view : PermissionsView)
    : Completion bool :=
  let! category := find_category categoryId (categoriesData view) in
  if negb (truthy category) then Return false
  else
    let! ids := categoryFileIds category in
    let selectedCount :=
      length (filter (λ id, includes (grantForm_file_ids view) id = true) ids) in
    Return (bool_decide (0 < selectedCount)%nat
            && bool_decide (selectedCount < length ids)%nat).

(** ** The upload module, continued *)

Definition getUploadProgress (taskId : JsVal) : M (ApiResult JsVal) :=
  try_catch
    (do api ← (λ b, ret (API_BASE_URL (env b)) b);
     do auth ← getAuthHeaderM;
     do response ← apiFetch (api +:+ "/upload/progress/" +:+ template taskId)
       (get_options auth);
     if ok response then
       do result ← lift (json response);
       do data ← lift (get (Some result) "data");
       ret {| success := true; data := Some data; message := None |}
     else
       do msg ← lift (detail_or response "獲取上傳進度失敗");
       ret (failure msg))
    (λ _, ret (failure (text "獲取上傳進度失敗，請檢查網路連線"))).

Definition getUserUploadTasks : M (ApiResult JsVal) :=
  try_catch
    (do api ← (λ b, ret (API_BASE_URL (env b)) b);
     do auth ← getAuthHeaderM;
     do response ← apiFetch (api +:+ "/upload/tasks") (get_options auth);
     if ok response then
       do data ← lift (json response);
       do items ← lift (get (Some data) "items");
       ret {| success := true; data := Some (js_or items (Some (JArr [])));
              message := None |}
     else
       do msg ← lift (detail_or response "獲取上傳任務列表失敗");
       ret (failure msg))
    (λ _, ret (failure (text "獲取上傳任務列表失敗，請檢查網路連線"))).

Definition deleteUploadTask (taskId : JsVal) : M (ApiResult unit) :=
  try_catch
    (do api ← (λ b, ret (API_BASE_URL (env b)) b);
     do auth ← getAuthHeaderM;
     do response ← apiFetch (api +:+ "/upload/tasks/" +:+ template taskId)
       (delete_options auth);
     if ok response then
       do data ← lift (json response);
       do msg ← lift (get (Some data) "message");
       ret {| success := true; data := None;
              message := js_or msg (text "任務記錄已刪除") |}
     else
       do msg ← lift (detail_or response "刪除任務失敗");
       ret (failure msg))
    (λ _, ret (failure (text "刪除任務失敗，請檢查網路連線"))).

(** ** The query-user module, continued *)

(** [new URLSearchParams(params).toString()]: the names and values of the
    object's members as application/x-www-form-urlencoded text. Letters,
    digits and [*-._] stand for themselves, a space becomes [+], and every
    other byte of the UTF-8 text is written as [%] and two capital
    hexadecimal digits. *)
Definition urlencoded_plain (c : ascii) : bool :=
  let n := Z.of_N (N_of_ascii c) in
  (48 <=? n) && (n <=? 57) || (65 <=? n) && (n <=? 90)
  || (97 <=? n) && (n <=? 122)
  || bool_decide (c ∈ ["*"; "-"; "."; "_"]%char).

Definition HEX_digit (n : N) : ascii :=
  if (n <? 10)%N then ascii_of_N (48 + n) else ascii_of_N (55 + n).

Fixpoint urlencode (s : string) : string :=
  match s with
  | "" => ""
  | String c r =>
      if urlencoded_plain c then String c (urlencode r)
      else if decide (c = " "%char) then String "+" (urlencode r)
      else
        let n := N_of_ascii c in
        String "%" (String (HEX_digit (n / 16))
                      (String (HEX_digit (n mod 16)) (urlencode r)))
  end.

Fixpoint join_with (sep : string) (l : list string) : string :=
  match l with
  | [] => ""
  | [x] => x
  | x :: r => x +:+ sep +:+ join_with sep r
  end.

Definition URLSearchParams_toString (params : list (string * JsVal)) : string :=
  join_with "&" (map (λ p, urlencode p.1 +:+ "=" +:+ urlencode (template p.2)) params).

(** [params] is the list of the members of the object the caller builds. *)
Definition getQueryUserPermissions (userId : JsVal) (params : list (string * JsVal))
    : M JSON :=
  try_catch
    (let queryString := URLSearchParams_toString params in
     do api ← (λ b, ret (API_BASE_URL (env b)) b);
     let url :=
       if negb (bool_decide (queryString = ""))
       then api +:+ "/query-users/" +:+ template userId +:+ "/permissions?"
                +:+ queryString
       else api +:+ "/query-users/" +:+ template userId +:+ "/permissions" in
     do auth ← getAuthHeaderM;
     do response ← apiFetch url (get_options auth);
     if ok response then lift (json response)
     else
       do msg ← lift (detail_or response "獲取權限列表失敗");
       throw (Error (template msg)))
    (λ error, throw error).

Definition batchGrantPermissions (userId : JsVal) (batchData : JSON) : M JSON :=
  try_catch
    (do api ← (λ b, ret (API_BASE_URL (env b)) b);
     do auth ← getAuthHeaderM;
     do response ← apiFetch
       (api +:+ "/query-users/" +:+ template userId +:+ "/permissions/batch")
       (post_options (json_headers auth) (TextBody (JSON_stringify batchData)));
     if ok response then lift (json response)
     else
       do msg ← lift (detail_or response "批次授予權限失敗");
       throw (Error (template msg)))
    (λ error, throw error).

(** [userId] is not used. *)
Definition revokeFilePermission (userId permissionId : JsVal) : M JSON :=
  try_catch
    (do api ← (λ b, ret (API_BASE_URL (env b)) b);
     do auth ← getAuthHeaderM;
     do response ← apiFetch
       (api +:+ "/query-users/permissions/" +:+ template permissionId)
       (delete_options auth);
     if ok response then lift (json response)
     else
       do msg ← lift (detail_or response "撤銷權限失敗");
       throw (Error (template msg)))
    (λ error, throw error).

(** ** components/QueryUserPermissions.jsx: granting and revoking *)

(** The state of the component beside the grant picker's. The texts of
    [toast.error] are kept in the picker's [toasts], those of [toast.success]
    in [toast_successes]. *)
Record Panel := {
  panel_view : PermissionsView;
  selectedDepartment : JsVal;
  loading : bool;
  showGrantDialog : bool;
  showRevokeConfirm : JsVal;
  toast_successes : list string
}.

Definition with_view (f : PermissionsView → PermissionsView) (p : Panel) : Panel :=
  {| panel_view := f (panel_view p);
     selectedDepartment := selectedDepartment p;
     loading := loading p;
     showGrantDialog := showGrantDialog p;
     showRevokeConfirm := showRevokeConfirm p;
     toast_successes := toast_successes p |}.

Definition setLoading (l : bool) (p : Panel) : Panel :=
  {| panel_view := panel_view p;
     selectedDepartment := selectedDepartment p;
     loading := l;
     showGrantDialog := showGrantDialog p;
     showRevokeConfirm := showRevokeConfirm p;
     toast_successes := toast_successes p |}.

Definition setShowGrantDialog (s : bool) (p : Panel) : Panel :=
  {| panel_view := panel_view p;
     selectedDepartment := selectedDepartment p;
     loading := loading p;
     showGrantDialog := s;
     showRevokeConfirm := showRevokeConfirm p;
     toast_successes := toast_successes p |}.

Definition setShowRevokeConfirm (v : JsVal) (p : Panel) : Panel :=
  {| panel_view := panel_view p;
     selectedDepartment := selectedDepartment p;
     loading := loading p;
     showGrantDialog := showGrantDialog p;
     showRevokeConfirm := v;
     toast_successes := toast_successes p |}.

Definition toast_success (msg : string) (p : Panel) : Panel :=
  {| panel_view := panel_view p;
     selectedDepartment := selectedDepartment p;
     loading := loading p;
     showGrantDialog := showGrantDialog p;
     showRevokeConfirm := showRevokeConfirm p;
     toast_successes := toast_successes p ++ [msg] |}.

Definition toast_error (msg : string) (p : Panel) : Panel :=
  with_view (λ view,
    {| permissions := permissions view;
       categoriesData := categoriesData view;
       expandedCategories := expandedCategories view;
       grantForm_department_id := grantForm_department_id view;
       grantForm_file_ids := grantForm_file_ids view;
       toasts := toasts view ++ [msg] |}) p.

Definition setPermissions (perms : list JSON) (p : Panel) : Panel :=
  with_view (λ view,
    {| permissions := perms;
       categoriesData := categoriesData view;
       expandedCategories := expandedCategories view;
       grantForm_department_id := grantForm_department_id view;
       grantForm_file_ids := grantForm_file_ids view;
       toasts := toasts view |}) p.

(** An array element as [JSON.stringify] writes it. *)
Definition element (v : JsVal) : JSON := default JNull v.

Section QueryUserPermissions.

(** The id of the user the panel was opened for, and the text an error the
    engine raises carries as its [message]; the text of an [Error] the
    program raises is given where it is raised. *)
Variable userId : JsVal.
Variable engine_message : Exn → string.

Definition error_message (e : Exn) : string :=
  match e with
  | Error msg => msg
  | _ => engine_message e
  end.

(** [loadPermissions]. The list it reads is kept by [setPermissions]
    whatever it is; the render that follows calls [permissions.reduce], which
    only an array has. *)
Definition loadPermissions (p : Panel) : M Panel :=
  do loaded ← try_catch
    (let params :=
       if truthy (selectedDepartment p)
       then [("department_id", selectedDepartment p)] else [] in
     do data ← getQueryUserPermissions userId params;
     do items ← lift (get (Some data) "items");
     ret (Some (js_or items (Some (JArr [])))))
    (λ _, ret None);
  match loaded with
  | Some (Some (JArr items)) => ret (setLoading false (setPermissions items p))
  | Some _ => throw TypeError
  | None => ret (setLoading false (toast_error "載入權限失敗" p))
  end.

(** [handleGrantPermission]. [loadPermissions] is started and not awaited:
    it runs after the handler's own steps, and what it throws is not the
    handler's to catch. *)
Definition handleGrantPermission (p : Panel) : M Panel :=
  let grantForm := panel_view p in
  if negb (truthy (grantForm_department_id grantForm))
     || (length (grantForm_file_ids grantForm) =? 0)%nat
  then ret (toast_error "請選擇處室和文件" p)
  else
    do failed ← try_catch
      (batchGrantPermissions userId
         (JObj [("file_ids", JArr (map element (grantForm_file_ids grantForm)))]) ;;
       ret None)
      (λ error, ret (Some error));
    match failed with
    | None =>
        loadPermissions
          (setLoading false
             (with_view resetGrantForm
                (setShowGrantDialog false
                   (toast_success
                      ("已授予 "
                       +:+ string_of_Z (Z.of_nat (length (grantForm_file_ids grantForm)))
                       +:+ " 個文件的訪問權限") p))))
    | Some error =>
        ret (setLoading false
               (toast_error
                  (if bool_decide (error_message error = "") then "授權失敗"
                   else error_message error) p))
    end.

Definition handleRevokePermission (permissionId : JsVal) (p : Panel) : M Panel :=
  do failed ← try_catch
    (revokeFilePermission userId permissionId ;; ret false)
    (λ _, ret true);
  if failed then ret (setLoading false (toast_error "撤銷失敗" p))
  else
    loadPermissions
      (setLoading false (setShowRevokeConfirm (Some JNull) (toast_success "權限已撤銷" p))).

End QueryUserPermissions.

(** The filter above the list. Its [onChange] stores [parseInt] of the chosen
    option's value, the id of a department, or null for all departments;
    the list itself is loaded again by the next [loadPermissions]. *)
Definition setSelectedDepartment (d : JsVal) (p : Panel) : Panel :=
  {| panel_view := panel_view p;
     selectedDepartment := d;
     loading := loading p;
     showGrantDialog := showGrantDialog p;
     showRevokeConfirm := showRevokeConfirm p;
     toast_successes := toast_successes p |}.

(** The button that opens the grant dialog:
    [setShowGrantDialog(true); resetGrantForm()]. *)
Definition openGrantDialog (p : Panel) : Panel :=
  with_view resetGrantForm (setShowGrantDialog true p).

(** The dialog's department [onChange]:
    [setGrantForm({...grantForm, department_id, file_ids: []})]. *)
Definition setGrantForm_department_id (d : JsVal) (view : PermissionsView)
    : PermissionsView :=
  {| permissions := permissions view;
     categoriesData := categoriesData view;
     expandedCategories := expandedCategories view;
     grantForm_department_id := d;
     grantForm_file_ids := [];
     toasts := toasts view |}.

(** ** components/QueryUserPermissions.jsx: the permissions by department *)

(** [array.reduce(f, acc)] for an [f] that may throw. *)
Fixpoint reduce_throwing {A B} (f : B → A → Completion B) (l : list A) (acc : B)
    : Completion B :=
  match l with
  | [] => Return acc
  | x :: r =>
      let! acc' := f acc x in
      reduce_throwing f r acc'
  end.

(** [permission.department_name || '未知處室'], as a property key. *)
Definition deptName_of (permission : JSON) : Completion string :=
  let! name := get (Some permission) "department_name" in
  Return (template (js_or name (text "未知處室"))).

(** One step of [groupedPermissions]. The accumulator starts as [{}]: under
    a name it inherits from [Object.prototype] it already answers with a
    function or an object, which is truthy and has no [push]. *)
Definition group_permission (acc : gmap string (list JSON)) (permission : JSON)
    : Completion (gmap string (list JSON)) :=
  let! deptName := deptName_of permission in
  match acc !! deptName with
  | Some group => Return (<[deptName := group ++ [permission]]> acc)
  | None =>
      if decide (deptName ∈ Object_prototype_names) then Throw TypeError
      else Return (<[deptName := [permission]]> acc)
  end.

(** The groups by name; the order in which [Object.entries] lists them is
    not kept. *)
Definition groupedPermissions (perms : list JSON)
    : Completion (gmap string (list JSON)) :=
  reduce_throwing group_permission perms ∅.

(** ** components/superadmin/DepartmentManagement.jsx: the department form *)

Definition code (c : ascii) : Z := Z.of_N (N_of_ascii c).

(** White space and line terminators, as [trim] knows them, by the bytes of
    their UTF-8 text. *)
Definition space1 (a : ascii) : bool :=
  (9 <=? code a) && (code a <=? 13) || (code a =? 32).

Definition space2 (a b : ascii) : bool :=
  (code a =? 194) && (code b =? 160).

Definition space3 (a b c : ascii) : bool :=
  (code a =? 225) && (code b =? 154) && (code c =? 128)
  || (code a =? 226) && (code b =? 128)
     && ((128 <=? code c) && (code c <=? 138)
         || (code c =? 168) || (code c =? 169) || (code c =? 175))
  || (code a =? 226) && (code b =? 129) && (code c =? 159)
  || (code a =? 227) && (code b =? 128) && (code c =? 128)
  || (code a =? 239) && (code b =? 187) && (code c =? 191).

(** [!s.trim()]: the string holds nothing but white space. *)
Fixpoint blank (s : string) : bool :=
  match s with
  | "" => true
  | String a r1 =>
      if space1 a then blank r1
      else
        match r1 with
        | String b r2 =>
            if space2 a b then blank r2
            else
              match r2 with
              | String c r3 => if space3 a b c then blank r3 else false
              | "" => false
              end
        | "" => false
        end
  end.

(** [/^[a-z0-9-]+$/.test(s)]. *)
Definition slug_char (c : ascii) : bool :=
  (97 <=? code c) && (code c <=? 122) || (48 <=? code c) && (code c <=? 57)
  || (code c =? 45).

Fixpoint every_char (p : ascii → bool) (s : string) : bool :=
  match s with
  | "" => true
  | String c r => p c && every_char p r
  end.

Definition slugRegex_test (s : string) : bool :=
  negb (bool_decide (s = "")) && every_char slug_char s.

Record DepartmentForm := {
  form_name : string;
  form_slug : string;
  form_description : string;
  form_color : string
}.

Inductive ToastKind := toast_is_success | toast_is_error | toast_is_warning.

(** The form, whether the modal has been told to close, and the toasts
    shown. *)
Record DepartmentView := {
  formData : DepartmentForm;
  addModal_closing : bool;
  department_toasts : list (ToastKind * string)
}.

Definition department_toast (kind : ToastKind) (msg : string) (v : DepartmentView)
    : DepartmentView :=
  {| formData := formData v;
     addModal_closing := addModal_closing v;
     department_toasts := department_toasts v ++ [(kind, msg)] |}.

Definition resetForm (v : DepartmentView) : DepartmentView :=
  {| formData := {| form_name := ""; form_slug := ""; form_description := "";
                    form_color := "#3B82F6" |};
     addModal_closing := addModal_closing v;
     department_toasts := department_toasts v |}.

Definition addModal_handleClose (v : DepartmentView) : DepartmentView :=
  {| formData := formData v;
     addModal_closing := true;
     department_toasts := department_toasts v |}.

(** [formData] as [JSON.stringify] writes it. *)
Definition form_json (f : DepartmentForm) : JSON :=
  JObj [("name", JStr (form_name f)); ("slug", JStr (form_slug f));
        ("description", JStr (form_description f)); ("color", JStr (form_color f))].

Section DepartmentManagement.

(** [onRefresh] is handed to the component by its parent. *)
Variable onRefresh : M unit.

Definition handleAddDepartment (v : DepartmentView) : M DepartmentView :=
  if blank (form_name (formData v))
  then ret (department_toast toast_is_warning "請輸入處室名稱" v)
  else if blank (form_slug (formData v))
  then ret (department_toast toast_is_warning "請輸入 URL 識別碼" v)
  else if negb (slugRegex_test (form_slug (formData v)))
  then ret (department_toast toast_is_warning
              "URL 識別碼只能包含小寫字母、數字和連字符(-)" v)
  else
    try_catch
      (do response ← addDepartment (form_json (formData v));
       if success response then
         onRefresh ;;
         ret (department_toast toast_is_success "處室新增成功"
                (resetForm (addModal_handleClose v)))
       else
         ret (department_toast toast_is_error
                ("新增失敗：" +:+ template (message response)) v))
      (λ _, ret (department_toast toast_is_error "新增處室失敗" v)).

End DepartmentManagement.

(** ** The statements' vocabulary, continued *)

(** [v?.k] on a value that has been read. *)
Definition optional_member (v : JsVal) (k : string) : JsVal :=
  match v with
  | Some j => member j k
  | None => None
  end.

(** The user object [login] builds from the [user] of the answer. *)
Definition logged_in_user (user : JSON) : JSON :=
  object_literal
    [("id", member user "id");
     ("username", member user "username");
     ("name", js_or (member user "name") (member user "fullName"));
     ("email", member user "email");
     ("role", member user "role");
     ("departmentId",
      js_or (optional_member (member user "department") "id") (Some JNull));
     ("departmentName",
      js_or (optional_member (member user "department") "name") (Some JNull));
     ("isSuperAdmin", js_or (member user "isSuperAdmin") (Some (JBool false)))].

(** The page the app comes to rest on. *)
Definition landing (st : AppState) : Element :=
  if isAuthenticated st then
    if is_SUPER_ADMIN (userRole st) then SuperAdminDashboard else Dashboard
  else LoginPage.

Definition insufficient : Permission :=
  {| hasPermission := false;
     permission_message := Some "權限不足，此操作需要更高權限" |}.

Definition logout_request (b : Browser) : Request :=
  {| url := API_BASE_URL (env b) +:+ "/auth/logout";
     options := logout_options (localStorage b !! "token") |}.

(** The requests of files.js, by the header they are built with. *)
Definition deleteFile_request (b : Browser) (auth : gmap string string)
    (fileId : JsVal) : Request :=
  {| url := API_BASE_URL (env b) +:+ "/files/" +:+ template fileId;
     options := finalOptions (delete_options auth) |}.

Definition updateFile_request (b : Browser) (auth : gmap string string)
    (fileId : JsVal) (data : JSON) : Request :=
  {| url := API_BASE_URL (env b) +:+ "/files/" +:+ template fileId;
     options := finalOptions
                  (put_options (json_headers auth) (TextBody (JSON_stringify data))) |}.

Definition connection_failure : Deletion :=
  {| deletion_success := Some (JBool false);
     deletion_message := text "檔案刪除失敗，請檢查網路連線" |}.

(** A value that is compared by what it is, not by where it is. *)
Definition primitive (v : JsVal) : bool :=
  match v with
  | Some (JArr _) | Some (JObj _) => false
  | _ => true
  end.

(** The browser once [req] has been answered with 401. *)
Definition expired (b : Browser) (req : Request) : Browser :=
  {| env := env b;
     localStorage :=
       delete "superAdminUser" (delete "isAuthenticated"
         (delete "user" (delete "token" (localStorage b))));
     href := getAppPath (env b) "/";
     route := route b; remote := remote b; sent := sent b ++ [req] |}.

(** A server that answers every request with 401. *)
Definition always_401 (b : Browser) : Prop :=
  ∀ req, ∃ r, remote b (sent b) req = Responds r ∧ status r = 401.

Definition get_request (b : Browser) (auth : gmap string string) (path : string)
    : Request :=
  {| url := API_BASE_URL (env b) +:+ path; options := finalOptions (get_options auth) |}.

Definition delete_request (b : Browser) (auth : gmap string string) (path : string)
    : Request :=
  {| url := API_BASE_URL (env b) +:+ path;
     options := finalOptions (delete_options auth) |}.

(** The request [handleGrantPermission] makes for the chosen files. *)
Definition grant_request (b : Browser) (auth : gmap string string)
    (userId : JsVal) (ids : list JsVal) : Request :=
  {| url := API_BASE_URL (env b) +:+ "/query-users/" +:+ template userId
              +:+ "/permissions/batch";
     options := finalOptions
                  (post_options (json_headers auth)
                     (TextBody (JSON_stringify
                        (JObj [("file_ids", JArr (map element ids))])))) |}.

(** The grant form of a panel: the chosen department and files. *)
Definition grantForm (p : Panel) : JsVal * list JsVal :=
  (grantForm_department_id (panel_view p), grantForm_file_ids (panel_view p)).

(** The calls of the panel, by method and address: the revocation of a
    permission and the reload of the user's permissions. *)
Definition revoke_call (c : Config) (permissionId : JsVal) : option string * string :=
  (Some "DELETE", API_BASE_URL c +:+ "/query-users/permissions/" +:+ template permissionId).

Definition reload_call (c : Config) (userId selectedDepartment : JsVal)
    : option string * string :=
  (Some "GET",
   API_BASE_URL c +:+ "/query-users/" +:+ template userId +:+ "/permissions"
     +:+ (if truthy selectedDepartment
          then "?department_id=" +:+ urlencode (template selectedDepartment)
          else "")).

(** The characters of a string, and the characters a slug is made of. *)
Fixpoint characters (s : string) : list ascii :=
  match s with
  | "" => []
  | String c r => c :: characters r
  end.

Definition slug_alphabet : list ascii :=
  characters "abcdefghijklmnopqrstuvwxyz0123456789-".

(** The name a permission is filed under. *)
Definition department_of (permission : JSON) : string :=
  template (js_or (member permission "department_name") (text "未知處室")).

(** [all_deleted users b b']: starting in [b], [deleteUser] has been run for
    each of [users] in turn, has reported success each time, and has left
    the browser [b']. *)
Inductive all_deleted : list User → Browser → Browser → Prop :=
| all_deleted_nil b : all_deleted [] b b
| all_deleted_cons user users b result b1 b2 :
    deleteUser (user_id user) b = (Return result, b1) →
    success result = true →
    all_deleted users b1 b2 →
    all_deleted (user :: users) b b2.

(** ** Sample inputs *)

Definition sample_config : Config :=
  {| BASE_URL := "/admin/"; VITE_API_BASE_URL := None |}.

Definition admin_user : JSON :=
  JObj [("id", JNum 7); ("name", JStr "Amy"); ("username", JStr "amy");
        ("role", JStr "ADMIN"); ("departmentId", JNum 3)].

Definition super_admin_user : JSON :=
  JObj [("id", JNum 1); ("name", JStr "Root"); ("username", JStr "root");
        ("role", JStr "SUPER_ADMIN"); ("departmentId", JNull)].

Definition library : Department :=
  {| dept_id := Some (JNum 7); dept_name := Some (JStr "Library") |}.

Definition registry : Department :=
  {| dept_id := Some (JNum 8); dept_name := Some (JStr "Registry") |}.

(** A server that answers every request with [200] and the given body. *)
Definition answering (v : JSON) : list Request → Request → FetchOutcome :=
  λ _ _, Responds {| status := 200; body_text := JSON_stringify v |}.

Definition browser_of (user : option JSON)
    (server : list Request → Request → FetchOutcome) : Browser :=
  {| env := sample_config;
     localStorage :=
       match user with
       | Some u => {[ "token" := "t0"; "user" := JSON_stringify u ]}
       | None => ∅
       end;
     href := "/admin/";
     route := "/dashboard";
     remote := server;
     sent := [] |}.




Definition task_created : JSON :=
  JObj [("taskId", JStr "task-1"); ("message", JStr "queued")].

Definition sample_files : list File :=
  [ {| file_name := "policy.pdf"; file_size := 1024; file_type := "application/pdf" |};
    {| file_name := "policy_v2.pdf"; file_size := 2048; file_type := "application/pdf" |} ].

Definition sample_upload : UploadData :=
  {| files := sample_files; categories := None; removeFileIds := None |}.

Definition classification : JSON :=
  JObj [("results",
         JArr [JObj [("fileName", JStr "policy.pdf"); ("isDuplicate", JBool true)];
               JObj [("fileName", JStr "policy_v2.pdf"); ("isDuplicate", JBool false)]])].

Definition file_entry (id : Z) (name : string) : JSON :=
  JObj [("id", JNum id); ("original_filename", JStr name)].

Definition available_files : JSON :=
  JObj [("categories",
         JArr [JObj [("category_id", JNum 1); ("category_name", JStr "Rules");
                     ("files", JArr [file_entry 1 "a.pdf"; file_entry 2 "b.pdf"])];
               JObj [("category_id", JNum 2); ("category_name", JStr "Forms");
                     ("files", JArr [file_entry 3 "c.pdf"])]])].

Definition sample_view : PermissionsView :=
  {| permissions := [JObj [("id", JNum 50); ("file_id", JNum 3)];
                     JObj [("id", JNum 51); ("file_id", JNum 1)]];
     categoriesData := [];
     expandedCategories := [];
     grantForm_department_id := Some (JNum 3);
     grantForm_file_ids := [];
     toasts := [] |}.

Definition zed_user : JSON :=
  JObj [("id", JNum 9); ("name", JStr "Zed"); ("username", JStr "zed");
        ("role", JStr "SUPER_ADMIN")].

(** A browser in which an earlier session left its [superAdminUser] entry
    behind: Zed logged in, entered a department and logged out from its
    dashboard; then Root logged in. *)
Definition stale_browser : Browser :=
  ((Login_store "t9" zed_user ;;
    enterDepartmentDashboard library ;;
    handleLogout_clear ;;
    Login_store "t1" super_admin_user)
     {| env := sample_config; localStorage := ∅; href := "/admin/";
        route := "/"; remote := answering JNull; sent := [] |}).2.

(** A resolver with a private file 10, granted to query user 1 only. *)
Definition sample_resolver : Resolver :=
  {| knowledge_files := {[ 10 := {| department_id := 3; is_public := false |} ]};
     file_permissions :=
       [ {| permission_id := 100; query_user_id := 1; file_id := 10 |} ] |}.

(** Department 3 has the users 10 and 11. The server is briefly unavailable:
    it answers the first request it sees with 503 and every later one
    normally. *)
Definition department_users : JSON :=
  JObj [("items",
         JArr [JObj [("id", JNum 10); ("full_name", JStr "Ann"); ("username", JStr "ann");
                     ("role", JStr "ADMIN"); ("department_id", JNum 3);
                     ("is_active", JBool true)];
               JObj [("id", JNum 11); ("full_name", JStr "Bob"); ("username", JStr "bob");
                     ("role", JStr "ADMIN"); ("department_id", JNum 3);
                     ("is_active", JBool true)]])].

Definition briefly_unavailable : list Request → Request → FetchOutcome :=
  λ history req,
    match history with
    | [] => Responds {| status := 503;
                        body_text := JSON_stringify
                          (JObj [("detail", JStr "Service Unavailable")]) |}
    | _ =>
        if decide (method (options req) = Some "GET")
        then Responds {| status := 200; body_text := JSON_stringify department_users |}
        else Responds {| status := 200;
                         body_text := JSON_stringify (JObj [("message", JStr "deleted")]) |}
    end.

(** The method and address of each request of a log. *)
Definition calls (log : list Request) : list (option string * string) :=
  map (λ r, (method (options r), url r)) log.


(** The answer to a login: the backend's user carries its department as an
    object, and here a field [isSuperAdminProxy] of its own. *)
Definition sample_login_user : JSON :=
  JObj [("id", JNum 7); ("username", JStr "amy"); ("name", JStr "Amy");
        ("role", JStr "ADMIN"); ("isSuperAdminProxy", JBool true);
        ("department", JObj [("id", JNum 3); ("name", JStr "Library")])].

Definition sample_login_answer : JSON :=
  JObj [("token", JStr "t7"); ("user", sample_login_user)].

(** A stored user whose role is none of [ROLES]. *)
Definition viewer_user : JSON :=
  JObj [("id", JNum 12); ("name", JStr "Vic"); ("username", JStr "vic");
        ("role", JStr "viewer")].

(** A server that answers every request with the given status and an empty
    body, as a [204 No Content] is. *)
Definition answering_empty (code : Z) : list Request → Request → FetchOutcome :=
  λ _ _, Responds {| status := code; body_text := "" |}.

(** The picker after the sample listing has been loaded, with file 2 of the
    first category chosen. *)
Definition picker_view : PermissionsView :=
  {| permissions := [];
     categoriesData :=
       [JObj [("category_id", JNum 1);
              ("files", JArr [file_entry 1 "a.pdf"; file_entry 2 "b.pdf"])];
        JObj [("category_id", JNum 2); ("files", JArr [file_entry 3 "c.pdf"])]];
     expandedCategories := [];
     grantForm_department_id := Some (JNum 3);
     grantForm_file_ids := [Some (JNum 2)];
     toasts := [] |}.

(** A server that lists the users of department 3 and accepts every other
    request. *)
Definition department_server : list Request → Request → FetchOutcome :=
  λ _ req,
    if decide (method (options req) = Some "GET")
    then Responds {| status := 200; body_text := JSON_stringify department_users |}
    else Responds {| status := 200;
                     body_text := JSON_stringify (JObj [("message", JStr "deleted")]) |}.

(** The same server, except that it refuses to delete user 10. *)
Definition refusing_user_10 : list Request → Request → FetchOutcome :=
  λ history req,
    if decide (url req = "/api/users/10")
    then Responds {| status := 409;
                     body_text := JSON_stringify (JObj [("detail", JStr "in use")]) |}
    else department_server history req.

Definition department_users_mapped : list User :=
  [ {| user_id := Some (JNum 10); user_name := Some (JStr "Ann");
       user_username := Some (JStr "ann"); user_email := None;
       user_role := Some (JStr "ADMIN"); user_departmentId := Some (JNum 3);
       user_status := "active" |};
    {| user_id := Some (JNum 11); user_name := Some (JStr "Bob");
       user_username := Some (JStr "bob"); user_email := None;
       user_role := Some (JStr "ADMIN"); user_departmentId := Some (JNum 3);
       user_status := "active" |} ].

Definition available_categories : list JSON :=
  [JObj [("category_id", JNum 1); ("category_name", JStr "Rules");
         ("files", JArr [file_entry 1 "a.pdf"; file_entry 2 "b.pdf"])];
   JObj [("category_id", JNum 2); ("category_name", JStr "Forms");
         ("files", JArr [file_entry 3 "c.pdf"])]].

(** The panel of query user 40 with the grant dialog open and file 2
    chosen. *)
Definition sample_panel : Panel :=
  {| panel_view := picker_view;
     selectedDepartment := Some JNull;
     loading := false;
     showGrantDialog := true;
     showRevokeConfirm := Some JNull;
     toast_successes := [] |}.

Definition failed_to_fetch : Exn → string := λ _, "Failed to fetch".

(** The form of a new department, filled in. *)
Definition sample_department_view : DepartmentView :=
  {| formData := {| form_name := "Library"; form_slug := "main-library-2";
                    form_description := ""; form_color := "#3B82F6" |};
     addModal_closing := false;
     department_toasts := [] |}.

(** Three permissions, of two departments; the last carries no department
    name. *)
Definition sample_permissions : list JSON :=
  [JObj [("id", JNum 50); ("file_id", JNum 3); ("department_name", JStr "Library")];
   JObj [("id", JNum 51); ("file_id", JNum 1); ("department_name", JStr "Registry")];
   JObj [("id", JNum 52); ("file_id", JNum 4); ("department_name", JStr "Library")];
   JObj [("id", JNum 53); ("file_id", JNum 9)]].

(** The permission [id] of query user 40 on the file [file] of the department
    [department]. *)
Definition grant (id file department : Z) : JSON :=
  JObj [("id", JNum id); ("file_id", JNum file); ("department_id", JNum department)].

(** A server for query user 40, who holds a permission on file 1 of
    department 3 and on the files 7 and 8 of department 4. It lists the
    permissions held, those of department 4 alone when asked so, and leaves
    out permission 52 once its deletion has been asked for; it lists the
    files of department 3. *)
Definition grants_server : list Request → Request → FetchOutcome :=
  λ history req,
    let answer v := Responds {| status := 200; body_text := JSON_stringify v |} in
    let revoked :=
      existsb (λ r, bool_decide (url r = "/api/query-users/permissions/52")) history in
    let of_department_4 := grant 51 7 4 :: (if revoked then [] else [grant 52 8 4]) in
    if decide (url req = "/api/query-users/40/permissions")
    then answer (JObj [("items", JArr (grant 50 1 3 :: of_department_4))])
    else if decide (url req = "/api/query-users/40/permissions?department_id=4")
    then answer (JObj [("items", JArr of_department_4)])
    else if decide (url req = "/api/query-users/available-files/3")
    then answer available_files
    else if decide (url req = "/api/query-users/permissions/52")
    then answer (JObj [("message", JStr "revoked")])
    else Responds {| status := 404; body_text := "" |}.

(** The panel of query user 40 when it is mounted. *)
Definition mounted_panel : Panel :=
  {| panel_view := {| permissions := []; categoriesData := [];
                      expandedCategories := [];
                      grantForm_department_id := Some JNull;
                      grantForm_file_ids := []; toasts := [] |};
     selectedDepartment := Some JNull;
     loading := false;
     showGrantDialog := false;
     showRevokeConfirm := Some JNull;
     toast_successes := [] |}.

(** A session at the panel of query user 40. The permissions are loaded when
    the panel is mounted; the filter is set to [filter]; permission 52 is
    revoked, after which the list is loaded again; the grant dialog is
    opened and department 3 chosen in it, which loads the picker. The result
    is the picker's state, with the permissions the server lists for the
    user at that moment. *)
Definition revoke_then_grant (filter : JsVal) : M (PermissionsView * JSON) :=
  let userId := Some (JNum 40) in
  do mounted ← loadPermissions userId mounted_panel;
  let filtered := setSelectedDepartment filter mounted in
  do revoked ← handleRevokePermission userId (Some (JNum 52)) filtered;
  let opened := openGrantDialog revoked in
  do picker ← loadAvailableFiles
                (setGrantForm_department_id (Some (JNum 3)) (panel_view opened));
  do held ← getQueryUserPermissions userId [];
  ret (picker, held).
(** * Properties

    ** JSON text: printing and parsing back *)

Lemma parse_digits_delimited k : delimited k → parse_digits k = (Decimal.Nil, k).
Proof. by destruct 1. Qed.

Lemma number_ends_delimited k : delimited k → number_ends k = true.
Proof. by destruct 1. Qed.

Lemma parse_digits_print_uint d k :
  delimited k → parse_digits (print_uint d k) = (d, k).
Proof.
  intros Hk. induction d; simpl; rewrite ?IHd; auto using parse_digits_delimited.
Qed.

Lemma int_literal_to_uint p : int_literal (Pos.to_uint p) = true.
Proof.
  pose proof (Unsigned.to_of (Pos.to_uint p)) as Hnorm.
  rewrite Unsigned.of_to in Hnorm. simpl in Hnorm.
  pose proof (Unsigned.to_uint_nonzero p) as Hnz.
  pose proof (Unsigned.to_uint_nonnil p) as Hnn.
  destruct (Pos.to_uint p) as [|d| | | | | | | | |]; try done.
  destruct d; try done; exfalso.
  all: unfold Decimal.unorm in Hnorm; rewrite nzhead_D0 in Hnorm;
    match type of Hnorm with
    | _ = match ?n with _ => _ end =>
        pose proof (nzhead_nonzero n) as Hh; destruct n eqn:E; try done
    end.
  all: try (injection Hnorm as Hnorm; by eapply (nzhead_nonzero (Decimal.D0 _))).
Qed.

Lemma of_uint_to_uint p : Z.of_uint (Pos.to_uint p) = Zpos p.
Proof. unfold Z.of_uint. by rewrite Unsigned.of_to. Qed.

Lemma parse_number_print_Z z k :
  delimited k → parse_number (print_Z z k) = Some (JNum z, k).
Proof.
  intros Hk. destruct z as [|p|p]; unfold parse_number, print_Z.
  - simpl. rewrite (parse_digits_delimited k Hk). simpl.
    by rewrite number_ends_delimited.
  - pose proof (Unsigned.to_uint_nonnil p) as Hnn.
    replace (match print_uint (Pos.to_uint p) k with
             | String "-"%char r => (true, r)
             | _ => (false, print_uint (Pos.to_uint p) k)
             end) with (false, print_uint (Pos.to_uint p) k)
      by (by destruct (Pos.to_uint p)).
    rewrite parse_digits_print_uint, int_literal_to_uint,
      number_ends_delimited, of_uint_to_uint by done.
    done.
  - rewrite parse_digits_print_uint, int_literal_to_uint,
      number_ends_delimited, of_uint_to_uint by done.
    done.
Qed.

Lemma parse_value_print_Z n z k :
  parse_value (S n) (print_Z z k) = parse_number (print_Z z k).
Proof.
  destruct z as [|p|p]; try done.
  pose proof (Unsigned.to_uint_nonnil p) as Hnn.
  unfold print_Z. by destruct (Pos.to_uint p).
Qed.

Lemma parse_string_print_chars s k :
  parse_string (print_chars s (String dquote k)) = Some (s, k).
Proof.
  induction s as [|c s IH]; [done|].
  destruct c as [[] [] [] [] [] [] [] []]; simpl; by rewrite IH.
Qed.

Lemma print_arr x r k :
  print (JArr (x :: r)) k = String "[" (print x (print_rest r k)).
Proof. simpl. do 2 f_equal. induction r; simpl; congruence. Qed.

Lemma print_obj m r k :
  print (JObj (m :: r)) k =
  String "{" (print_string m.1 (String ":" (print m.2 (print_members_rest r k)))).
Proof. simpl. do 4 f_equal. induction r; simpl; congruence. Qed.

Lemma jsize_arr vs : jsize (JArr vs) = S (size_elements vs).
Proof. done. Qed.

Lemma jsize_obj ms : jsize (JObj ms) = S (size_members ms).
Proof. done. Qed.

Lemma jsize_pos v : (1 ≤ jsize v)%nat.
Proof. destruct v; simpl; lia. Qed.

Lemma delimited_print_rest l k : delimited (print_rest l k).
Proof. destruct l; constructor. Qed.

Lemma delimited_print_members_rest l k : delimited (print_members_rest l k).
Proof. destruct l; constructor. Qed.

(** A printed value never starts with a closing bracket. *)
Lemma expect_bracket_print v k : expect "]" (print v k) = None.
Proof.
  destruct v as [|[]|z|s|vs|ms]; try done.
  destruct z as [|p|p]; try done.
  pose proof (Unsigned.to_uint_nonnil p) as Hnn.
  unfold print, print_Z. by destruct (Pos.to_uint p).
Qed.

Lemma expect_brace_print_string s k : expect "}" (print_string s k) = None.
Proof. done. Qed.

Lemma parse_value_S_arr n r :
  parse_value (S n) (String "[" r) =
  match expect "]" r with
  | Some r' => Some (JArr [], r')
  | None => '(vs, r') ← parse_elements n r; Some (JArr vs, r')
  end.
Proof. done. Qed.

Lemma parse_value_S_obj n r :
  parse_value (S n) (String "{" r) =
  match expect "}" r with
  | Some r' => Some (JObj [], r')
  | None => '(ms, r') ← parse_members n r; Some (JObj ms, r')
  end.
Proof. done. Qed.

Lemma parse_elements_S n s :
  parse_elements (S n) s =
  '(v, r) ← parse_value n s;
  match expect "," r with
  | Some r' => '(vs, r'') ← parse_elements n r'; Some (v :: vs, r'')
  | None => r' ← expect "]" r; Some ([v], r')
  end.
Proof. done. Qed.

Lemma parse_members_S n s :
  parse_members (S n) s =
  r ← expect dquote s;
  '(key, r1) ← parse_string r;
  r2 ← expect ":" r1;
  '(v, r3) ← parse_value n r2;
  match expect "," r3 with
  | Some r4 => '(ms, r5) ← parse_members n r4; Some ((key, v) :: ms, r5)
  | None => r4 ← expect "}" r3; Some ([(key, v)], r4)
  end.
Proof. done. Qed.

Lemma parse_elements_print vs :
  Forall parses_back vs → ∀ x fuel k,
    parses_back x → (S (jsize x + size_elements vs) ≤ fuel)%nat → delimited k →
    parse_elements fuel (print x (print_rest vs k)) = Some (x :: vs, k).
Proof.
  induction 1 as [|y vs Hy Hvs IH]; intros x fuel k Hx Hfuel Hk;
    (destruct fuel as [|n]; [lia|]); rewrite parse_elements_S.
  - rewrite Hx by (simpl in *; (lia || constructor)). done.
  - rewrite Hx by (simpl in *; (lia || constructor)). simpl.
    change (expect "," (String "," ?r)) with (Some r).
    simpl. rewrite IH by (simpl in *; (lia || done)). done.
Qed.

Lemma parse_members_print ms :
  Forall (λ m, parses_back m.2) ms → ∀ m fuel k,
    parses_back m.2 → (S (jsize m.2 + size_members ms) ≤ fuel)%nat → delimited k →
    parse_members fuel
      (print_string m.1 (String ":" (print m.2 (print_members_rest ms k))))
    = Some (m :: ms, k).
Proof.
  induction 1 as [|m' ms Hm' Hms IH]; intros [key v] fuel k Hv Hfuel Hk;
    (destruct fuel as [|n]; [lia|]); rewrite parse_members_S;
    unfold print_string at 1;
    change (expect dquote (String dquote ?r)) with (Some r); simpl;
    rewrite parse_string_print_chars; simpl;
    change (expect ":" (String ":" ?r)) with (Some r); simpl in *.
  - rewrite Hv by (lia || constructor). done.
  - rewrite Hv by (lia || constructor). simpl.
    change (expect "," (String "," ?r)) with (Some r). simpl.
    destruct m' as [key' v']. simpl in *.
    rewrite (IH (key', v')) by (simpl; (lia || done)). done.
Qed.

Lemma parse_value_print v : parses_back v.
Proof.
  induction v as [|b|z|s|vs IH|ms IH] using JSON_nested_ind; intros fuel k Hfuel Hk;
    (destruct fuel as [|n]; [simpl in *; lia|]).
  - done.
  - by destruct b.
  - simpl print. rewrite parse_value_print_Z. by apply parse_number_print_Z.
  - simpl. by rewrite parse_string_print_chars.
  - destruct vs as [|x vs]; [done|].
    rewrite print_arr, jsize_arr in *.
    rewrite parse_value_S_arr, expect_bracket_print.
    inversion_clear IH as [|? ? Hx Hvs].
    rewrite parse_elements_print by (done || simpl in *; lia). done.
  - destruct ms as [|m ms]; [done|].
    rewrite print_obj, jsize_obj in *.
    inversion_clear IH as [|? ? Hm Hms].
    rewrite parse_value_S_obj, expect_brace_print_string.
    rewrite parse_members_print by (done || simpl in *; lia). done.
Qed.

Lemma length_print_uint d k :
  (String.length k ≤ String.length (print_uint d k))%nat.
Proof. induction d; simpl; lia. Qed.

Lemma length_print_Z z k :
  (S (String.length k) ≤ String.length (print_Z z k))%nat.
Proof.
  destruct z as [|p|p]; simpl; [lia| |pose proof (length_print_uint (Pos.to_uint p) k); lia].
  pose proof (Unsigned.to_uint_nonnil p) as Hnn.
  destruct (Pos.to_uint p) as [|d|d|d|d|d|d|d|d|d|d]; [done|..]; simpl;
    pose proof (length_print_uint d k); lia.
Qed.

Lemma length_print_char c k :
  (S (String.length k) ≤ String.length (print_char c k))%nat.
Proof. destruct c as [[] [] [] [] [] [] [] []]; simpl; lia. Qed.

Lemma length_print_chars s k :
  (String.length k ≤ String.length (print_chars s k))%nat.
Proof.
  induction s as [|c s IH]; simpl; [lia|].
  pose proof (length_print_char c (print_chars s k)). lia.
Qed.

Lemma length_print_string s k :
  (S (S (String.length k)) ≤ String.length (print_string s k))%nat.
Proof.
  unfold print_string. simpl.
  pose proof (length_print_chars s (String dquote k)). simpl in *. lia.
Qed.

Lemma length_print v k :
  (jsize v + String.length k ≤ String.length (print v k))%nat.
Proof.
  revert k. induction v as [|b|z|s|vs IH|ms IH] using JSON_nested_ind; intros k.
  - simpl. lia.
  - destruct b; simpl; lia.
  - pose proof (length_print_Z z k). simpl in *. lia.
  - pose proof (length_print_string s k). simpl in *. lia.
  - destruct vs as [|x vs]; [simpl; lia|].
    rewrite print_arr, jsize_arr. inversion_clear IH as [|? ? Hx Hvs].
    assert (size_elements vs + S (String.length k)
            ≤ String.length (print_rest vs k))%nat as Hrest.
    { induction Hvs as [|y vs Hy _ IHvs]; simpl; [lia|].
      specialize (Hy (print_rest vs k)). lia. }
    specialize (Hx (print_rest vs k)). simpl. lia.
  - destruct ms as [|m ms]; [simpl; lia|].
    rewrite print_obj, jsize_obj. inversion_clear IH as [|? ? Hm Hms].
    assert (size_members ms + S (String.length k)
            ≤ String.length (print_members_rest ms k))%nat as Hrest.
    { induction Hms as [|m' ms Hm' _ IHms]; simpl; [lia|].
      specialize (Hm' (print_members_rest ms k)).
      pose proof (length_print_string m'.1
        (String ":" (print m'.2 (print_members_rest ms k)))).
      simpl in *. lia. }
    specialize (Hm (print_members_rest ms k)).
    pose proof (length_print_string m.1
      (String ":" (print m.2 (print_members_rest ms k)))).
    simpl in *. lia.
Qed.

(** [JSON.parse(JSON.stringify(v))] gives [v] back. *)
Lemma JSON_parse_stringify v : JSON_parse (JSON_stringify v) = Some v.
Proof.
  unfold JSON_parse, JSON_stringify.
  rewrite parse_value_print; [done| |constructor].
  pose proof (length_print v ""). lia.
Qed.

Lemma JSON_stringify_nonempty v : JSON_stringify v ≠ "".
Proof.
  intros H. pose proof (length_print v "") as Hl.
  pose proof (jsize_pos v). unfold JSON_stringify in H. rewrite H in Hl.
  simpl in Hl. lia.
Qed.

(** ** Reading values *)

Lemma JNull_dec (v : JSON) : {v = JNull} + {v ≠ JNull}.
Proof. destruct v; (by left) || (by right). Defined.

Lemma get_member v k : v ≠ JNull → get (Some v) k = Return (member v k).
Proof. by destruct v. Qed.

Lemma get_null k : get (Some JNull) k = Throw TypeError.
Proof. done. Qed.

Lemma present_Some item s : present item = Some s ↔ item = Some s ∧ s ≠ "".
Proof.
  unfold present. destruct item as [t|]; [|by split; [|intros []]].
  destruct (decide (t = "")) as [->|Hne]; split.
  - done.
  - by intros [[= <-] ?].
  - by intros [= ->].
  - by intros [[= ->] _].
Qed.

Lemma present_stringify v : present (Some (JSON_stringify v)) = Some (JSON_stringify v).
Proof. apply present_Some. split; [done|apply JSON_stringify_nonempty]. Qed.

Lemma stored_user_Some ls user :
  stored_user ls = Some user ↔
  ∃ s, present (ls !! "user") = Some s ∧ JSON_parse s = Some user.
Proof.
  unfold stored_user. destruct (present (ls !! "user")) as [s|]; simpl.
  - split; [eauto|]. by intros (? & [= ->] & ?).
  - split; [done|]. by intros (? & ? & ?).
Qed.

(** ** The permission check *)

Lemma requiredLevel_SUPER_ADMIN : requiredLevel SUPER_ADMIN = 2.
Proof. done. Qed.

Lemma requiredLevel_ADMIN : requiredLevel ADMIN = 1.
Proof. done. Qed.

Lemma requiredLevel_positive r : 1 ≤ requiredLevel r ≤ 2.
Proof. destruct r; [rewrite requiredLevel_SUPER_ADMIN|rewrite requiredLevel_ADMIN]; lia. Qed.

(** The comparison of the code agrees with the comparison of levels. *)
Lemma level_ge_hierarchy role r :
  level_ge (or_zero (roleHierarchy (template role))) (requiredLevel r)
  = bool_decide (requiredLevel r ≤ hierarchy_level role).
Proof.
  pose proof (requiredLevel_positive r).
  unfold roleHierarchy, hierarchy_level.
  destruct (decide (template role = "SUPER_ADMIN")); [done|].
  destruct (decide (template role = "ADMIN")); [done|].
  destruct (decide (template role ∈ Object_prototype_names)); [|done].
  simpl. symmetry. apply bool_decide_eq_false. lia.
Qed.

Lemma checkPermission_passes ls r :
  hasPermission (checkPermission ls r) = true ↔
  ∃ user, stored_user ls = Some user ∧ user ≠ JNull ∧
          requiredLevel r ≤ hierarchy_level (member user "role").
Proof.
  unfold checkPermission, checkPermission_try, stored_user.
  destruct (present (ls !! "user")) as [s|]; cbn -[get];
    [|split; [done|by intros (? & ? & ?)]].
  destruct (JSON_parse s) as [user|]; cbn -[get];
    [|split; [done|by intros (? & ? & ?)]].
  destruct (JNull_dec user) as [->|Hnn].
  { simpl. split; [done|]. by intros (? & [= <-] & ? & ?). }
  rewrite get_member by done. cbn [bindC]. rewrite level_ge_hierarchy.
  case_bool_decide; simpl.
  - split; [eauto|done].
  - split; [done|]. by intros (? & [= <-] & ? & ?).
Qed.

Lemma checkPermission_message ls r :
  hasPermission (checkPermission ls r) = false →
  ∃ msg, permission_message (checkPermission ls r) = Some msg.
Proof.
  unfold checkPermission, checkPermission_try.
  destruct (present (ls !! "user")) as [s|]; simpl; [|eauto].
  destruct (JSON_parse s) as [user|]; simpl; [|eauto].
  destruct (get (Some user) "role") as [role|]; simpl; [|eauto].
  destruct (level_ge (or_zero (roleHierarchy (template role))) (requiredLevel r));
    simpl; [done|eauto].
Qed.

(** C9. [checkPermission] always returns a result. It grants exactly when a
    user is stored whose role stands for a level at least the required one
    (SUPER_ADMIN 2, ADMIN 1, anything else 0); so whoever passes a check with
    a role passes it with any role of a higher level, a SUPER_ADMIN passes
    both checks, and with no stored user or a role of level 0 the ADMIN check
    is refused with a message. *)
Theorem checkPermission_hierarchy (ls : gmap string string) (requiredRole : Role) :
  (hasPermission (checkPermission ls requiredRole) = true ↔
     ∃ user, stored_user ls = Some user ∧ user ≠ JNull ∧
             requiredLevel requiredRole ≤ hierarchy_level (member user "role"))
  ∧ requiredLevel SUPER_ADMIN = 2 ∧ requiredLevel ADMIN = 1
  ∧ (∀ ls' user user',
       stored_user ls = Some user → user ≠ JNull →
       stored_user ls' = Some user' → user' ≠ JNull →
       hierarchy_level (member user "role") ≤ hierarchy_level (member user' "role") →
       hasPermission (checkPermission ls requiredRole) = true →
       hasPermission (checkPermission ls' requiredRole) = true)
  ∧ (∀ user, stored_user ls = Some user →
       member user "role" = Some (JStr "SUPER_ADMIN") →
       hasPermission (checkPermission ls requiredRole) = true)
  ∧ ((stored_user ls = None ∨
      ∃ user, stored_user ls = Some user ∧ hierarchy_level (member user "role") = 0) →
     hasPermission (checkPermission ls ADMIN) = false)
  ∧ (hasPermission (checkPermission ls requiredRole) = false →
     ∃ msg, permission_message (checkPermission ls requiredRole) = Some msg).
Proof.
  split_and!.
  - apply checkPermission_passes.
  - done.
  - done.
  - intros ls' user user' Hu Hn Hu' Hn' Hle.
    rewrite !checkPermission_passes.
    intros (u & Hu2 & _ & Hr). rewrite Hu in Hu2. injection Hu2 as <-.
    exists user'. split_and!; [done..|lia].
  - intros user Hu Hrole. apply checkPermission_passes.
    exists user. split_and!; [done| |].
    + intros ->. done.
    + rewrite Hrole. pose proof (requiredLevel_positive requiredRole).
      unfold hierarchy_level. simpl. lia.
  - intros H. apply not_true_is_false. rewrite checkPermission_passes.
    intros (u & Hu & _ & Hr). rewrite requiredLevel_ADMIN in Hr.
    destruct H as [H|(u' & Hu' & Hz)]; [congruence|].
    rewrite Hu in Hu'. injection Hu' as <-. lia.
  - apply checkPermission_message.
Qed.

Example checkPermission_samples :
  checkPermission {[ "user" := JSON_stringify admin_user ]} ADMIN
  = {| hasPermission := true; permission_message := None |}
  ∧ checkPermission {[ "user" := JSON_stringify admin_user ]} SUPER_ADMIN
    = {| hasPermission := false;
         permission_message := Some "權限不足，此操作需要更高權限" |}
  ∧ checkPermission {[ "user" := JSON_stringify super_admin_user ]} ADMIN
    = {| hasPermission := true; permission_message := None |}
  ∧ checkPermission ∅ ADMIN
    = {| hasPermission := false; permission_message := Some "未登入" |}
  ∧ checkPermission {[ "user" := "null" ]} ADMIN
    = {| hasPermission := false; permission_message := Some "權限驗證失敗" |}
  ∧ checkPermission {[ "user" := JSON_stringify (JObj [("role", JStr "toString")]) ]}
      ADMIN
    = {| hasPermission := false;
         permission_message := Some "權限不足，此操作需要更高權限" |}.
Proof. vm_compute. done. Qed.

(** ** The authorization header *)


Lemma toString_truthy v : truthy v = true → toString v = Return (template v).
Proof. by destruct v as [[]|]. Qed.

Lemma getAuthHeader_user ls user :
  stored_user ls = Some user → user ≠ JNull →
  getAuthHeader ls =
  Return (if truthy (member user "isSuperAdminProxy")
             && truthy (member user "departmentId")
          then <[proxy_header := template (member user "departmentId")]>
                 {[ "Authorization" := bearer ls ]}
          else {[ "Authorization" := bearer ls ]}).
Proof.
  intros (s & Hs & Hp)%stored_user_Some Hnn.
  unfold getAuthHeader. rewrite Hs, Hp, !get_member by done. cbn [bindC].
  destruct (truthy (member user "isSuperAdminProxy")); [|done].
  cbn [bindC andb].
  destruct (truthy (member user "departmentId")) eqn:Hd; [|done].
  by rewrite toString_truthy.
Qed.






Example getAuthHeader_samples :
  getAuthHeader {[ "token" := "t0"; "user" := JSON_stringify admin_user ]}
  = Return {[ "Authorization" := "Bearer t0" ]}
  ∧ getAuthHeader
      {[ "token" := "t0";
         "user" := JSON_stringify
                     (tempUser_of (Some (JNum 1)) (Some (JStr "root")) library) ]}
    = Return {[ "Authorization" := "Bearer t0"; "X-Proxy-Department-Id" := "7" ]}
  ∧ getAuthHeader {[ "user" := "null" ]} = Throw TypeError
  ∧ getAuthHeader {[ "user" := "{" ]} = Throw SyntaxError
  ∧ getAuthHeader ∅ = Return {[ "Authorization" := "Bearer null" ]}.
Proof. vm_compute. done. Qed.

(** ** The fetch wrapper *)

Lemma finalOptions_headers o k :
  ∃ h, headers (finalOptions o) = Some h ∧
       h !! k = match default ∅ (headers o) !! k with
                | Some v => Some v
                | None => no_cache_headers !! k
                end.
Proof.
  eexists. split; [done|]. rewrite lookup_union.
  by destruct (default ∅ (headers o) !! k), (no_cache_headers !! k).
Qed.

Lemma apiFetch_run u o b :
  apiFetch u o b =
  let req := {| url := u; options := finalOptions o |} in
  let b1 := {| env := env b; localStorage := localStorage b; href := href b;
               route := route b; remote := remote b; sent := sent b ++ [req] |} in
  match remote b (sent b) req with
  | Responds r =>
      if decide (status r = 401)
      then (Throw (Error expired_message),
            {| env := env b;
               localStorage :=
                 delete "superAdminUser" (delete "isAuthenticated"
                   (delete "user" (delete "token" (localStorage b))));
               href := getAppPath (env b) "/";
               route := route b; remote := remote b; sent := sent b ++ [req] |})
      else (Return r, b1)
  | Fails => (Throw NetworkError, b1)
  end.
Proof.
  unfold apiFetch, try_catch, bind, fetch. simpl.
  destruct (remote b (sent b) _) as [r|]; [|done].
  by destruct (decide (status r = 401)).
Qed.

(** C10. A 401 answer removes the four stored credentials and reaches the
    caller as a thrown error, never as a response; an answer with any other
    status is handed to the caller as it is, with storage untouched. The
    request goes out with the caller's options, to which [cache: no-store]
    and the two no-cache headers are added only where the caller gave none
    of its own. *)
Theorem apiFetch_unauthorized (b : Browser) (u : string) (o : FetchOptions) :
  let req := {| url := u; options := finalOptions o |} in
  method (finalOptions o) = method o
  ∧ body (finalOptions o) = body o
  ∧ cache (finalOptions o) = Some (default "no-store" (cache o))
  ∧ (∀ k, ∃ h, headers (finalOptions o) = Some h ∧
        h !! k = match default ∅ (headers o) !! k with
                 | Some v => Some v
                 | None => no_cache_headers !! k
                 end)
  ∧ sent (apiFetch u o b).2 = sent b ++ [req]
  ∧ match remote b (sent b) req with
    | Responds r =>
        if decide (status r = 401) then
          (apiFetch u o b).1 = Throw (Error expired_message)
          ∧ localStorage (apiFetch u o b).2 !! "token" = None
          ∧ localStorage (apiFetch u o b).2 !! "user" = None
          ∧ localStorage (apiFetch u o b).2 !! "isAuthenticated" = None
          ∧ localStorage (apiFetch u o b).2 !! "superAdminUser" = None
          ∧ href (apiFetch u o b).2 = getAppPath (env b) "/"
        else
          (apiFetch u o b).1 = Return r
          ∧ localStorage (apiFetch u o b).2 = localStorage b
          ∧ href (apiFetch u o b).2 = href b
    | Fails =>
        (apiFetch u o b).1 = Throw NetworkError
        ∧ localStorage (apiFetch u o b).2 = localStorage b
    end
  ∧ (∀ r, (apiFetch u o b).1 = Return r → status r ≠ 401).
Proof.
  intros req. rewrite apiFetch_run. fold req.
  split_and!; try done.
  - intros k. apply finalOptions_headers.
  - simpl. destruct (remote b (sent b) req) as [r|]; [|done].
    by destruct (decide (status r = 401)).
  - simpl. destruct (remote b (sent b) req) as [r|]; [|done].
    destruct (decide (status r = 401)); [|done]. simpl.
    split_and!; try done; by simplify_map_eq.
  - simpl. intros r. destruct (remote b (sent b) req) as [r'|]; [|done].
    destruct (decide (status r' = 401)); [done|]. by intros [= <-].
Qed.

(** Case analysis on every decoding of a response body and every property
    read that the goal still waits for. *)
Ltac destruct_reads :=
  repeat match goal with
    | |- context [match json ?r with _ => _ end] => destruct (json r); simpl
    | |- context [match get ?v ?k with _ => _ end] => destruct (get v k); simpl
    | |- context [match map_or_empty ?v ?f with _ => _ end] =>
        destruct (map_or_empty v f); simpl
    end.

Lemma ok_not_401 r : ok r = true → status r ≠ 401.
Proof. unfold ok. intros H%andb_prop. lia. Qed.

Lemma apiFetch_ok u o b r :
  remote b (sent b) {| url := u; options := finalOptions o |} = Responds r →
  status r ≠ 401 →
  apiFetch u o b = (Return r, after_request b {| url := u; options := finalOptions o |}).
Proof.
  intros Hr Hs. rewrite apiFetch_run. simpl. rewrite Hr.
  by destruct (decide (status r = 401)).
Qed.

Lemma apiFetch_sent u o b :
  sent (apiFetch u o b).2 = sent b ++ [{| url := u; options := finalOptions o |}]
  ∧ env (apiFetch u o b).2 = env b.
Proof.
  rewrite apiFetch_run. simpl.
  destruct (remote b (sent b) _) as [r|]; [|done].
  by destruct (decide (status r = 401)).
Qed.

(** Whoever passes a permission check has a stored user from which the
    authorization header can be built. *)
Lemma getAuthHeader_permitted ls r :
  hasPermission (checkPermission ls r) = true →
  ∃ auth, getAuthHeader ls = Return auth.
Proof.
  intros (user & Hu & Hnn & _)%checkPermission_passes.
  rewrite (getAuthHeader_user ls user) by done. eauto.
Qed.

(** ** The upload module *)

Lemma batchUpload_refused uploadData b :
  hasPermission (checkPermission (localStorage b) ADMIN) = false →
  batchUpload uploadData b =
  (Return (failure (JStr <$> permission_message
                               (checkPermission (localStorage b) ADMIN))), b).
Proof.
  intros H. unfold batchUpload, try_catch, bind, checkPermissionM. simpl.
  by rewrite H.
Qed.

Lemma batchUpload_sent uploadData b auth :
  hasPermission (checkPermission (localStorage b) ADMIN) = true →
  getAuthHeader (localStorage b) = Return auth →
  sent (batchUpload uploadData b).2
  = sent b ++ [batchUpload_request b auth uploadData].
Proof.
  intros H Ha. unfold batchUpload, try_catch, bind, checkPermissionM, getAuthHeaderM.
  simpl. rewrite H. simpl. rewrite Ha.
  pose proof (apiFetch_sent (API_BASE_URL (env b) +:+ "/upload/batch")
                (post_options auth (FormData (batchUpload_form uploadData))) b)
    as [Hsent _].
  destruct (apiFetch _ _ b) as [[r|e] b1]; simpl in *; [|done].
  unfold lift, ret, detail_or, bindC.
  destruct (ok r); simpl; destruct_reads; done.
Qed.

Lemma batchUpload_created uploadData b auth r data :
  hasPermission (checkPermission (localStorage b) ADMIN) = true →
  getAuthHeader (localStorage b) = Return auth →
  remote b (sent b) (batchUpload_request b auth uploadData) = Responds r →
  ok r = true → json r = Return data → data ≠ JNull →
  (batchUpload uploadData b).1 =
  Return {| success := true;
            data := Some {| taskId := member data "taskId";
                            task_message :=
                              js_or (member data "message")
                                    (text "上傳任務已建立，開始處理檔案") |};
            message := None |}.
Proof.
  intros H Ha Hr Hok Hj Hnn.
  unfold batchUpload, try_catch, bind, checkPermissionM, getAuthHeaderM.
  simpl. rewrite H. simpl. rewrite Ha.
  rewrite (apiFetch_ok _ _ _ r) by (done || by apply ok_not_401).
  rewrite Hok. unfold lift. rewrite Hj, !get_member by done. done.
Qed.

(** C7. When the permission check for ADMIN fails, [batchUpload] answers
    [success: false] with the check's message and the browser is as before:
    no request was sent. When the check passes, one request goes out, and if
    the server answers ok with a JSON body the result is [success: true] with
    the [taskId] of that body. *)
Theorem batchUpload_permission_gate (b : Browser) (uploadData : UploadData) :
  (hasPermission (checkPermission (localStorage b) ADMIN) = false →
     ∃ msg, permission_message (checkPermission (localStorage b) ADMIN) = Some msg
            ∧ batchUpload uploadData b = (Return (failure (text msg)), b))
  ∧ (hasPermission (checkPermission (localStorage b) ADMIN) = true →
     ∃ auth, getAuthHeader (localStorage b) = Return auth
       ∧ sent (batchUpload uploadData b).2
         = sent b ++ [batchUpload_request b auth uploadData]
       ∧ ∀ r data,
           remote b (sent b) (batchUpload_request b auth uploadData) = Responds r →
           ok r = true → json r = Return data → data ≠ JNull →
           ∃ task, (batchUpload uploadData b).1
                   = Return {| success := true; data := Some task; message := None |}
                   ∧ taskId task = member data "taskId").
Proof.
  split.
  - intros H. destruct (checkPermission_message _ _ H) as [msg Hmsg].
    exists msg. split; [done|]. rewrite batchUpload_refused by done.
    by rewrite Hmsg.
  - intros H. destruct (getAuthHeader_permitted _ _ H) as [auth Ha].
    exists auth. split_and!; [done|by apply batchUpload_sent|].
    intros r data Hr Hok Hj Hnn. eexists. split.
    + by eapply batchUpload_created.
    + done.
Qed.

Lemma batchUpload_permission_gate_witness :
  (∃ msg, permission_message
            (checkPermission (localStorage (browser_of None (answering task_created)))
               ADMIN) = Some msg
          ∧ batchUpload sample_upload (browser_of None (answering task_created))
            = (Return (failure (text msg)), browser_of None (answering task_created)))
  ∧ (∃ task, (batchUpload sample_upload
                (browser_of (Some admin_user) (answering task_created))).1
             = Return {| success := true; data := Some task; message := None |}
             ∧ taskId task = Some (JStr "task-1")).
Proof.
  split.
  - apply (proj1 (batchUpload_permission_gate
                    (browser_of None (answering task_created)) sample_upload)).
    vm_compute. reflexivity.
  - destruct (proj2 (batchUpload_permission_gate
                       (browser_of (Some admin_user) (answering task_created))
                       sample_upload))
      as (auth & _ & _ & Hcreated); [vm_compute; reflexivity|].
    apply (Hcreated {| status := 200; body_text := JSON_stringify task_created |}
             task_created);
      [reflexivity|reflexivity|vm_compute; reflexivity|discriminate].
Defined.

Lemma checkDuplicates_body_filenames fileList :
  JSON_parse (checkDuplicates_body fileList) = Some (candidate_filenames fileList).
Proof. apply JSON_parse_stringify. Qed.

Lemma checkDuplicates_sent fileList b auth :
  getAuthHeader (localStorage b) = Return auth →
  sent (checkDuplicates fileList b).2
  = sent b ++ [checkDuplicates_request b auth fileList].
Proof.
  intros Ha. unfold checkDuplicates, try_catch, bind, getAuthHeaderM.
  simpl. rewrite Ha.
  pose proof (apiFetch_sent (API_BASE_URL (env b) +:+ "/upload/check-duplicates")
                (post_options (<["Content-Type" := "application/json"]> auth)
                              (TextBody (checkDuplicates_body fileList))) b)
    as [Hsent _].
  destruct (apiFetch _ _ b) as [[r|e] b1]; simpl in *; [|done].
  unfold lift, ret, detail_or, bindC.
  destruct (ok r); simpl; destruct_reads; done.
Qed.

Lemma checkDuplicates_results fileList b auth r data :
  getAuthHeader (localStorage b) = Return auth →
  remote b (sent b) (checkDuplicates_request b auth fileList) = Responds r →
  ok r = true → json r = Return data → data ≠ JNull →
  (checkDuplicates fileList b).1 =
  Return {| success := true;
            data := js_or (member data "results") (Some (JArr []));
            message := None |}.
Proof.
  intros Ha Hr Hok Hj Hnn.
  unfold checkDuplicates, try_catch, bind, getAuthHeaderM.
  simpl. rewrite Ha.
  rewrite (apiFetch_ok _ _ _ r) by (done || by apply ok_not_401).
  rewrite Hok. unfold lift. rewrite Hj, !get_member by done. done.
Qed.

Lemma checkDuplicates_no_header fileList b e :
  getAuthHeader (localStorage b) = Throw e →
  checkDuplicates fileList b
  = (Return (failure (text "檢查重複檔案失敗，請檢查網路連線")), b).
Proof.
  intros Ha. unfold checkDuplicates, try_catch, bind, getAuthHeaderM. simpl.
  by rewrite Ha.
Qed.

(** C8. [checkDuplicates] sends one request whose body is the JSON text of
    [{ filenames }], the array holding the [name] of each input file, one per
    file and in input order, and nothing else. When the answer is ok, the
    result carries the answer's [results] as they are, and the empty array
    when the answer has no [results] member. (Nothing is sent when the stored
    user is such that no authorization header can be built.) *)
Theorem checkDuplicates_filenames (b : Browser) (fileList : list File) :
  JSON_parse (checkDuplicates_body fileList)
  = Some (JObj [("filenames", JArr (map (λ f, JStr (file_name f)) fileList))])
  ∧ match getAuthHeader (localStorage b) with
    | Throw _ =>
        checkDuplicates fileList b
        = (Return (failure (text "檢查重複檔案失敗，請檢查網路連線")), b)
    | Return auth =>
        sent (checkDuplicates fileList b).2
        = sent b ++ [checkDuplicates_request b auth fileList]
        ∧ body (options (checkDuplicates_request b auth fileList))
          = Some (TextBody (checkDuplicates_body fileList))
        ∧ ∀ r data,
            remote b (sent b) (checkDuplicates_request b auth fileList) = Responds r →
            ok r = true → json r = Return data → data ≠ JNull →
            (∀ results, member data "results" = Some (JArr results) →
               (checkDuplicates fileList b).1
               = Return {| success := true; data := Some (JArr results);
                           message := None |})
            ∧ (member data "results" = None →
               (checkDuplicates fileList b).1
               = Return {| success := true; data := Some (JArr []);
                           message := None |})
    end.
Proof.
  split; [apply checkDuplicates_body_filenames|].
  destruct (getAuthHeader (localStorage b)) as [auth|e] eqn:Hauth;
    [|by eapply checkDuplicates_no_header].
  split_and!.
  - by apply checkDuplicates_sent.
  - done.
  - intros r data Hr Hok Hj Hnn.
    rewrite (checkDuplicates_results fileList b auth r data) by done.
    split.
    + by intros results ->.
    + by intros ->.
Qed.

Lemma checkDuplicates_filenames_witness :
  sent (checkDuplicates sample_files
          (browser_of (Some admin_user) (answering classification))).2
  = [checkDuplicates_request (browser_of (Some admin_user) (answering classification))
       {[ "Authorization" := "Bearer t0" ]} sample_files]
  ∧ JSON_parse (checkDuplicates_body sample_files)
    = Some (JObj [("filenames", JArr [JStr "policy.pdf"; JStr "policy_v2.pdf"])])
  ∧ (checkDuplicates sample_files
       (browser_of (Some admin_user) (answering classification))).1
    = Return {| success := true; data := member classification "results";
                message := None |}.
Proof.
  pose proof (checkDuplicates_filenames
                (browser_of (Some admin_user) (answering classification))
                sample_files) as [Hbody Hrun].
  assert (getAuthHeader (localStorage (browser_of (Some admin_user)
                                         (answering classification)))
          = Return {[ "Authorization" := "Bearer t0" ]}) as Hauth
    by (vm_compute; reflexivity).
  rewrite Hauth in Hrun. destruct Hrun as (Hsent & _ & Hresults).
  split_and!; [exact Hsent|exact Hbody|].
  destruct (Hresults {| status := 200; body_text := JSON_stringify classification |}
              classification) as (Hkept & _);
    [reflexivity|reflexivity|vm_compute; reflexivity|discriminate|].
  by eapply Hkept.
Defined.

(** ** The grant picker *)

Lemma map_throwing_Return {A B} (f : A → Completion B) l l' :
  map_throwing f l = Return l' → Forall2 (λ x y, f x = Return y) l l'.
Proof.
  revert l'. induction l as [|x l IH]; intros l'; simpl.
  - intros [= <-]. constructor.
  - destruct (f x) as [y|] eqn:Hx; simpl; [|done].
    destruct (map_throwing f l) as [ys|]; simpl; [|done].
    intros [= <-]. constructor; auto.
Qed.

Lemma filter_throwing_Return {A} (p : A → Completion bool) l l' :
  filter_throwing p l = Return l' →
  ∀ x, x ∈ l' → x ∈ l ∧ p x = Return true.
Proof.
  revert l'. induction l as [|y l IH]; intros l'; simpl.
  - intros [= <-] x Hx. by apply elem_of_nil in Hx.
  - destruct (p y) as [keep|] eqn:Hy; simpl; [|done].
    destruct (filter_throwing p l) as [r|]; simpl; [|done].
    intros [= <-] x Hx.
    destruct keep.
    + apply elem_of_cons in Hx as [->|Hx].
      * split; [left|done].
      * destruct (IH r eq_refl x Hx). split; [by right|done].
    + destruct (IH r eq_refl x Hx). split; [by right|done].
Qed.

Lemma lookup_member_last k v ms :
  lookup_member k (ms ++ [(k, v)]) = Some v.
Proof.
  induction ms as [|[k' v'] ms IH]; simpl.
  - by rewrite decide_True.
  - by rewrite IH.
Qed.

Lemma get_Return_member v k w :
  get (Some v) k = Return w → v ≠ JNull ∧ w = member v k.
Proof. destruct v; simpl; intros [= <-] || intros [=]; done. Qed.

Lemma filter_category_Return ids category category' :
  filter_category ids category = Return category' →
  ∃ kept, member category' "files" = Some (JArr kept)
          ∧ ∀ file, file ∈ kept → set_has ids (member file "id") = false.
Proof.
  unfold filter_category.
  destruct (get (Some category) "files") as [files|] eqn:Hf; simpl; [|done].
  destruct files as [[| | | |fs|]|]; try done.
  destruct category as [| | | | |members]; try done.
  destruct (filter_throwing _ fs) as [kept|] eqn:Hk; simpl; [|done].
  intros [= <-]. exists kept. split.
  - simpl. apply lookup_member_last.
  - intros file Hfile.
    destruct (filter_throwing_Return _ _ _ Hk file Hfile) as [_ Hp].
    destruct (get (Some file) "id") as [id|] eqn:Hid; simpl in Hp; [|done].
    apply get_Return_member in Hid as [_ ->].
    injection Hp as Hp. by apply negb_true_iff in Hp.
Qed.

Lemma has_files_nonempty category kept :
  member category "files" = Some (JArr kept) →
  has_files category = true → kept ≠ [].
Proof.
  intros Hm. unfold has_files.
  destruct category; try done. simpl in Hm. unfold get. rewrite Hm.
  by destruct kept.
Qed.

Lemma set_has_false ids x y :
  set_has ids x = false → y ∈ ids → same_value_zero x y = false.
Proof.
  unfold set_has. intros Hs Hy.
  destruct (same_value_zero x y) eqn:E; [|done].
  rewrite <- Hs. symmetry. apply existsb_exists. exists y.
  split; [by apply list_elem_of_In|done].
Qed.

Lemma filteredCategories_Return perms data filtered :
  filteredCategories perms data = Return filtered →
  ∀ category, category ∈ filtered →
    ∃ files, member category "files" = Some (JArr files) ∧ files ≠ []
             ∧ ∀ file, file ∈ files → ¬ already_granted perms file.
Proof.
  unfold filteredCategories.
  destruct (map_throwing _ perms) as [ids|] eqn:Hids; simpl; [|done].
  destruct (get (Some data) "categories") as [categories|]; simpl; [|done].
  destruct categories as [[| | | |cs|]|]; try done.
  destruct (map_throwing _ cs) as [mapped|] eqn:Hmapped; simpl; [|done].
  intros [= <-] category [Hhas Hin]%list_elem_of_filter.
  apply map_throwing_Return in Hmapped.
  destruct (proj1 (list_elem_of_lookup _ _) Hin) as [i Hi].
  destruct (Forall2_lookup_r _ _ _ _ _ Hmapped Hi) as (c & _ & Hc).
  apply filter_category_Return in Hc as (kept & Hfiles & Hkept).
  exists kept. split_and!; [done|by eapply has_files_nonempty|].
  intros file Hfile (p & Hp & Hsame).
  apply map_throwing_Return in Hids.
  destruct (proj1 (list_elem_of_lookup _ _) Hp) as [j Hj].
  destruct (Forall2_lookup_l _ _ _ _ _ Hids Hj) as (id & Hid & Hget).
  apply get_Return_member in Hget as [_ ->].
  assert (same_value_zero (member file "id") (member p "file_id") = false) as Hno.
  { eapply set_has_false; [by apply Hkept|].
    unfold new_Set. by eapply list_elem_of_lookup_2. }
  congruence.
Qed.

Lemma map_throwing_total {A B} (f : A → Completion B) (g : A → B) l :
  Forall (λ x, f x = Return (g x)) l → map_throwing f l = Return (map g l).
Proof.
  induction 1 as [|x l Hx _ IH]; simpl; [done|]. by rewrite Hx, IH.
Qed.

Lemma filter_throwing_total {A} (p : A → Completion bool) (q : A → bool) l :
  Forall (λ x, p x = Return (q x)) l →
  filter_throwing p l = Return (filter (λ x, q x = true) l).
Proof.
  induction 1 as [|x l Hx _ IH]; simpl; [done|]. rewrite Hx, IH. simpl.
  rewrite filter_cons. by destruct (q x).
Qed.

(** X19. On a listing of the shape the backend sends, the picker holds exactly
    the categories of the listing, each without the granted files, minus the
    categories that are left empty. *)
Lemma filteredCategories_total perms data cs :
  Forall (λ p, p ≠ JNull) perms →
  data ≠ JNull → member data "categories" = Some (JArr cs) →
  Forall category_shape cs →
  filteredCategories perms data
  = Return (filter (λ c, has_files c = true) (map (without_granted perms) cs)).
Proof.
  intros Hperms Hdata Hcs Hshape. unfold filteredCategories.
  rewrite (map_throwing_total _ (λ p, member p "file_id")).
  2: { eapply Forall_impl; [exact Hperms|]. intros p Hp. by apply get_member. }
  simpl. rewrite get_member, Hcs by done. simpl.
  rewrite (map_throwing_total _ (without_granted perms)); [done|].
  eapply Forall_impl; [exact Hshape|].
  intros c (members & fs & -> & Hfiles & Hfs).
  unfold filter_category, without_granted. rewrite get_member, Hfiles by done.
  simpl. rewrite (filter_throwing_total _ (ungranted perms)); [done|].
  eapply Forall_impl; [exact Hfs|]. intros f Hf. by rewrite get_member.
Qed.

(** After [loadAvailableFiles] has run for a chosen department, every
    category the picker holds has a non-empty [files] list, and no file in it
    has the id of a row of [permissions], the list the component holds. *)
Theorem loadAvailableFiles_excludes_granted (view : PermissionsView) (b : Browser)
    (Hdept : truthy (grantForm_department_id view) = true) :
  ∃ view', (loadAvailableFiles view b).1 = Return view'
    ∧ permissions view' = permissions view
    ∧ ∀ category, category ∈ categoriesData view' →
        ∃ files, member category "files" = Some (JArr files)
                 ∧ files ≠ []
                 ∧ ∀ file, file ∈ files → ¬ already_granted (permissions view) file.
Proof.
  unfold loadAvailableFiles. rewrite Hdept. simpl.
  unfold try_catch, bind, lift, ret.
  destruct (getAvailableFilesForPermissions _ b) as [[data|e] b1]; simpl.
  2: { eexists. split_and!; [done|done|]. simpl. intros c Hc.
       by apply elem_of_nil in Hc. }
  destruct (filteredCategories (permissions view) data) as [filtered|] eqn:Hf; simpl.
  2: { eexists. split_and!; [done|done|]. simpl. intros c Hc.
       by apply elem_of_nil in Hc. }
  eexists. split_and!; [done|done|]. simpl.
  by eapply filteredCategories_Return.
Qed.

Lemma loadAvailableFiles_excludes_granted_witness :
  ∃ view', (loadAvailableFiles sample_view
              (browser_of (Some admin_user) (answering available_files))).1
           = Return view'
    ∧ permissions view' = permissions sample_view
    ∧ ∀ category, category ∈ categoriesData view' →
        ∃ files, member category "files" = Some (JArr files)
                 ∧ files ≠ []
                 ∧ ∀ file, file ∈ files →
                     ¬ already_granted (permissions sample_view) file.
Proof.
  apply (loadAvailableFiles_excludes_granted sample_view
           (browser_of (Some admin_user) (answering available_files))).
  reflexivity.
Defined.

(** On the sample, files 1 and 3 are granted: the picker keeps file 2 and
    drops the second category. *)
Example loadAvailableFiles_sample :
  match (loadAvailableFiles sample_view
           (browser_of (Some admin_user) (answering available_files))).1 with
  | Return view' =>
      map (λ c, (member c "category_id", member c "files")) (categoriesData view')
  | Throw _ => []
  end
  = [(Some (JNum 1), Some (JArr [file_entry 2 "b.pdf"]))].
Proof. vm_compute. reflexivity. Qed.

(** C2, at the input where it fails. Query user 40 holds permission 50 on
    file 1 of department 3 and permissions on files of department 4. The list
    of the panel is filtered by department 4 and a permission is revoked:
    [loadPermissions] loads the list again with the filter, so the component
    holds the permissions of department 4 only. The grant dialog is then
    opened for department 3: [loadAvailableFiles] filters the listing
    against the permissions the component holds, and the picker presents
    file 1, which the user has been granted. With the filter on all
    departments the same steps leave file 1 out. *)
Theorem loadAvailableFiles_filtered_list :
  let b := browser_of (Some admin_user) grants_server in
  let files picker := map (λ c, member c "files") (categoriesData picker) in
  match (revoke_then_grant (Some (JNum 4)) b).1, (revoke_then_grant (Some JNull) b).1 with
  | Return (picker, held), Return (unfiltered, _) =>
      member held "items" = Some (JArr [grant 50 1 3; grant 51 7 4])
      ∧ already_granted [grant 50 1 3; grant 51 7 4] (file_entry 1 "a.pdf")
      ∧ permissions picker = [grant 51 7 4]
      ∧ files picker = [Some (JArr [file_entry 1 "a.pdf"; file_entry 2 "b.pdf"]);
                        Some (JArr [file_entry 3 "c.pdf"])]
      ∧ permissions unfiltered = [grant 50 1 3; grant 51 7 4]
      ∧ files unfiltered = [Some (JArr [file_entry 2 "b.pdf"]);
                            Some (JArr [file_entry 3 "c.pdf"])]
  | _, _ => False
  end.
Proof.
  intros b files.
  set (held := JObj [("items", JArr [grant 50 1 3; grant 51 7 4])]).
  set (picker_of perms :=
         {| permissions := perms;
            categoriesData := match filteredCategories perms available_files with
                              | Return cs => cs
                              | Throw _ => []
                              end;
            expandedCategories := [Some (JNum 1); Some (JNum 2)];
            grantForm_department_id := Some (JNum 3);
            grantForm_file_ids := [];
            toasts := [] |}).
  assert ((revoke_then_grant (Some (JNum 4)) b).1
          = Return (picker_of [grant 51 7 4], held)) as ->
    by (vm_compute; reflexivity).
  assert ((revoke_then_grant (Some JNull) b).1
          = Return (picker_of [grant 50 1 3; grant 51 7 4], held)) as ->
    by (vm_compute; reflexivity).
  unfold files.
  split_and!; try (vm_compute; reflexivity).
  exists (grant 50 1 3). split; [apply list_elem_of_here|reflexivity].
Qed.

(** The requests of that session, in order: the list is asked for again
    with the filter, and the listing of department 3 carries no user. *)
Example revoke_then_grant_calls :
  calls (sent (revoke_then_grant (Some (JNum 4))
                 (browser_of (Some admin_user) grants_server)).2)
  = [ (Some "GET", "/api/query-users/40/permissions");
      (Some "DELETE", "/api/query-users/permissions/52");
      (Some "GET", "/api/query-users/40/permissions?department_id=4");
      (Some "GET", "/api/query-users/available-files/3");
      (Some "GET", "/api/query-users/40/permissions") ].
Proof. vm_compute. reflexivity. Qed.

(** ** Impersonation *)

Lemma getUserInfo_run b user :
  stored_user (localStorage b) = Some user →
  getUserInfo b = (Return user, b).
Proof.
  intros (s & Hs & Hp)%stored_user_Some.
  unfold getUserInfo, try_catch, bind, getItem. simpl. by rewrite Hs, Hp.
Qed.

Lemma enter_as_run user dept b :
  user ≠ JNull → enter_as user dept b = (Return (), entered user dept b).
Proof.
  intros Hnn. unfold enter_as, bind, getItem, lift. rewrite !get_member by done.
  unfold entered, entered_storage.
  by destruct (present (localStorage b !! "superAdminUser")).
Qed.

Lemma enterDepartmentDashboard_run dept b user :
  stored_user (localStorage b) = Some user → user ≠ JNull →
  enterDepartmentDashboard dept b = (Return (), entered user dept b).
Proof.
  intros Hu Hnn. unfold enterDepartmentDashboard, bind.
  rewrite (getUserInfo_run b user Hu). by apply enter_as_run.
Qed.

Lemma enterDepartmentDashboard_management_run dept b user :
  stored_user (localStorage b) = Some user → user ≠ JNull →
  enterDepartmentDashboard_management dept b = (Return (), entered user dept b).
Proof.
  intros (s & Hs & Hp)%stored_user_Some Hnn.
  unfold enterDepartmentDashboard_management, bind, getItem. simpl.
  rewrite Hs. simpl. rewrite Hp. by apply enter_as_run.
Qed.

Lemma stored_user_insert ls v :
  stored_user (<["user" := JSON_stringify v]> ls) = Some v.
Proof.
  unfold stored_user. rewrite lookup_insert_eq, present_stringify. simpl.
  apply JSON_parse_stringify.
Qed.

Lemma stored_user_entered user dept ls :
  stored_user (entered_storage user dept ls)
  = Some (tempUser_of (member user "id") (member user "username") dept).
Proof. apply stored_user_insert. Qed.

Lemma tempUser_members id username dept :
  let acting := tempUser_of id username dept in
  member acting "id" = id
  ∧ member acting "username" = username
  ∧ member acting "departmentId" = dept_id dept
  ∧ member acting "departmentName" = dept_name dept
  ∧ member acting "isSuperAdminProxy" = Some (JBool true)
  ∧ member acting "_originalRole" = Some (JStr "SUPER_ADMIN")
  ∧ member acting "role" = Some (JStr "ADMIN").
Proof.
  destruct dept as [[d|] [n|]], id as [i|], username as [u|]; cbn; done.
Qed.

Lemma token_entered user dept ls :
  entered_storage user dept ls !! "token" = ls !! "token".
Proof.
  unfold entered_storage. rewrite lookup_insert_ne by done.
  destruct (present (ls !! "superAdminUser")); [done|].
  by rewrite lookup_insert_ne.
Qed.

(** C4. Entering a department leaves an acting user with the id and username
    of the user who was stored, the department's id and name as
    [departmentId] and [departmentName], [isSuperAdminProxy] true and
    [_originalRole] SUPER_ADMIN; the token is not touched. Both copies of
    [enterDepartmentDashboard] behave so. *)
Theorem enterDepartmentDashboard_identity (b : Browser) (dept : Department)
    (user : JSON)
    (Huser : stored_user (localStorage b) = Some user) (Hnn : user ≠ JNull) :
  ∀ enter,
    enter = enterDepartmentDashboard ∨ enter = enterDepartmentDashboard_management →
    (enter dept b).1 = Return ()
    ∧ (∃ acting,
         stored_user (localStorage (enter dept b).2) = Some acting
         ∧ member acting "id" = member user "id"
         ∧ member acting "username" = member user "username"
         ∧ member acting "departmentId" = dept_id dept
         ∧ member acting "departmentName" = dept_name dept
         ∧ member acting "isSuperAdminProxy" = Some (JBool true)
         ∧ member acting "_originalRole" = Some (JStr "SUPER_ADMIN"))
    ∧ localStorage (enter dept b).2 !! "token" = localStorage b !! "token".
Proof.
  intros enter Henter.
  assert (enter dept b = (Return (), entered user dept b)) as ->.
  { destruct Henter as [-> | ->];
      [by apply enterDepartmentDashboard_run
      |by apply enterDepartmentDashboard_management_run]. }
  simpl. split_and!; [done| |apply token_entered].
  eexists. split; [apply stored_user_entered|].
  pose proof (tempUser_members (member user "id") (member user "username") dept)
    as (? & ? & ? & ? & ? & ? & ?).
  by split_and!.
Qed.

Lemma enterDepartmentDashboard_identity_witness :
  let b := browser_of (Some super_admin_user) (answering JNull) in
  let dept := {| dept_id := Some (JNum 7); dept_name := Some (JStr "Library") |} in
  (enterDepartmentDashboard dept b).1 = Return ()
  ∧ (∃ acting,
       stored_user (localStorage (enterDepartmentDashboard dept b).2) = Some acting
       ∧ member acting "id" = member super_admin_user "id"
       ∧ member acting "username" = member super_admin_user "username"
       ∧ member acting "departmentId" = Some (JNum 7)
       ∧ member acting "departmentName" = Some (JStr "Library")
       ∧ member acting "isSuperAdminProxy" = Some (JBool true)
       ∧ member acting "_originalRole" = Some (JStr "SUPER_ADMIN"))
  ∧ localStorage (enterDepartmentDashboard dept b).2 !! "token" = Some "t0".
Proof.
  apply (enterDepartmentDashboard_identity
           (browser_of (Some super_admin_user) (answering JNull))
           {| dept_id := Some (JNum 7); dept_name := Some (JStr "Library") |}
           super_admin_user);
    [vm_compute; reflexivity|discriminate|by left].
Defined.

Lemma object_literal_nonnull fields : object_literal fields ≠ JNull.
Proof. done. Qed.

Lemma entered_impersonating_first user dept ls :
  present (ls !! "superAdminUser") = None →
  impersonating (superAdminUser_of (member user "id") (member user "name")
                   (member user "username"))
                (ls !! "token") (entered_storage user dept ls).
Proof.
  intros Hfresh. split_and!.
  - unfold entered_storage. rewrite Hfresh.
    by rewrite lookup_insert_ne, lookup_insert_eq.
  - apply token_entered.
  - eexists. split; [apply stored_user_entered|apply object_literal_nonnull].
Qed.

Lemma entered_impersonating_again saved token user dept ls :
  impersonating saved token ls →
  impersonating saved token (entered_storage user dept ls).
Proof.
  intros (Hsaved & Htoken & _).
  assert (present (ls !! "superAdminUser") = Some (JSON_stringify saved)) as Hp
    by (rewrite Hsaved; apply present_stringify).
  split_and!.
  - unfold entered_storage. rewrite Hp. by rewrite lookup_insert_ne.
  - by rewrite token_entered.
  - eexists. split; [apply stored_user_entered|apply object_literal_nonnull].
Qed.

Lemma enter_all_impersonating enter saved token depts b :
  enter = enterDepartmentDashboard ∨ enter = enterDepartmentDashboard_management →
  impersonating saved token (localStorage b) →
  (enter_all enter depts b).1 = Return ()
  ∧ impersonating saved token (localStorage (enter_all enter depts b).2).
Proof.
  intros Henter. revert b.
  induction depts as [|d depts IH]; intros b Himp; [done|].
  destruct Himp as (Hsaved & Htoken & acting & Hacting & Hnn).
  assert (enter d b = (Return (), entered acting d b)) as Hrun.
  { destruct Henter as [-> | ->];
      [by apply enterDepartmentDashboard_run
      |by apply enterDepartmentDashboard_management_run]. }
  simpl. unfold bind. rewrite Hrun. apply IH. simpl.
  apply entered_impersonating_again. split_and!; eauto.
Qed.

Lemma returnToSuperAdmin_run saved token b :
  impersonating saved token (localStorage b) →
  (returnToSuperAdmin b).1 = Return ()
  ∧ localStorage (returnToSuperAdmin b).2
    = delete "superAdminUser" (<["user" := JSON_stringify saved]> (localStorage b)).
Proof.
  intros (Hsaved & _ & _).
  unfold returnToSuperAdmin, try_catch, bind, getItem. simpl.
  rewrite Hsaved, present_stringify, JSON_parse_stringify. done.
Qed.

Lemma superAdminUser_members id name username :
  let saved := superAdminUser_of id name username in
  member saved "id" = id
  ∧ member saved "name" = name
  ∧ member saved "username" = username
  ∧ member saved "role" = Some (JStr "SUPER_ADMIN")
  ∧ member saved "departmentId" = None
  ∧ member saved "departmentName" = None.
Proof. destruct id as [i|], name as [n|], username as [u|]; cbn; done. Qed.

(** C5, at the input where it fails. Zed logs in, enters a department and
    logs out from its dashboard: [handleLogout] removes the token and the
    user and leaves the [superAdminUser] entry in storage. Root then logs in,
    enters a department and returns. The entry is not the one of this
    session, [enterDepartmentDashboard] takes it for its own, and
    [returnToSuperAdmin] restores the stored user from it: the user restored
    is Zed (id 9), not Root (id 1), the user stored when the department was
    entered. *)
Lemma impersonation_stale_entry :
  localStorage stale_browser
  = {[ "isAuthenticated" := "true"; "token" := "t1";
       "user" := JSON_stringify super_admin_user;
       "superAdminUser" := JSON_stringify zed_user ]}
  ∧ stored_user (localStorage stale_browser) = Some super_admin_user
  ∧ member super_admin_user "id" = Some (JNum 1)
  ∧ ((enterDepartmentDashboard library ;; returnToSuperAdmin) stale_browser).1
    = Return ()
  ∧ ∃ restored,
      stored_user (localStorage
        ((enterDepartmentDashboard library ;; returnToSuperAdmin) stale_browser).2)
      = Some restored
      ∧ member restored "id" = Some (JNum 9)
      ∧ member restored "id" ≠ member super_admin_user "id".
Proof.
  split_and!; try (vm_compute; reflexivity).
  eexists. split_and!; [vm_compute; reflexivity|reflexivity|discriminate].
Qed.

(** The round trip where no earlier session has left a [superAdminUser]
    entry behind: entering departments in a row and then returning restores
    a stored user with the id, name and username of the user stored at the
    start and role SUPER_ADMIN, without [departmentId] or [departmentName];
    the saved entry is gone and the token is as it was. *)
Theorem impersonation_round_trip (b : Browser) (depts : list Department)
    (user : JSON) (enter : Department → M unit)
    (Henter : enter = enterDepartmentDashboard
              ∨ enter = enterDepartmentDashboard_management)
    (Huser : stored_user (localStorage b) = Some user) (Hnn : user ≠ JNull)
    (Hfresh : present (localStorage b !! "superAdminUser") = None)
    (Hdepts : depts ≠ []) :
  let after := (enter_all enter depts ;; returnToSuperAdmin) b in
  after.1 = Return ()
  ∧ (∃ restored,
       stored_user (localStorage after.2) = Some restored
       ∧ member restored "id" = member user "id"
       ∧ member restored "name" = member user "name"
       ∧ member restored "username" = member user "username"
       ∧ member restored "role" = Some (JStr "SUPER_ADMIN")
       ∧ member restored "departmentId" = None
       ∧ member restored "departmentName" = None)
  ∧ localStorage after.2 !! "superAdminUser" = None
  ∧ localStorage after.2 !! "token" = localStorage b !! "token".
Proof.
  destruct depts as [|d depts]; [done|]. clear Hdepts.
  set (saved := superAdminUser_of (member user "id") (member user "name")
                  (member user "username")).
  assert (enter d b = (Return (), entered user d b)) as Hfirst.
  { destruct Henter as [-> | ->];
      [by apply enterDepartmentDashboard_run
      |by apply enterDepartmentDashboard_management_run]. }
  pose proof (entered_impersonating_first user d (localStorage b) Hfresh) as Himp.
  fold saved in Himp.
  destruct (enter_all_impersonating enter saved (localStorage b !! "token") depts
              (entered user d b) Henter Himp) as [Hrest Himp'].
  destruct (enter_all enter depts (entered user d b)) as [c b2] eqn:Hb2.
  simpl in Hrest, Himp'. subst c.
  destruct (returnToSuperAdmin_run saved _ b2 Himp') as [Hret Hls].
  intros after.
  assert (after = returnToSuperAdmin b2) as ->.
  { unfold after. simpl. unfold bind at 1 2. rewrite Hfirst. by rewrite Hb2. }
  rewrite Hls. split_and!.
  - done.
  - exists saved. split.
    + unfold stored_user. rewrite lookup_delete_ne, lookup_insert_eq by done.
      rewrite present_stringify. simpl. apply JSON_parse_stringify.
    + apply superAdminUser_members.
  - apply lookup_delete_eq.
  - rewrite lookup_delete_ne, lookup_insert_ne by done.
    by destruct Himp' as (_ & ? & _).
Qed.

Lemma impersonation_round_trip_witness :
  let b := browser_of (Some super_admin_user) (answering JNull) in
  let after := (enter_all enterDepartmentDashboard [library; registry]
                ;; returnToSuperAdmin) b in
  after.1 = Return ()
  ∧ (∃ restored,
       stored_user (localStorage after.2) = Some restored
       ∧ member restored "id" = Some (JNum 1)
       ∧ member restored "name" = Some (JStr "Root")
       ∧ member restored "username" = Some (JStr "root")
       ∧ member restored "role" = Some (JStr "SUPER_ADMIN")
       ∧ member restored "departmentId" = None
       ∧ member restored "departmentName" = None)
  ∧ localStorage after.2 !! "superAdminUser" = None
  ∧ localStorage after.2 !! "token" = Some "t0".
Proof.
  apply (impersonation_round_trip
           (browser_of (Some super_admin_user) (answering JNull))
           [library; registry] super_admin_user enterDepartmentDashboard);
    [by left|vm_compute; reflexivity|discriminate|reflexivity|discriminate].
Defined.

(** ** The access-control resolver *)

Lemma has_permission_row_spec st u f :
  has_permission_row st u f = true ↔
  ∃ p, p ∈ file_permissions st ∧ query_user_id p = u ∧ file_id p = f.
Proof.
  unfold has_permission_row. rewrite existsb_exists. split.
  - intros (p & Hin%list_elem_of_In & Hp%bool_decide_eq_true). eauto.
  - intros (p & Hin & Hu & Hf). exists p.
    split; [by apply list_elem_of_In|by apply bool_decide_eq_true].
Qed.

Lemma file_is_public_set f public st file :
  knowledge_files st !! f = Some file →
  file_is_public (set_is_public f public st) f = public.
Proof.
  intros Hf. unfold file_is_public, set_is_public. simpl.
  by rewrite lookup_alter_eq, Hf.
Qed.

(** C1. [canRead] answers true exactly when the file is public or a
    permission row exists for the user and the file. Making a file public
    lets every query user read it, whatever the rows; making it private again
    leaves the rows as they were, so that exactly the users with a row can
    read it. *)
Theorem canRead_public_or_granted (st : Resolver) (u f : Z) :
  (canRead st u f = true ↔
     file_is_public st f = true
     ∨ ∃ p, p ∈ file_permissions st ∧ query_user_id p = u ∧ file_id p = f)
  ∧ (∀ file, knowledge_files st !! f = Some file →
       (∀ u', canRead (set_is_public f true st) u' f = true)
       ∧ file_permissions (set_is_public f false (set_is_public f true st))
         = file_permissions st
       ∧ (∀ u', canRead (set_is_public f false (set_is_public f true st)) u' f = true
                ↔ ∃ p, p ∈ file_permissions st ∧ query_user_id p = u' ∧ file_id p = f)).
Proof.
  split.
  - unfold canRead. rewrite orb_true_iff, has_permission_row_spec. done.
  - intros file Hf. split_and!.
    + intros u'. unfold canRead.
      by rewrite (file_is_public_set f true st file Hf).
    + done.
    + intros u'. unfold canRead.
      assert (∃ file', knowledge_files (set_is_public f true st) !! f = Some file')
        as [file' Hf'].
      { simpl. rewrite lookup_alter_eq, Hf. simpl. eauto. }
      rewrite (file_is_public_set f false _ file' Hf'). simpl.
      by rewrite has_permission_row_spec.
Qed.

Lemma canRead_public_or_granted_witness :
  (∀ u', canRead (set_is_public 10 true sample_resolver) u' 10 = true)
  ∧ canRead (set_is_public 10 false (set_is_public 10 true sample_resolver)) 1 10 = true
  ∧ canRead (set_is_public 10 false (set_is_public 10 true sample_resolver)) 2 10 = false.
Proof.
  destruct (proj2 (canRead_public_or_granted sample_resolver 1 10)
              {| department_id := 3; is_public := false |})
    as (Hpublic & _ & _); [reflexivity|].
  split_and!; [exact Hpublic|reflexivity|reflexivity].
Defined.

(** ** Deleting a department *)

Lemma apiFetch_frame u o b :
  env (apiFetch u o b).2 = env b
  ∧ remote (apiFetch u o b).2 = remote b
  ∧ calls (sent (apiFetch u o b).2) = calls (sent b) ++ [(method o, u)]
  ∧ (∀ r, (apiFetch u o b).1 = Return r →
       localStorage (apiFetch u o b).2 = localStorage b).
Proof.
  rewrite apiFetch_run. simpl.
  destruct (remote b (sent b) _) as [r|];
    [destruct (decide (status r = 401))|]; simpl;
    unfold calls; by rewrite map_app.
Qed.

(** [deleteUser] always returns a result; it makes at most one call, the
    DELETE of that user, and has made it whenever it reports success. *)
Lemma deleteUser_run userId b :
  ∃ result b' l,
    deleteUser userId b = (Return result, b')
    ∧ env b' = env b ∧ remote b' = remote b
    ∧ calls (sent b') = calls (sent b) ++ l
    ∧ (l = [] ∨ l = [user_delete_call (env b) userId])
    ∧ (success result = true →
       l = [user_delete_call (env b) userId] ∧ localStorage b' = localStorage b).
Proof.
  unfold deleteUser, try_catch, bind, checkPermissionM, getAuthHeaderM. simpl.
  destruct (hasPermission (checkPermission (localStorage b) SUPER_ADMIN)) eqn:Hperm;
    simpl.
  2: { eexists _, b, []. rewrite app_nil_r. by split_and!; eauto. }
  destruct (getAuthHeader_permitted _ _ Hperm) as [auth ->].
  destruct (apiFetch_frame (API_BASE_URL (env b) +:+ "/users/" +:+ template userId)
              (delete_options auth) b) as (Henv & Hremote & Hcalls & Hls).
  destruct (apiFetch _ _ b) as [[r|e] b1]; simpl in *.
  2: { eexists _, b1, _. by split_and!; eauto. }
  specialize (Hls r eq_refl).
  unfold lift, ret, detail_or, bindC.
  destruct (ok r); simpl; destruct_reads;
    by eexists _, b1, _; split_and!; eauto.
Qed.

Lemma delete_users_run users b :
  ∃ stopped b' l,
    delete_users users b = (Return stopped, b')
    ∧ env b' = env b ∧ remote b' = remote b
    ∧ calls (sent b') = calls (sent b) ++ l
    ∧ Forall (λ c, ∃ u, u ∈ users ∧ c = user_delete_call (env b) (user_id u)) l
    ∧ (stopped = None →
       l = map (λ u, user_delete_call (env b) (user_id u)) users
       ∧ localStorage b' = localStorage b)
    ∧ (∀ r, stopped = Some r → success r = false).
Proof.
  revert b. induction users as [|user users IH]; intros b.
  { eexists None, b, []. rewrite app_nil_r. by split_and!. }
  destruct (deleteUser_run (user_id user) b)
    as (result & b1 & l1 & Hrun & Henv1 & Hremote1 & Hcalls1 & Hl1 & Hsucc).
  simpl. unfold bind. rewrite Hrun.
  destruct (success result) eqn:Hres; simpl.
  - destruct (Hsucc eq_refl) as [-> Hls1].
    destruct (IH b1) as (stopped & b2 & l2 & Hrun2 & Henv2 & Hremote2 & Hcalls2
                         & Hl2 & Hnone & Hsome).
    rewrite Hrun2. eexists stopped, b2, (_ :: l2). split_and!.
    + done.
    + congruence.
    + congruence.
    + rewrite Hcalls2, Hcalls1, <- app_assoc. done.
    + constructor.
      * exists user. split; [left|done].
      * eapply Forall_impl; [exact Hl2|]. simpl.
        intros c (u & Hu & ->). exists u. split; [by right|]. by rewrite Henv1.
    + intros Hs. destruct (Hnone Hs) as [-> Hls2]. split.
      * simpl. by rewrite Henv1.
      * congruence.
    + done.
  - eexists _, b1, l1. split_and!.
    + done.
    + done.
    + done.
    + done.
    + destruct Hl1 as [-> | ->]; [constructor|].
      constructor; [|constructor]. exists user. split; [left|done].
    + done.
    + by intros r [= <-].
Qed.

Lemma getUsersByDepartment_listed departmentId b res b1 :
  getUsersByDepartment departmentId b = (Return res, b1) → success res = true →
  env b1 = env b ∧ remote b1 = remote b ∧ localStorage b1 = localStorage b
  ∧ calls (sent b1) = calls (sent b) ++ [listing_call (env b) departmentId]
  ∧ ∃ users, data res = Some users.
Proof.
  unfold getUsersByDepartment, try_catch, bind, getAuthHeaderM. simpl.
  destruct (getAuthHeader (localStorage b)) as [auth|]; simpl;
    [|by intros [= <- <-]].
  destruct (apiFetch_frame
              (API_BASE_URL (env b) +:+ "/users/?department_id=" +:+ template departmentId)
              (get_options auth) b) as (Henv & Hremote & Hcalls & Hls).
  destruct (apiFetch _ _ b) as [[r|e] b2]; simpl in *; [|by intros [= <- <-]].
  specialize (Hls r eq_refl).
  unfold lift, ret, detail_or, bindC.
  destruct (ok r); simpl; destruct_reads; intros [= <- <-]; try done.
  intros _. split_and!; eauto.
Qed.

Lemma delete_department_request_calls departmentId b auth :
  getAuthHeader (localStorage b) = Return auth →
  calls (sent (delete_department_request departmentId b).2)
  = calls (sent b) ++ [department_delete_call (env b) departmentId].
Proof.
  intros Ha. unfold delete_department_request, bind, getAuthHeaderM. simpl.
  rewrite Ha.
  destruct (apiFetch_frame
              (API_BASE_URL (env b) +:+ "/departments/" +:+ template departmentId)
              (delete_options auth) b) as (_ & _ & Hcalls & _).
  destruct (apiFetch _ _ b) as [[r|e] b1]; simpl in *; [|done].
  unfold lift, ret, detail_or, bindC.
  destruct (ok r); simpl; destruct_reads; done.
Qed.

Lemma append_cancel (a x y : string) : a +:+ x = a +:+ y → x = y.
Proof.
  induction a as [|c a IH]; [done|].
  change (String c (a +:+ x) = String c (a +:+ y) → x = y).
  intros [= H]. auto.
Qed.

Lemma user_delete_call_not_department c userId departmentId :
  user_delete_call c userId ≠ department_delete_call c departmentId.
Proof.
  unfold user_delete_call, department_delete_call.
  intros [= H%append_cancel]. vm_compute in H. discriminate.
Qed.

(** C6, at the input where it fails. The listing of the department's users
    is answered with 503: [deleteDepartment] deletes no user, sends the DELETE
    for the department and reports success. Had the listing been answered,
    the users 10 and 11 would have been deleted first. *)
Theorem deleteDepartment_listing_unavailable :
  let b := browser_of (Some super_admin_user) briefly_unavailable in
  let earlier := {| url := "/api/auth/verify"; options := get_options ∅ |} in
  (deleteDepartment (Some (JNum 3)) b).1
  = Return {| success := true; data := None; message := Some (JStr "deleted") |}
  ∧ calls (sent (deleteDepartment (Some (JNum 3)) b).2)
    = [ (Some "GET", "/api/users/?department_id=3");
        (Some "DELETE", "/api/departments/3") ]
  ∧ calls (sent (deleteDepartment (Some (JNum 3)) (after_request b earlier)).2)
    = [ (Some "GET", "/api/auth/verify");
        (Some "GET", "/api/users/?department_id=3");
        (Some "DELETE", "/api/users/10");
        (Some "DELETE", "/api/users/11");
        (Some "DELETE", "/api/departments/3") ].
Proof. vm_compute. done. Qed.

(** * Further properties of the client *)

(** ** Paths *)

Lemma append_cons c (s t : string) : String c s +:+ t = String c (s +:+ t).
Proof. done. Qed.

Lemma append_empty_r (s : string) : s +:+ "" = s.
Proof. induction s as [|c s IH]; [done|]. by rewrite append_cons, IH. Qed.

Lemma rev_app_append s t k :
  String.rev_app (s +:+ t) k = String.rev_app t (String.rev_app s k).
Proof.
  revert k. induction s as [|c s IH]; intros k; [done|].
  rewrite append_cons. simpl. apply IH.
Qed.

Lemma rev_app_rev_app s k m :
  String.rev_app (String.rev_app s k) m = String.rev_app k (s +:+ m).
Proof.
  revert k m. induction s as [|c s IH]; intros k m; [done|].
  simpl. rewrite IH. by rewrite append_cons.
Qed.

Lemma rev_rev s : String.rev (String.rev s) = s.
Proof. unfold String.rev. rewrite rev_app_rev_app. simpl. apply append_empty_r. Qed.

Lemma rev_append_slash s : String.rev (s +:+ "/") = String "/" (String.rev s).
Proof. unfold String.rev. by rewrite rev_app_append. Qed.

Lemma strip_trailing_slash_append s : strip_trailing_slash (s +:+ "/") = s.
Proof. unfold strip_trailing_slash. rewrite rev_append_slash. apply rev_rev. Qed.

Lemma strip_trailing_slash_kept s :
  ends_with_slash s = false → strip_trailing_slash s = s.
Proof.
  unfold ends_with_slash, strip_trailing_slash.
  destruct (String.rev s) as [|c r]; [done|].
  destruct (decide (c = "/"%char)) as [->|Hc]; [done|].
  intros _. destruct c as [[] [] [] [] [] [] [] []]; done.
Qed.

Lemma strip_trailing_slash_spelling s base :
  s = base ∨ s = base +:+ "/" → ends_with_slash base = false →
  strip_trailing_slash s = base.
Proof.
  intros [-> | ->] H; [by apply strip_trailing_slash_kept|].
  apply strip_trailing_slash_append.
Qed.

(** X1. The base path and the path may each be spelled with or without the
    slash between them: [getAppPath] gives the base, one slash and the path
    in all four cases, so the page a 401 sends the browser to is the base
    followed by a slash. *)
Theorem getAppPath_spellings (c : Config) (base p path : string)
    (Hbase : BASE_URL c = base ∨ BASE_URL c = base +:+ "/")
    (Hslash : ends_with_slash base = false)
    (Hp : starts_with_slash p = false)
    (Hpath : path = p ∨ path = "/" +:+ p) :
  getAppPath c path = base +:+ "/" +:+ p.
Proof.
  unfold getAppPath.
  rewrite (strip_trailing_slash_spelling _ base Hbase Hslash).
  destruct Hpath as [-> | ->]; [by rewrite Hp|done].
Qed.

Lemma getAppPath_spellings_witness :
  getAppPath {| BASE_URL := "/admin/"; VITE_API_BASE_URL := None |} "dashboard"
  = "/admin" +:+ "/" +:+ "dashboard".
Proof.
  apply (getAppPath_spellings _ "/admin" "dashboard" "dashboard");
    [by right|reflexivity|reflexivity|by left].
Defined.

(** X2. The address of an endpoint does not depend on whether the configured
    API base ends with a slash or the endpoint starts with one; without an
    endpoint the address is the base itself, with no slash added. *)
Theorem getApiUrl_spellings (c : Config) (base e : string)
    (Hbase : API_BASE_URL_of c = base ∨ API_BASE_URL_of c = base +:+ "/")
    (Hslash : ends_with_slash base = false)
    (He : starts_with_slash e = false) :
  getApiUrl c "" = base
  ∧ getApiUrl c ("/" +:+ e) = base +:+ "/" +:+ e
  ∧ (e ≠ "" → getApiUrl c e = base +:+ "/" +:+ e).
Proof.
  unfold getApiUrl.
  rewrite (strip_trailing_slash_spelling _ base Hbase Hslash).
  split_and!; [done|done|].
  intros Hne. destruct (decide (e = "")); [done|]. by rewrite He.
Qed.

Lemma getApiUrl_spellings_witness :
  let c := {| BASE_URL := "/"; VITE_API_BASE_URL := Some "http://localhost:8000/api/" |} in
  getApiUrl c "" = "http://localhost:8000/api"
  ∧ getApiUrl c ("/" +:+ "users") = "http://localhost:8000/api" +:+ "/" +:+ "users"
  ∧ ("users" ≠ "" → getApiUrl c "users" = "http://localhost:8000/api" +:+ "/" +:+ "users").
Proof.
  apply (getApiUrl_spellings _ "http://localhost:8000/api" "users");
    [by right|reflexivity|reflexivity].
Defined.

(** ** Object literals *)

Lemma lookup_member_object_literal_absent fields k :
  k ∉ fields.*1 →
  lookup_member k (omap (λ f : string * JsVal, v ← f.2; Some (f.1, v)) fields) = None.
Proof.
  induction fields as [|[k' [v|]] fields IH]; simpl; [done| |];
    change (list_omap _ _ ?f ?l) with (omap f l).
  - intros [Hk Hin]%not_elem_of_cons. rewrite IH by done. by rewrite decide_False.
  - intros [_ Hin]%not_elem_of_cons. by apply IH.
Qed.

Lemma member_object_literal fields k v :
  NoDup fields.*1 → (k, v) ∈ fields → member (object_literal fields) k = v.
Proof.
  unfold object_literal, member.
  induction fields as [|[k' v'] fields IH]; simpl.
  { by intros _ ?%elem_of_nil. }
  change (list_omap _ _ ?f ?l) with (omap f l).
  intros [Hk' Hnd]%NoDup_cons [[= -> ->] | Hin]%elem_of_cons.
  - destruct v' as [x|]; simpl.
    + rewrite lookup_member_object_literal_absent by done. by rewrite decide_True.
    + by apply lookup_member_object_literal_absent.
  - assert (k ≠ k') as Hne.
    { intros ->. apply Hk'. apply list_elem_of_fmap. by exists (k', v). }
    specialize (IH Hnd Hin).
    destruct v' as [x|]; simpl; change (list_omap _ _ ?f ?l) with (omap f l);
      [|done].
    rewrite IH. destruct v; [done|]. by rewrite decide_False.
Qed.

Lemma member_object_literal_absent fields k :
  k ∉ fields.*1 → member (object_literal fields) k = None.
Proof. apply lookup_member_object_literal_absent. Qed.

(** ** The session: logging in and out *)

Lemma getCurrentUser_stored ls user :
  stored_user ls = Some user → getCurrentUser ls = user.
Proof.
  intros (s & Hs & Hp)%stored_user_Some. unfold getCurrentUser. by rewrite Hs, Hp.
Qed.

Lemma checkAuth_stored ls user :
  stored_user ls = Some user → user ≠ JNull →
  checkAuth ls = {| isAuthenticated := bool_decide (ls !! "isAuthenticated" = Some "true");
                    userRole := member user "role" |}.
Proof.
  intros (s & Hs & Hp)%stored_user_Some Hnn. unfold checkAuth.
  by rewrite Hs, Hp, get_member.
Qed.

(** X3. [login] always returns a result and makes exactly one request, which
    carries the credentials and no Authorization header; whatever the answer,
    storage and location are left as they were. *)
Theorem login_total (b : Browser) (username password : string) :
  ∃ result,
    login username password b
    = (Return result,
       after_request b {| url := API_BASE_URL (env b) +:+ "/auth/login";
                          options := login_options username password |})
    ∧ headers (login_options username password)
      = Some {[ "Content-Type" := "application/json" ]}.
Proof.
  unfold login, try_catch, bind, fetch, lift, ret. simpl.
  destruct (remote b (sent b) _) as [r|]; simpl; [|by eexists].
  destruct (json r) as [data|]; simpl; [|by eexists].
  unfold or_else, get_optional.
  destruct (ok r); simpl.
  - destruct (get (Some data) "user") as [user|]; simpl; [|by eexists].
    destruct (get user "id"); simpl; [|by eexists].
    destruct (get user "username"); simpl; [|by eexists].
    destruct (get user "name") as [name|]; simpl; [|by eexists].
    destruct (truthy name); simpl;
      [|destruct (get user "fullName"); simpl; [|by eexists]].
    all: destruct (get user "email"); simpl; [|by eexists].
    all: destruct (get user "role"); simpl; [|by eexists].
    all: destruct (get user "department") as [[[]|]|]; simpl; try by eexists.
    all: repeat match goal with
           | |- context [match get ?v ?k with _ => _ end] =>
               destruct (get v k); simpl
           end; by eexists.
  - destruct (get (Some data) "detail") as [detail|]; simpl; [|by eexists].
    destruct (truthy detail); simpl; [by eexists|].
    destruct (get (Some data) "message"); simpl; by eexists.
Qed.

(** X4. An answer that is not ok, 401 included, is reported as a failure
    with the body's [detail], else its [message], else a fixed text: unlike
    the calls that go through [apiFetch], a refused login clears nothing. *)
Theorem login_refused (b : Browser) (username password : string)
    (r : Response) (data : JSON)
    (Hr : remote b (sent b)
            {| url := API_BASE_URL (env b) +:+ "/auth/login";
               options := login_options username password |} = Responds r)
    (Hok : ok r = false) (Hdata : json r = Return data) (Hnn : data ≠ JNull) :
  login username password b
  = (Return (failure (js_or (js_or (member data "detail") (member data "message"))
                            (text "帳號或密碼錯誤"))),
     after_request b {| url := API_BASE_URL (env b) +:+ "/auth/login";
                        options := login_options username password |}).
Proof.
  unfold login, try_catch, bind, fetch, lift, ret. simpl.
  rewrite Hr. simpl. rewrite Hdata. simpl. rewrite Hok.
  rewrite get_member by done. simpl. unfold or_else, js_or.
  destruct (truthy (member data "detail")); simpl; [done|].
  by rewrite get_member.
Qed.

Lemma login_refused_witness :
  let b := browser_of (Some admin_user)
             (λ _ _, Responds {| status := 401;
                                 body_text := JSON_stringify
                                   (JObj [("detail", JStr "Incorrect password")]) |}) in
  login "amy" "guess" b
  = (Return (failure (text "Incorrect password")),
     after_request b {| url := API_BASE_URL (env b) +:+ "/auth/login";
                        options := login_options "amy" "guess" |}).
Proof.
  apply (login_refused _ "amy" "guess"
           {| status := 401;
              body_text := JSON_stringify (JObj [("detail", JStr "Incorrect password")]) |}
           (JObj [("detail", JStr "Incorrect password")]));
    [reflexivity|reflexivity|vm_compute; reflexivity|discriminate].
Defined.

Lemma get_optional_member v k : get_optional v k = Return (optional_member v k).
Proof. by destruct v as [[]|]. Qed.

Lemma login_logged_in b username password r data user :
  remote b (sent b)
    {| url := API_BASE_URL (env b) +:+ "/auth/login";
       options := login_options username password |} = Responds r →
  ok r = true → json r = Return data →
  member data "user" = Some user → user ≠ JNull →
  login username password b
  = (Return {| success := true;
               data := Some
                 {| login_user := logged_in_user user;
                    login_token := member data "token" |};
               message := text "登入成功" |},
     after_request b {| url := API_BASE_URL (env b) +:+ "/auth/login";
                        options := login_options username password |}).
Proof.
  intros Hr Hok Hdata Huser Hnn.
  assert (data ≠ JNull) as Hd by (by intros ->).
  unfold login, try_catch, bind, fetch, lift, ret. simpl.
  rewrite Hr. simpl. rewrite Hdata. simpl. rewrite Hok.
  rewrite get_member, Huser by done. simpl.
  rewrite !get_member by done. simpl.
  rewrite !get_optional_member. simpl.
  unfold logged_in_user, or_else, js_or.
  by destruct (truthy (member user "name")).
Qed.

Lemma logged_in_user_keys user :
  NoDup (([("id", member user "id");
     ("username", member user "username");
     ("name", js_or (member user "name") (member user "fullName"));
     ("email", member user "email");
     ("role", member user "role");
     ("departmentId",
      js_or (optional_member (member user "department") "id") (Some JNull));
     ("departmentName",
      js_or (optional_member (member user "department") "name") (Some JNull));
     ("isSuperAdmin", js_or (member user "isSuperAdmin") (Some (JBool false)))]
     : list (string * JsVal)).*1).
Proof. simpl. apply (bool_decide_unpack _). vm_compute. exact I. Qed.

Lemma logged_in_user_members user :
  let stored := logged_in_user user in
  member stored "id" = member user "id"
  ∧ member stored "username" = member user "username"
  ∧ member stored "role" = member user "role"
  ∧ member stored "departmentId"
    = js_or (optional_member (member user "department") "id") (Some JNull)
  ∧ member stored "departmentName"
    = js_or (optional_member (member user "department") "name") (Some JNull)
  ∧ member stored "isSuperAdminProxy" = None.
Proof.
  pose proof (logged_in_user_keys user) as Hnd.
  unfold logged_in_user. split_and!;
    try (apply member_object_literal;
         [exact Hnd
         |solve [repeat first [apply list_elem_of_here
                              |apply list_elem_of_further]]]).
  apply member_object_literal_absent. simpl.
  apply (bool_decide_unpack _). vm_compute. exact I.
Qed.

Lemma js_or_null_truthy v :
  js_or v (Some JNull) = Some JNull ∨ truthy (js_or v (Some JNull)) = true.
Proof. unfold js_or. destruct (truthy v) eqn:H; auto. Qed.

(** X5. After a login the server accepted, the page hands [App] the role of
    the answer's user, and the storage it leaves gives [App] the same state
    when read back; the stored token is the answer's; the stored user has the
    id and role of the answer's user and a [departmentId] that is [null] or
    truthy; and requests carry the bearer token and no
    X-Proxy-Department-Id header, whatever else the answer's user held. *)
Theorem handleSubmit_session (b : Browser) (username password : string)
    (r : Response) (data user : JSON)
    (Hr : remote b (sent b)
            {| url := API_BASE_URL (env b) +:+ "/auth/login";
               options := login_options username password |} = Responds r)
    (Hok : ok r = true) (Hdata : json r = Return data)
    (Huser : member data "user" = Some user) (Hnn : user ≠ JNull) :
  let b' := (handleSubmit username password b).2 in
  let stored := getCurrentUser (localStorage b') in
  (handleSubmit username password b).1 = Return (onLogin true (member user "role"))
  ∧ checkAuth (localStorage b') = handleLogin true (member user "role")
  ∧ localStorage b' !! "token" = Some (template (member data "token"))
  ∧ getAuthHeader (localStorage b')
    = Return {[ "Authorization" := "Bearer " +:+ template (member data "token") ]}
  ∧ member stored "id" = member user "id"
  ∧ member stored "role" = member user "role"
  ∧ (member stored "departmentId" = Some JNull
     ∨ truthy (member stored "departmentId") = true).
Proof.
  destruct (logged_in_user_members user)
    as (Hid & _ & Hrole & Hdept & _ & Hproxy).
  unfold handleSubmit, try_catch, bind.
  rewrite (login_logged_in b username password r data user) by done.
  cbn -[get logged_in_user]. unfold lift.
  rewrite get_member by apply object_literal_nonnull. cbn -[logged_in_user].
  set (ls' := <["user" := _]> _).
  assert (stored_user ls' = Some (logged_in_user user)) as Hstored
    by apply stored_user_insert.
  assert (ls' !! "token" = Some (template (member data "token"))) as Htoken.
  { unfold ls'. by rewrite lookup_insert_ne, lookup_insert_eq. }
  rewrite (getCurrentUser_stored _ _ Hstored).
  split_and!.
  - by rewrite Hrole.
  - rewrite (checkAuth_stored _ _ Hstored) by apply object_literal_nonnull.
    rewrite Hrole. unfold handleLogin. f_equal.
    apply bool_decide_eq_true. unfold ls'.
    rewrite lookup_insert_ne by done. rewrite lookup_insert_ne by done.
    by rewrite lookup_insert_eq.
  - done.
  - rewrite (getAuthHeader_user _ _ Hstored) by apply object_literal_nonnull.
    rewrite Hproxy. simpl. unfold bearer. by rewrite Htoken.
  - done.
  - done.
  - rewrite Hdept. apply js_or_null_truthy.
Qed.

Lemma handleSubmit_session_witness :
  let b := browser_of None (answering sample_login_answer) in
  let user := sample_login_user in
  let b' := (handleSubmit "amy" "secret" b).2 in
  let stored := getCurrentUser (localStorage b') in
  (handleSubmit "amy" "secret" b).1 = Return (onLogin true (member user "role"))
  ∧ checkAuth (localStorage b') = handleLogin true (member user "role")
  ∧ localStorage b' !! "token" = Some (template (member sample_login_answer "token"))
  ∧ getAuthHeader (localStorage b')
    = Return {[ "Authorization" :=
                  "Bearer " +:+ template (member sample_login_answer "token") ]}
  ∧ member stored "id" = member user "id"
  ∧ member stored "role" = member user "role"
  ∧ (member stored "departmentId" = Some JNull
     ∨ truthy (member stored "departmentId") = true).
Proof.
  apply (handleSubmit_session (browser_of None (answering sample_login_answer))
           "amy" "secret"
           {| status := 200; body_text := JSON_stringify sample_login_answer |}
           sample_login_answer);
    [reflexivity|reflexivity|vm_compute; reflexivity|reflexivity|discriminate].
Defined.

Lemma settle_landing st l : settle 2 st l = landing st.
Proof.
  unfold landing, settle, App. destruct st as [auth role], l; simpl;
    destruct auth, (is_SUPER_ADMIN role); reflexivity.
Qed.

Lemma is_SUPER_ADMIN_spec role :
  is_SUPER_ADMIN role = true ↔ role = Some (JStr "SUPER_ADMIN").
Proof.
  destruct role as [[| | |s| |]|]; simpl; try (split; [done|by intros [=]]).
  rewrite bool_decide_eq_true. split; [by intros ->|by intros [= ->]].
Qed.

(** X6. From any location the app comes to rest within two redirects, never
    on a redirect: on the login page exactly when the state is not
    authenticated, on the super-admin dashboard exactly when it is and the
    role is the string SUPER_ADMIN, and on the department dashboard for any
    other role. *)
Theorem App_settles (st : AppState) (l : Location) :
  (settle 2 st l = LoginPage ↔ isAuthenticated st = false)
  ∧ (settle 2 st l = SuperAdminDashboard
     ↔ isAuthenticated st = true ∧ userRole st = Some (JStr "SUPER_ADMIN"))
  ∧ (settle 2 st l = Dashboard
     ↔ isAuthenticated st = true ∧ userRole st ≠ Some (JStr "SUPER_ADMIN"))
  ∧ ∀ to, settle 2 st l ≠ Navigate to.
Proof.
  rewrite settle_landing. unfold landing.
  pose proof (is_SUPER_ADMIN_spec (userRole st)) as Hrole.
  destruct (isAuthenticated st), (is_SUPER_ADMIN (userRole st));
    intuition (discriminate || congruence).
Qed.

(** ** Logging out *)

Lemma storage_cleared (ls : gmap string string) :
  delete "user" (delete "token" (delete "isAuthenticated"
    (delete "user" (delete "token" ls))))
  = delete "user" (delete "token" (delete "isAuthenticated" ls)).
Proof.
  apply map_eq. intros k.
  destruct (decide (k = "user")) as [->|Hu];
    [by rewrite !lookup_delete_eq|rewrite !(lookup_delete_ne _ "user") by done].
  destruct (decide (k = "token")) as [->|Ht];
    [by rewrite !lookup_delete_eq|rewrite !(lookup_delete_ne _ "token") by done].
  destruct (decide (k = "isAuthenticated")) as [->|Ha];
    [by rewrite !lookup_delete_eq|].
  rewrite !(lookup_delete_ne _ "isAuthenticated") by done.
  rewrite !(lookup_delete_ne _ "user") by done.
  by rewrite !(lookup_delete_ne _ "token") by done.
Qed.

Lemma logout_run (b : Browser) :
  ∃ b', logout b = (Return logged_out, b')
    ∧ localStorage b' = delete "user" (delete "token" (localStorage b))
    ∧ sent b' = sent b ++ [logout_request b]
    ∧ route b' = route b ∧ env b' = env b ∧ remote b' = remote b.
Proof.
  unfold logout, try_catch, bind, getItem, fetch, removeItem, ret. simpl.
  destruct (remote b (sent b) _) as [r|]; simpl.
  - destruct (ok r); by eexists.
  - by eexists.
Qed.

(** X7. [logout] answers success whatever the server does, an unreachable
    server included. It makes one request, with the token it is about to
    drop, and removes [token] and [user] from storage and nothing else. *)
Theorem logout_clears (b : Browser) :
  ∃ b', logout b = (Return logged_out, b')
    ∧ (∀ k, localStorage b' !! k
            = if decide (k = "token" ∨ k = "user") then None
              else localStorage b !! k)
    ∧ sent b' = sent b ++ [logout_request b]
    ∧ route b' = route b.
Proof.
  destruct (logout_run b) as (b' & Hrun & Hls & Hsent & Hroute & _).
  exists b'. split_and!; [done| |done|done].
  intros k. rewrite Hls. destruct (decide (k = "token" ∨ k = "user")) as [[-> | ->]|Hk].
  - by rewrite lookup_delete_ne, lookup_delete_eq.
  - by rewrite lookup_delete_eq.
  - assert (k ≠ "token" ∧ k ≠ "user") as [Ht Hu] by (split; intros ->; tauto).
    by rewrite !lookup_delete_ne.
Qed.

(** X8. The dashboard's [handleLogout] always completes. It leaves in storage
    what removing [isAuthenticated], [token] and [user] leaves, so a saved
    [superAdminUser] entry outlives it; it goes to the root location, and the
    app, reading the storage again, shows the login page wherever it is. *)
Theorem handleLogout_storage (b : Browser) :
  ∃ b', handleLogout b = (Return (), b')
    ∧ localStorage b' = localStorage (handleLogout_clear b).2
    ∧ localStorage b' !! "superAdminUser" = localStorage b !! "superAdminUser"
    ∧ route b' = "/"
    ∧ ∀ l, settle 2 (checkAuth (localStorage b')) l = LoginPage.
Proof.
  destruct (logout_run b) as (b1 & Hrun & Hls & _).
  unfold handleLogout, try_catch, bind. rewrite Hrun.
  unfold removeItem, navigate. cbn -[settle checkAuth].
  eexists. split; [done|]. cbn -[settle checkAuth].
  rewrite Hls, storage_cleared. split_and!; [done| |done|].
  - by rewrite !lookup_delete_ne.
  - intros l. rewrite settle_landing. unfold landing, checkAuth. simpl.
    rewrite (lookup_delete_ne _ "user") by done.
    rewrite (lookup_delete_ne _ "token") by done.
    by rewrite lookup_delete_eq.
Qed.

(** ** While a department is entered *)

Lemma checkPermission_stored ls r user :
  stored_user ls = Some user → user ≠ JNull →
  checkPermission ls r
  = if bool_decide (requiredLevel r ≤ hierarchy_level (member user "role"))
    then {| hasPermission := true; permission_message := None |}
    else insufficient.
Proof.
  intros (s & Hs & Hp)%stored_user_Some Hnn.
  unfold checkPermission, checkPermission_try. rewrite Hs, Hp.
  rewrite get_member by done. cbn [bindC]. rewrite level_ge_hierarchy.
  by case_bool_decide.
Qed.

Lemma entered_storage_other user dept ls k :
  k ≠ "user" → k ≠ "superAdminUser" →
  entered_storage user dept ls !! k = ls !! k.
Proof.
  intros Hu Hs. unfold entered_storage. rewrite lookup_insert_ne by done.
  destruct (present (ls !! "superAdminUser")); [done|].
  by rewrite lookup_insert_ne.
Qed.

Lemma bearer_entered user dept ls :
  bearer (entered_storage user dept ls) = bearer ls.
Proof. unfold bearer. by rewrite token_entered. Qed.

Lemma checkPermission_entered user dept ls :
  checkPermission (entered_storage user dept ls) ADMIN
  = {| hasPermission := true; permission_message := None |}
  ∧ checkPermission (entered_storage user dept ls) SUPER_ADMIN = insufficient.
Proof.
  pose proof (tempUser_members (member user "id") (member user "username") dept)
    as (_ & _ & _ & _ & _ & _ & Hrole).
  split.
  - rewrite (checkPermission_stored _ _ _ (stored_user_entered user dept ls))
      by apply object_literal_nonnull.
    by rewrite Hrole.
  - rewrite (checkPermission_stored _ _ _ (stored_user_entered user dept ls))
      by apply object_literal_nonnull.
    by rewrite Hrole.
Qed.

(** X9. While a department is entered the acting user passes the check for
    ADMIN and fails the one for SUPER_ADMIN: deleting a user or a
    department, adding and updating a department are each refused with the
    message of insufficient permission, and no request is made. *)
Theorem entered_super_admin_refused (b : Browser) (dept : Department) (user : JSON)
    (Huser : stored_user (localStorage b) = Some user) (Hnn : user ≠ JNull) :
  let b1 := (enterDepartmentDashboard dept b).2 in
  let refused {D} : ApiResult D := failure (text "權限不足，此操作需要更高權限") in
  hasPermission (checkPermission (localStorage b1) ADMIN) = true
  ∧ (∀ id, deleteUser id b1 = (Return refused, b1))
  ∧ (∀ id, deleteDepartment id b1 = (Return refused, b1))
  ∧ (∀ d, addDepartment d b1 = (Return refused, b1))
  ∧ (∀ id d, updateDepartment id d b1 = (Return refused, b1)).
Proof.
  rewrite (enterDepartmentDashboard_run dept b user Huser Hnn).
  destruct (checkPermission_entered user dept (localStorage b)) as [Hadmin Hsuper].
  cbn [snd]. change (localStorage (entered user dept b))
    with (entered_storage user dept (localStorage b)).
  rewrite Hadmin. split_and!; [done| | | |]; intros;
    unfold deleteUser, deleteDepartment, addDepartment, updateDepartment,
      try_catch, bind, checkPermissionM;
    cbn [localStorage entered]; by rewrite Hsuper.
Qed.

Lemma entered_super_admin_refused_witness :
  let b1 := (enterDepartmentDashboard library
               (browser_of (Some super_admin_user) (answering JNull))).2 in
  let refused {D} : ApiResult D := failure (text "權限不足，此操作需要更高權限") in
  hasPermission (checkPermission (localStorage b1) ADMIN) = true
  ∧ (∀ id, deleteUser id b1 = (Return refused, b1))
  ∧ (∀ id, deleteDepartment id b1 = (Return refused, b1))
  ∧ (∀ d, addDepartment d b1 = (Return refused, b1))
  ∧ (∀ id d, updateDepartment id d b1 = (Return refused, b1)).
Proof.
  apply (entered_super_admin_refused _ library super_admin_user);
    [vm_compute; reflexivity|discriminate].
Defined.

Lemma returned_storage saved token b :
  impersonating saved token (localStorage b) →
  returnToSuperAdmin b
  = (Return (),
     {| env := env b;
        localStorage := delete "superAdminUser"
                          (<["user" := JSON_stringify saved]> (localStorage b));
        href := href b; route := "/super-admin"; remote := remote b;
        sent := sent b |}).
Proof.
  intros (Hsaved & _ & _).
  unfold returnToSuperAdmin, try_catch, bind, getItem. simpl.
  rewrite Hsaved, present_stringify, JSON_parse_stringify. done.
Qed.

Lemma stored_user_returned saved (ls : gmap string string) :
  stored_user (delete "superAdminUser" (<["user" := JSON_stringify saved]> ls))
  = Some saved.
Proof.
  unfold stored_user. rewrite lookup_delete_ne by done.
  rewrite lookup_insert_eq, present_stringify. simpl. apply JSON_parse_stringify.
Qed.

(** X10. While a department with a truthy id is entered, the authorization
    header carries X-Proxy-Department-Id with that id as text beside the
    bearer token; with a falsy id it carries the bearer token alone. After
    [returnToSuperAdmin] the header is the bearer token alone again, with the
    token of before. *)
Theorem entered_proxy_header (b : Browser) (dept : Department) (user : JSON)
    (Huser : stored_user (localStorage b) = Some user) (Hnn : user ≠ JNull)
    (Hfresh : present (localStorage b !! "superAdminUser") = None) :
  let b1 := (enterDepartmentDashboard dept b).2 in
  let b2 := (returnToSuperAdmin b1).2 in
  let token_only : gmap string string :=
    {[ "Authorization" := bearer (localStorage b) ]} in
  getAuthHeader (localStorage b1)
  = Return (if truthy (dept_id dept)
            then <[proxy_header := template (dept_id dept)]> token_only
            else token_only)
  ∧ getAuthHeader (localStorage b2) = Return token_only.
Proof.
  rewrite (enterDepartmentDashboard_run dept b user Huser Hnn). cbn [snd].
  pose proof (entered_impersonating_first user dept (localStorage b) Hfresh) as Himp.
  rewrite (returned_storage _ _ (entered user dept b) Himp). cbn [snd localStorage].
  change (localStorage (entered user dept b))
    with (entered_storage user dept (localStorage b)).
  split.
  - rewrite (getAuthHeader_user _ _ (stored_user_entered user dept (localStorage b)))
      by apply object_literal_nonnull.
    pose proof (tempUser_members (member user "id") (member user "username") dept)
      as (_ & _ & Hd & _ & Hproxy & _).
    rewrite Hproxy, Hd, bearer_entered. done.
  - rewrite (getAuthHeader_user _ _ (stored_user_returned _ _))
      by apply object_literal_nonnull.
    assert (member (superAdminUser_of (member user "id") (member user "name")
                      (member user "username")) "isSuperAdminProxy" = None) as ->.
    { apply member_object_literal_absent. simpl.
      apply (bool_decide_unpack _). vm_compute. exact I. }
    simpl. unfold bearer. rewrite lookup_delete_ne by done.
    rewrite lookup_insert_ne by done. by rewrite token_entered.
Qed.

Lemma entered_proxy_header_witness :
  let b := browser_of (Some super_admin_user) (answering JNull) in
  let b1 := (enterDepartmentDashboard library b).2 in
  let b2 := (returnToSuperAdmin b1).2 in
  let token_only : gmap string string :=
    {[ "Authorization" := bearer (localStorage b) ]} in
  getAuthHeader (localStorage b1)
  = Return (if truthy (dept_id library)
            then <[proxy_header := template (dept_id library)]> token_only
            else token_only)
  ∧ getAuthHeader (localStorage b2) = Return token_only.
Proof.
  apply (entered_proxy_header _ library super_admin_user);
    [vm_compute; reflexivity|discriminate|reflexivity].
Defined.

(** X11. With the session authenticated, entering a department brings the
    app to rest on the department dashboard from every location, the
    super-admin page included; after [returnToSuperAdmin], which is given a
    fresh storage to save to, it rests on the super-admin dashboard. *)
Theorem entered_routes (b : Browser) (dept : Department) (user : JSON)
    (Hauth : localStorage b !! "isAuthenticated" = Some "true")
    (Huser : stored_user (localStorage b) = Some user) (Hnn : user ≠ JNull)
    (Hfresh : present (localStorage b !! "superAdminUser") = None) :
  let b1 := (enterDepartmentDashboard dept b).2 in
  let b2 := (returnToSuperAdmin b1).2 in
  route b1 = "/dashboard"
  ∧ (∀ l, settle 2 (checkAuth (localStorage b1)) l = Dashboard)
  ∧ route b2 = "/super-admin"
  ∧ (∀ l, settle 2 (checkAuth (localStorage b2)) l = SuperAdminDashboard).
Proof.
  rewrite (enterDepartmentDashboard_run dept b user Huser Hnn). cbn [snd].
  pose proof (entered_impersonating_first user dept (localStorage b) Hfresh) as Himp.
  rewrite (returned_storage _ _ (entered user dept b) Himp).
  cbn [snd localStorage route].
  change (localStorage (entered user dept b))
    with (entered_storage user dept (localStorage b)).
  split_and!; [done| |done|]; intros l; rewrite settle_landing.
  - rewrite (checkAuth_stored _ _ (stored_user_entered user dept (localStorage b)))
      by apply object_literal_nonnull.
    pose proof (tempUser_members (member user "id") (member user "username") dept)
      as (_ & _ & _ & _ & _ & _ & Hrole).
    rewrite Hrole, entered_storage_other, Hauth by done. done.
  - rewrite (checkAuth_stored _ _ (stored_user_returned _ _))
      by apply object_literal_nonnull.
    pose proof (superAdminUser_members (member user "id") (member user "name")
                  (member user "username")) as (_ & _ & _ & Hrole & _).
    rewrite Hrole. rewrite lookup_delete_ne by done.
    rewrite lookup_insert_ne by done.
    rewrite entered_storage_other, Hauth by done. done.
Qed.

Lemma entered_routes_witness :
  let b := with_storage (insert "isAuthenticated" "true")
             (browser_of (Some super_admin_user) (answering JNull)) in
  let b1 := (enterDepartmentDashboard library b).2 in
  let b2 := (returnToSuperAdmin b1).2 in
  route b1 = "/dashboard"
  ∧ (∀ l, settle 2 (checkAuth (localStorage b1)) l = Dashboard)
  ∧ route b2 = "/super-admin"
  ∧ (∀ l, settle 2 (checkAuth (localStorage b2)) l = SuperAdminDashboard).
Proof.
  apply (entered_routes _ library super_admin_user);
    [reflexivity|vm_compute; reflexivity|discriminate|reflexivity].
Defined.

(** ** files.js *)

(** X12. A permitted [deleteFile] makes its DELETE request. When the answer
    is ok and its body is a JSON value other than [null], the result's
    [success] is the body's own [success] if it has one and [true] if not;
    when the answer is ok and its body is no JSON text or [null], the result
    is the failure that names the network connection. *)
Theorem deleteFile_answer (b : Browser) (fileId : JsVal)
    (auth : gmap string string) (r : Response)
    (Hperm : hasPermission (checkPermission (localStorage b) ADMIN) = true)
    (Hauth : getAuthHeader (localStorage b) = Return auth)
    (Hr : remote b (sent b) (deleteFile_request b auth fileId) = Responds r)
    (Hok : ok r = true) :
  (deleteFile fileId b).2 = after_request b (deleteFile_request b auth fileId)
  ∧ (∀ data, json r = Return data → data ≠ JNull →
       (deleteFile fileId b).1
       = Return {| deletion_success :=
                     match member data "success" with
                     | Some flag => Some flag
                     | None => Some (JBool true)
                     end;
                   deletion_message :=
                     js_or (member data "message") (text "檔案刪除成功") |})
  ∧ (JSON_parse (body_text r) = None ∨ JSON_parse (body_text r) = Some JNull →
       (deleteFile fileId b).1 = Return connection_failure).
Proof.
  unfold deleteFile, try_catch, bind, checkPermissionM, getAuthHeaderM.
  simpl. rewrite Hperm. simpl. rewrite Hauth.
  rewrite (apiFetch_ok _ _ _ r) by (done || by apply ok_not_401).
  rewrite Hok. unfold lift, ret, json. split_and!.
  - by destruct (JSON_parse (body_text r)) as [[]|].
  - intros data Hdata Hnn.
    destruct (JSON_parse (body_text r)) as [d|]; [|done].
    injection Hdata as ->. by rewrite !get_member.
  - by intros [-> | ->].
Qed.

Lemma deleteFile_answer_witness :
  let b := browser_of (Some admin_user) (answering_empty 204) in
  let auth : gmap string string := {[ "Authorization" := "Bearer t0" ]} in
  let r := {| status := 204; body_text := "" |} in
  (deleteFile (Some (JNum 5)) b).2
  = after_request b (deleteFile_request b auth (Some (JNum 5)))
  ∧ (∀ data, json r = Return data → data ≠ JNull →
       (deleteFile (Some (JNum 5)) b).1
       = Return {| deletion_success :=
                     match member data "success" with
                     | Some flag => Some flag
                     | None => Some (JBool true)
                     end;
                   deletion_message :=
                     js_or (member data "message") (text "檔案刪除成功") |})
  ∧ (JSON_parse (body_text r) = None ∨ JSON_parse (body_text r) = Some JNull →
       (deleteFile (Some (JNum 5)) b).1 = Return connection_failure).
Proof.
  apply (deleteFile_answer (browser_of (Some admin_user) (answering_empty 204))
           (Some (JNum 5)) {[ "Authorization" := "Bearer t0" ]}
           {| status := 204; body_text := "" |});
    [vm_compute; reflexivity|vm_compute; reflexivity|reflexivity|reflexivity].
Defined.

(** X13. [updateFile] asks for no permission: whenever the authorization
    header can be built it makes its PUT request, whatever the stored role.
    When the answer is ok the result is the success, whatever the body. *)
Theorem updateFile_answer (b : Browser) (fileId : JsVal) (data : JSON)
    (auth : gmap string string) (r : Response)
    (Hauth : getAuthHeader (localStorage b) = Return auth)
    (Hr : remote b (sent b) (updateFile_request b auth fileId data) = Responds r)
    (Hok : ok r = true) :
  updateFile fileId data b
  = (Return {| success := true; data := None; message := text "檔案資訊已更新" |},
     after_request b (updateFile_request b auth fileId data)).
Proof.
  unfold updateFile, try_catch, bind, getAuthHeaderM. simpl. rewrite Hauth.
  rewrite (apiFetch_ok _ _ _ r) by (done || by apply ok_not_401).
  by rewrite Hok.
Qed.

Lemma updateFile_answer_witness :
  let b := browser_of (Some viewer_user) (answering_empty 204) in
  let data := JObj [("is_public", JBool true)] in
  hasPermission (checkPermission (localStorage b) ADMIN) = false
  ∧ updateFile (Some (JNum 5)) data b
    = (Return {| success := true; data := None; message := text "檔案資訊已更新" |},
       after_request b
         (updateFile_request b {[ "Authorization" := "Bearer t0" ]}
            (Some (JNum 5)) data)).
Proof.
  split; [vm_compute; reflexivity|].
  apply (updateFile_answer (browser_of (Some viewer_user) (answering_empty 204))
           (Some (JNum 5)) (JObj [("is_public", JBool true)])
           {[ "Authorization" := "Bearer t0" ]}
           {| status := 204; body_text := "" |});
    [vm_compute; reflexivity|reflexivity|reflexivity].
Defined.

(** ** users.js *)

Lemma append_assoc (s t u : string) : (s +:+ t) +:+ u = s +:+ (t +:+ u).
Proof. induction s as [|c s IH]; [done|]. by rewrite !append_cons, IH. Qed.

(** X14. [getUsers] with a truthy department id does what
    [getUsersByDepartment] does; with a falsy one, the id 0 and the empty
    string included, it does what it does without an id, and asks for the
    users of every department. *)
Theorem getUsers_filter (departmentId : JsVal) (b : Browser) :
  getUsers departmentId b
  = if truthy departmentId then getUsersByDepartment departmentId b
    else getUsers None b.
Proof.
  destruct departmentId as [j|]; [|done].
  unfold getUsers, getUsersByDepartment.
  destruct (truthy (Some j)) eqn:Hj; cbn [truthy]; [|done].
  unfold try_catch, bind, ret. simpl. by rewrite append_assoc.
Qed.

(** ** The selection of the grant form *)

Lemma same_value_zero_spec a b :
  same_value_zero a b = true ↔ a = b ∧ primitive a = true.
Proof.
  destruct a as [[]|], b as [[]|]; simpl;
    rewrite ?bool_decide_eq_true; split; try done;
    try (by intros [[=] _]); try (by intros [_ [=]]);
    try (by intros ->); by intros [[= ->] _].
Qed.

Lemma same_value_zero_refl a : primitive a = true → same_value_zero a a = true.
Proof. intros. by apply same_value_zero_spec. Qed.

Lemma includes_spec l x : includes l x = true ↔ x ∈ l ∧ primitive x = true.
Proof.
  unfold includes. rewrite existsb_exists. split.
  - intros (y & Hy%list_elem_of_In & [-> Hp]%same_value_zero_spec). done.
  - intros [Hx Hp]. exists x. split; [by apply list_elem_of_In|].
    by apply same_value_zero_refl.
Qed.

Lemma includes_app l1 l2 x : includes (l1 ++ l2) x = includes l1 x || includes l2 x.
Proof. apply existsb_app. Qed.

Lemma bool_eq_iff (a b : bool) : (a = true ↔ b = true) → a = b.
Proof. destruct a, b; intuition. Qed.

Lemma includes_toggled ids fileId x :
  primitive fileId = true →
  includes (if includes ids fileId
            then filter (λ id, strict_equal id fileId = false) ids
            else ids ++ [fileId]) x
  = xorb (includes ids x) (same_value_zero x fileId).
Proof.
  intros Hp. apply bool_eq_iff.
  destruct (same_value_zero x fileId) eqn:Hx.
  - apply same_value_zero_spec in Hx as [-> _].
    destruct (includes ids fileId) eqn:Hin; simpl.
    + split; [|done]. intros [Hx _]%includes_spec.
      apply list_elem_of_filter in Hx as [Hne _]. unfold strict_equal in Hne.
      by rewrite same_value_zero_refl in Hne.
    + split; [done|]. intros _. rewrite includes_app, orb_true_iff. right.
      simpl. by rewrite same_value_zero_refl.
  - rewrite xorb_false_r.
    destruct (includes ids fileId) eqn:Hin.
    + rewrite !includes_spec. split.
      * intros [[_ ?]%list_elem_of_filter ?]. done.
      * intros [Hx' Hpx]. split; [|done]. apply list_elem_of_filter.
        split; [|done]. unfold strict_equal.
        destruct (same_value_zero x fileId) eqn:Hx''; [|done]. done.
    + rewrite includes_app. simpl. rewrite Hx. by rewrite !orb_false_r.
Qed.

(** X15. Toggling a file in the grant form flips whether that file is
    selected and leaves every other file as it was; toggling it twice leaves
    the same files selected as before. *)
Theorem toggleFileSelection_flips (fileId : JsVal) (view : PermissionsView)
    (Hprimitive : primitive fileId = true) :
  let selected v := includes (grantForm_file_ids v) in
  selected (toggleFileSelection fileId view) fileId = negb (selected view fileId)
  ∧ (∀ x, same_value_zero x fileId = false →
       selected (toggleFileSelection fileId view) x = selected view x)
  ∧ (∀ x, selected (toggleFileSelection fileId (toggleFileSelection fileId view)) x
          = selected view x).
Proof.
  simpl. split_and!.
  - rewrite includes_toggled by done. rewrite same_value_zero_refl by done.
    by destruct (includes _ _).
  - intros x Hx. rewrite includes_toggled by done. rewrite Hx.
    by destruct (includes _ _).
  - intros x. rewrite !includes_toggled by done.
    by destruct (includes _ _), (same_value_zero _ _).
Qed.

Lemma toggleFileSelection_flips_witness :
  let selected v := includes (grantForm_file_ids v) in
  let fileId := Some (JNum 2) in
  selected (toggleFileSelection fileId picker_view) fileId
  = negb (selected picker_view fileId)
  ∧ (∀ x, same_value_zero x fileId = false →
       selected (toggleFileSelection fileId picker_view) x = selected picker_view x)
  ∧ (∀ x, selected (toggleFileSelection fileId
                      (toggleFileSelection fileId picker_view)) x
          = selected picker_view x).
Proof. apply (toggleFileSelection_flips (Some (JNum 2)) picker_view). reflexivity. Defined.

Lemma includes_Set_add_all s l x :
  includes (Set_add_all s l) x = includes s x || includes l x.
Proof.
  revert s. induction l as [|y l IH]; intros s; simpl.
  { by rewrite orb_false_r. }
  rewrite IH. unfold set_has. fold (includes s y).
  destruct (includes s y) eqn:Hy.
  - destruct (same_value_zero x y) eqn:Hxy; [|done].
    apply same_value_zero_spec in Hxy as [-> _]. by rewrite Hy.
  - rewrite includes_app. simpl. rewrite orb_false_r. by rewrite orb_assoc.
Qed.

Lemma includes_spread_Set l x : includes (spread_Set l) x = includes l x.
Proof. unfold spread_Set. by rewrite includes_Set_add_all. Qed.

Lemma includes_filter_out ids sel x :
  includes (filter (λ id, includes ids id = false) sel) x
  = includes sel x && negb (includes ids x).
Proof.
  apply bool_eq_iff. rewrite andb_true_iff, negb_true_iff, !includes_spec.
  rewrite list_elem_of_filter. tauto.
Qed.

Lemma forallb_includes_self ids :
  forallb (λ id, primitive id) ids = true → forallb (includes ids) ids = true.
Proof.
  rewrite !forallb_forall. intros Hp x Hx. apply includes_spec.
  split; [by apply list_elem_of_In|auto].
Qed.

Lemma toggled_category_selection sel ids x :
  includes (if forallb (includes sel) ids
            then filter (λ id, includes ids id = false) sel
            else spread_Set (sel ++ ids)) x
  = if includes ids x then negb (forallb (includes sel) ids) else includes sel x.
Proof.
  destruct (forallb (includes sel) ids) eqn:Hall; simpl.
  - rewrite includes_filter_out. destruct (includes ids x); simpl;
      [apply andb_false_r|apply andb_true_r].
  - rewrite includes_spread_Set, includes_app.
    destruct (includes ids x); [apply orb_true_r|apply orb_false_r].
Qed.

(** X16. Toggling a category in the grant form: when every file of the
    category was selected, none of them is afterwards; otherwise all of them
    are. Files outside the category stay as they were, and for a category
    that has files the category's own check mark flips. *)
Theorem toggleCategorySelection_flips (categoryId : JsVal) (view : PermissionsView)
    (category : JSON) (ids : list JsVal)
    (Hfound : find_category categoryId (categoriesData view) = Return (Some category))
    (Htruthy : truthy (Some category) = true)
    (Hids : categoryFileIds (Some category) = Return ids)
    (Hprimitive : forallb primitive ids = true) :
  let allSelected := forallb (includes (grantForm_file_ids view)) ids in
  ∃ view', toggleCategorySelection categoryId view = Return view'
    ∧ categoriesData view' = categoriesData view
    ∧ (∀ x, includes ids x = true →
         includes (grantForm_file_ids view') x = negb allSelected)
    ∧ (∀ x, includes ids x = false →
         includes (grantForm_file_ids view') x = includes (grantForm_file_ids view) x)
    ∧ (ids ≠ [] → isCategorySelected categoryId view' = Return (negb allSelected)).
Proof.
  simpl.
  assert (∀ x, includes
            (grantForm_file_ids
               (setGrantForm_file_ids view
                  (if forallb (includes (grantForm_file_ids view)) ids
                   then filter (λ id, includes ids id = false) (grantForm_file_ids view)
                   else spread_Set (grantForm_file_ids view ++ ids)))) x
          = if includes ids x
            then negb (forallb (includes (grantForm_file_ids view)) ids)
            else includes (grantForm_file_ids view) x) as Hsel.
  { intros x. apply toggled_category_selection. }
  exists (setGrantForm_file_ids view
            (if forallb (includes (grantForm_file_ids view)) ids
             then filter (λ id, includes ids id = false) (grantForm_file_ids view)
             else spread_Set (grantForm_file_ids view ++ ids))).
  split_and!.
  - unfold toggleCategorySelection. rewrite Hfound. cbn [bindC].
    rewrite Htruthy. cbn [negb]. rewrite Hids. cbn [bindC].
    by destruct (forallb (includes (grantForm_file_ids view)) ids).
  - done.
  - intros x Hx. by rewrite Hsel, Hx.
  - intros x Hx. by rewrite Hsel, Hx.
  - intros Hne. unfold isCategorySelected.
    change (categoriesData (setGrantForm_file_ids view _)) with (categoriesData view).
    rewrite Hfound. cbn [bindC]. rewrite Htruthy. cbn [negb]. rewrite Hids.
    cbn [bindC]. f_equal.
    rewrite bool_decide_eq_true_2 by (destruct ids; [done|simpl; lia]).
    cbn [andb].
    pose proof (forallb_includes_self ids Hprimitive) as Hself.
    rewrite forallb_forall in Hself.
    destruct (forallb (includes (grantForm_file_ids view)) ids) eqn:Hall; cbn [negb].
    + destruct ids as [|id ids']; [done|]. cbn [forallb].
      rewrite Hsel, (Hself id) by (by left). done.
    + apply forallb_forall. intros x Hx. by rewrite Hsel, (Hself x Hx).
Qed.

Lemma toggleCategorySelection_flips_witness :
  let ids := [Some (JNum 1); Some (JNum 2)] in
  let allSelected := forallb (includes (grantForm_file_ids picker_view)) ids in
  ∃ view', toggleCategorySelection (Some (JNum 1)) picker_view = Return view'
    ∧ categoriesData view' = categoriesData picker_view
    ∧ (∀ x, includes ids x = true →
         includes (grantForm_file_ids view') x = negb allSelected)
    ∧ (∀ x, includes ids x = false →
         includes (grantForm_file_ids view') x
         = includes (grantForm_file_ids picker_view) x)
    ∧ (ids ≠ [] →
       isCategorySelected (Some (JNum 1)) view' = Return (negb allSelected)).
Proof.
  apply (toggleCategorySelection_flips (Some (JNum 1)) picker_view
           (JObj [("category_id", JNum 1);
                  ("files", JArr [file_entry 1 "a.pdf"; file_entry 2 "b.pdf"])])
           [Some (JNum 1); Some (JNum 2)]);
    reflexivity.
Defined.

Lemma count_selected sel ids :
  let n := length (filter (λ id, includes sel id = true) ids) in
  (n ≤ length ids)%nat
  ∧ (n = length ids ↔ forallb (includes sel) ids = true)
  ∧ (n = 0%nat ↔ Forall (λ id, includes sel id = false) ids).
Proof.
  induction ids as [|id ids (Hle & Hall & Hnone)]; simpl.
  { split_and!; [done|done|]. split; [constructor|done]. }
  rewrite filter_cons. simpl in *.
  destruct (includes sel id) eqn:Hid.
  - rewrite decide_True by done. simpl. split_and!; [lia| |].
    + rewrite <- Hall. lia.
    + split; [done|]. intros Hf. apply Forall_cons_1 in Hf as [? _]. congruence.
  - rewrite decide_False by done. simpl. split_and!; [lia| |].
    + split; [lia|done].
    + rewrite Hnone. split; [by constructor|]. by intros [_ ?]%Forall_cons_1.
Qed.

(** X17. The check mark of a category in the grant form is in one of three
    states, never two at once: selected, when the category has files and all
    of them are selected; partially selected, when some are and some are
    not; and neither, exactly when none of its files is selected. *)
Theorem category_check_mark (categoryId : JsVal) (view : PermissionsView)
    (category : JSON) (ids : list JsVal)
    (Hfound : find_category categoryId (categoriesData view) = Return (Some category))
    (Htruthy : truthy (Some category) = true)
    (Hids : categoryFileIds (Some category) = Return ids) :
  let selected := includes (grantForm_file_ids view) in
  ∃ s p, isCategorySelected categoryId view = Return s
    ∧ isCategoryPartiallySelected categoryId view = Return p
    ∧ (s = true → p = false)
    ∧ (s = true ↔ ids ≠ [] ∧ Forall (λ id, selected id = true) ids)
    ∧ (s = false ∧ p = false ↔ Forall (λ id, selected id = false) ids).
Proof.
  simpl. unfold isCategorySelected, isCategoryPartiallySelected.
  rewrite Hfound. cbn [bindC]. rewrite Htruthy. cbn [negb]. rewrite Hids.
  cbn [bindC]. eexists _, _. split; [done|]. split; [done|].
  destruct (count_selected (grantForm_file_ids view) ids) as (Hle & Hall & Hnone).
  simpl in *.
  set (n := length (filter _ ids)) in *.
  assert (forallb (includes (grantForm_file_ids view)) ids = true
          ↔ Forall (λ id, includes (grantForm_file_ids view) id = true) ids) as Hfa.
  { rewrite forallb_forall, Forall_forall.
    split; intros H x Hx; apply H; by apply list_elem_of_In. }
  assert (ids ≠ [] ↔ (0 < length ids)%nat) as Hne.
  { destruct ids; simpl; split; (done || lia). }
  clearbody n.
  assert (forallb (includes (grantForm_file_ids view)) ids = false
          ↔ n ≠ length ids) as Hnall.
  { rewrite Hall. by destruct (forallb _ ids). }
  rewrite !andb_true_iff, !andb_false_iff, !bool_decide_eq_true,
    !bool_decide_eq_false, <- Hfa, <- Hall, <- Hnone, Hne, Hnall.
  split_and!; [lia|tauto|lia].
Qed.

Lemma category_check_mark_witness :
  let selected := includes (grantForm_file_ids picker_view) in
  let ids := [Some (JNum 1); Some (JNum 2)] in
  ∃ s p, isCategorySelected (Some (JNum 1)) picker_view = Return s
    ∧ isCategoryPartiallySelected (Some (JNum 1)) picker_view = Return p
    ∧ (s = true → p = false)
    ∧ (s = true ↔ ids ≠ [] ∧ Forall (λ id, selected id = true) ids)
    ∧ (s = false ∧ p = false ↔ Forall (λ id, selected id = false) ids).
Proof.
  apply (category_check_mark (Some (JNum 1)) picker_view
           (JObj [("category_id", JNum 1);
                  ("files", JArr [file_entry 1 "a.pdf"; file_entry 2 "b.pdf"])])
           [Some (JNum 1); Some (JNum 2)]);
    reflexivity.
Defined.

(** ** The cascade of [deleteDepartment] *)

Lemma deleteUser_permitted userId b :
  hasPermission (checkPermission (localStorage b) SUPER_ADMIN) = true →
  ∃ result b',
    deleteUser userId b = (Return result, b')
    ∧ env b' = env b
    ∧ calls (sent b') = calls (sent b) ++ [user_delete_call (env b) userId]
    ∧ (success result = true → localStorage b' = localStorage b).
Proof.
  intros Hperm.
  unfold deleteUser, try_catch, bind, checkPermissionM, getAuthHeaderM. simpl.
  rewrite Hperm. simpl.
  destruct (getAuthHeader_permitted _ _ Hperm) as [auth ->].
  destruct (apiFetch_frame (API_BASE_URL (env b) +:+ "/users/" +:+ template userId)
              (delete_options auth) b) as (Henv & _ & Hcalls & Hls).
  destruct (apiFetch _ _ b) as [[r|e] b1]; simpl in *.
  2: { by eexists _, b1. }
  specialize (Hls r eq_refl).
  unfold lift, ret, detail_or, bindC.
  destruct (ok r); simpl; destruct_reads; by eexists _, b1.
Qed.

(** The loop over the listed users either deletes them all, or stops at the
    first one whose deletion fails: the users before it were deleted, the
    users after it are not asked for. *)
Lemma delete_users_stops users b :
  hasPermission (checkPermission (localStorage b) SUPER_ADMIN) = true →
  (∃ b', delete_users users b = (Return None, b')
         ∧ all_deleted users b b'
         ∧ env b' = env b ∧ localStorage b' = localStorage b
         ∧ calls (sent b')
           = calls (sent b) ++ map (λ u, user_delete_call (env b) (user_id u)) users)
  ∨ (∃ deleted failed rest b2 result b',
       users = deleted ++ failed :: rest
       ∧ all_deleted deleted b b2
       ∧ deleteUser (user_id failed) b2 = (Return result, b')
       ∧ success result = false
       ∧ delete_users users b
         = (Return (Some (failure (text
              ("刪除處室失敗：無法刪除使用者「" +:+ template (user_name failed) +:+ "」 - "
                 +:+ template (message result))))), b')
       ∧ env b' = env b
       ∧ calls (sent b')
         = calls (sent b)
           ++ map (λ u, user_delete_call (env b) (user_id u)) (deleted ++ [failed])).
Proof.
  revert b. induction users as [|user users IH]; intros b Hperm.
  { left. exists b. rewrite app_nil_r. split_and!; [done|constructor|done..]. }
  destruct (deleteUser_permitted (user_id user) b Hperm)
    as (result & b1 & Hrun & Henv1 & Hcalls1 & Hls1).
  destruct (success result) eqn:Hres.
  - specialize (Hls1 eq_refl).
    assert (hasPermission (checkPermission (localStorage b1) SUPER_ADMIN) = true)
      as Hperm1 by (by rewrite Hls1).
    destruct (IH b1 Hperm1)
      as [(b' & Hloop & Hall & Henv & Hls & Hcalls)
         |(deleted & failed & rest & b2 & result' & b' & -> & Hall & Hfail & Hres'
           & Hloop & Henv & Hcalls)].
    + left. exists b'. simpl. unfold bind. rewrite Hrun, Hres. simpl.
      split_and!; [done|by econstructor|congruence|congruence|].
      rewrite Hcalls, Hcalls1, Henv1, <- app_assoc. done.
    + right. exists (user :: deleted), failed, rest, b2, result', b'.
      simpl. unfold bind. rewrite Hrun, Hres. simpl.
      split_and!; [done|by econstructor|done|done|done|congruence|].
      rewrite Hcalls, Hcalls1, Henv1, <- app_assoc. done.
  - right. exists [], user, users, b, result, b1.
    simpl. unfold bind. rewrite Hrun, Hres. simpl.
    split_and!; [done|constructor|done..].
Qed.

(** X18. What [deleteDepartment] does once the listing has succeeded. Either
    every listed user is deleted, in the order of the listing, and then the
    DELETE for the department is sent. Or the loop stops at the first user
    whose deletion fails: the users listed before it have been deleted, its
    own DELETE is the last call made, no user listed after it and no
    department is asked for, and the answer is the failure that names this
    user and carries the message of its failed deletion. *)
Lemma deleteDepartment_cascade departmentId b res b1 users :
  hasPermission (checkPermission (localStorage b) SUPER_ADMIN) = true →
  getUsersByDepartment departmentId b = (Return res, b1) →
  success res = true → data res = Some users →
  let run := deleteDepartment departmentId b in
  let call u := user_delete_call (env b) (user_id u) in
  (∃ b2, all_deleted users b1 b2
         ∧ calls (sent run.2)
           = calls (sent b)
             ++ listing_call (env b) departmentId
                :: map call users ++ [department_delete_call (env b) departmentId])
  ∨ (∃ deleted failed rest b2 result,
       users = deleted ++ failed :: rest
       ∧ all_deleted deleted b1 b2
       ∧ deleteUser (user_id failed) b2 = (Return result, run.2)
       ∧ success result = false
       ∧ calls (sent run.2)
         = calls (sent b)
           ++ listing_call (env b) departmentId :: map call (deleted ++ [failed])
       ∧ run.1
         = Return (failure (text
             ("刪除處室失敗：無法刪除使用者「" +:+ template (user_name failed) +:+ "」 - "
                +:+ template (message result))))).
Proof.
  intros Hperm Hlist Hsucc Hdata.
  destruct (getUsersByDepartment_listed _ _ _ _ Hlist Hsucc)
    as (Henv1 & Hremote1 & Hls1 & Hcalls1 & _).
  destruct (getAuthHeader_permitted _ _ Hperm) as [auth Hauth].
  assert (hasPermission (checkPermission (localStorage b1) SUPER_ADMIN) = true)
    as Hperm1 by (by rewrite Hls1).
  unfold deleteDepartment, try_catch, bind, checkPermissionM. cbn -[delete_users].
  rewrite Hperm. cbn -[delete_users]. rewrite Hlist, Hsucc, Hdata.
  replace (match users with
           | [] => ret None
           | user :: users0 => delete_users (user :: users0)
           end b1) with (delete_users users b1) by (by destruct users).
  destruct (delete_users_stops users b1 Hperm1)
    as [(b2 & Hloop & Hall & Henv2 & Hls2 & Hcalls2)
       |(deleted & failed & rest & b2 & result & b' & Husers & Hall & Hfail & Hres
         & Hloop & Henv2 & Hcalls2)];
    rewrite Hloop; cbn -[delete_department_request].
  - left. exists b2. split; [done|].
    assert (getAuthHeader (localStorage b2) = Return auth) as Hauth2
      by (by rewrite Hls2, Hls1).
    pose proof (delete_department_request_calls departmentId b2 auth Hauth2) as Hd.
    destruct (delete_department_request departmentId b2) as [[r|e] b3];
      simpl in *; rewrite Hd, Hcalls2, Hcalls1, Henv2, Henv1, <- !app_assoc; done.
  - right. exists deleted, failed, rest, b2, result.
    split_and!; [done..| |done].
    rewrite Hcalls2, Hcalls1, Henv1, <- app_assoc. done.
Qed.

Lemma deleteDepartment_cascade_witness :
  let b := browser_of (Some super_admin_user) department_server in
  let departmentId := Some (JNum 3) in
  let run := deleteDepartment departmentId b in
  let call u := user_delete_call (env b) (user_id u) in
  let b1 := (getUsersByDepartment departmentId b).2 in
  (∃ b2, all_deleted department_users_mapped b1 b2
         ∧ calls (sent run.2)
           = calls (sent b)
             ++ listing_call (env b) departmentId
                :: map call department_users_mapped
                   ++ [department_delete_call (env b) departmentId])
  ∨ (∃ deleted failed rest b2 result,
       department_users_mapped = deleted ++ failed :: rest
       ∧ all_deleted deleted b1 b2
       ∧ deleteUser (user_id failed) b2 = (Return result, run.2)
       ∧ success result = false
       ∧ calls (sent run.2)
         = calls (sent b)
           ++ listing_call (env b) departmentId :: map call (deleted ++ [failed])
       ∧ run.1
         = Return (failure (text
             ("刪除處室失敗：無法刪除使用者「" +:+ template (user_name failed) +:+ "」 - "
                +:+ template (message result))))).
Proof.
  eapply (deleteDepartment_cascade (Some (JNum 3))
            (browser_of (Some super_admin_user) department_server)
            _ _ department_users_mapped);
    [vm_compute; reflexivity|vm_compute; reflexivity|reflexivity|reflexivity].
Defined.

(** The server refuses the deletion of the first listed user: the second
    user is not asked for, nor is the department. *)
Example deleteDepartment_stops_sample :
  let run := deleteDepartment (Some (JNum 3))
               (browser_of (Some super_admin_user) refusing_user_10) in
  calls (sent run.2)
  = [ (Some "GET", "/api/users/?department_id=3"); (Some "DELETE", "/api/users/10") ]
  ∧ run.1 = Return (failure (text "刪除處室失敗：無法刪除使用者「Ann」 - in use")).
Proof. vm_compute. done. Qed.

(** ** A witness for the picker's list *)

Lemma filteredCategories_total_witness :
  filteredCategories (permissions sample_view) available_files
  = Return (filter (λ c, has_files c = true)
              (map (without_granted (permissions sample_view)) available_categories)).
Proof.
  apply (filteredCategories_total (permissions sample_view) available_files
           available_categories).
  - repeat constructor; discriminate.
  - discriminate.
  - reflexivity.
  - repeat constructor; eexists _, _;
      (split; [reflexivity|split; [reflexivity|repeat constructor; discriminate]]).
Defined.

(** ** An expired session *)

Lemma apiFetch_expired u o b r :
  remote b (sent b) {| url := u; options := finalOptions o |} = Responds r →
  status r = 401 →
  apiFetch u o b
  = (Throw (Error expired_message), expired b {| url := u; options := finalOptions o |}).
Proof.
  intros Hr Hs. rewrite apiFetch_run. simpl. rewrite Hr.
  by destruct (decide (status r = 401)).
Qed.

Lemma apiFetch_always_401 u o b :
  always_401 b →
  apiFetch u o b
  = (Throw (Error expired_message), expired b {| url := u; options := finalOptions o |}).
Proof.
  intros H. destruct (H {| url := u; options := finalOptions o |}) as (r & Hr & Hs).
  by eapply apiFetch_expired.
Qed.

(** X20. When the server answers 401, each of [getUploadProgress],
    [getUserUploadTasks] and [deleteUploadTask] returns a failure whose
    message names the network connection, not the expired login; by then the
    four stored credentials are gone and the browser is on its way to the
    app's root. *)
Theorem upload_tasks_expired (b : Browser) (auth : gmap string string)
    (taskId : JsVal)
    (Hauth : getAuthHeader (localStorage b) = Return auth)
    (H401 : always_401 b) :
  getUploadProgress taskId b
  = (Return (failure (text "獲取上傳進度失敗，請檢查網路連線")),
     expired b (get_request b auth ("/upload/progress/" +:+ template taskId)))
  ∧ getUserUploadTasks b
    = (Return (failure (text "獲取上傳任務列表失敗，請檢查網路連線")),
       expired b (get_request b auth "/upload/tasks"))
  ∧ deleteUploadTask taskId b
    = (Return (failure (text "刪除任務失敗，請檢查網路連線")),
       expired b (delete_request b auth ("/upload/tasks/" +:+ template taskId))).
Proof.
  unfold getUploadProgress, getUserUploadTasks, deleteUploadTask,
    try_catch, bind, getAuthHeaderM.
  simpl. rewrite Hauth. rewrite !apiFetch_always_401 by done. done.
Qed.

Lemma upload_tasks_expired_witness :
  let b := browser_of (Some admin_user) (answering_empty 401) in
  let auth : gmap string string := {[ "Authorization" := "Bearer t0" ]} in
  let taskId := Some (JStr "task-1") in
  getUploadProgress taskId b
  = (Return (failure (text "獲取上傳進度失敗，請檢查網路連線")),
     expired b (get_request b auth ("/upload/progress/" +:+ template taskId)))
  ∧ getUserUploadTasks b
    = (Return (failure (text "獲取上傳任務列表失敗，請檢查網路連線")),
       expired b (get_request b auth "/upload/tasks"))
  ∧ deleteUploadTask taskId b
    = (Return (failure (text "刪除任務失敗，請檢查網路連線")),
       expired b (delete_request b auth ("/upload/tasks/" +:+ template taskId))).
Proof.
  apply (upload_tasks_expired (browser_of (Some admin_user) (answering_empty 401))
           {[ "Authorization" := "Bearer t0" ]} (Some (JStr "task-1")));
    [vm_compute; reflexivity|].
  intros req. by eexists.
Defined.

(** X21. [verifyToken] always returns a result. A 401 is answered with
    "驗證失敗", after the stored credentials have been removed; any other
    answer that is not ok is answered with "Token 無效或已過期", its body
    unread and storage untouched. *)
Theorem verifyToken_answers (b : Browser) (token : JsVal) (r : Response)
    (Hr : remote b (sent b)
            (get_request b {[ "Authorization" := "Bearer " +:+ template token ]}
               "/auth/verify") = Responds r)
    (Hok : ok r = false) :
  let req := get_request b {[ "Authorization" := "Bearer " +:+ template token ]}
               "/auth/verify" in
  verifyToken token b
  = if decide (status r = 401)
    then (Return (failure (text "驗證失敗")), expired b req)
    else (Return (failure (text "Token 無效或已過期")), after_request b req).
Proof.
  unfold verifyToken, try_catch, bind. simpl.
  destruct (decide (status r = 401)) as [H401|Hne].
  - by rewrite (apiFetch_expired _ _ _ r).
  - rewrite (apiFetch_ok _ _ _ r) by done. by rewrite Hok.
Qed.

Lemma verifyToken_answers_witness :
  let b := browser_of (Some admin_user) (answering_empty 403) in
  let r := {| status := 403; body_text := "" |} in
  let req := get_request b {[ "Authorization" := "Bearer " +:+ template (Some (JStr "t0")) ]}
               "/auth/verify" in
  verifyToken (Some (JStr "t0")) b
  = if decide (status r = 401)
    then (Return (failure (text "驗證失敗")), expired b req)
    else (Return (failure (text "Token 無效或已過期")), after_request b req).
Proof.
  apply (verifyToken_answers (browser_of (Some admin_user) (answering_empty 403))
           (Some (JStr "t0")) {| status := 403; body_text := "" |});
    reflexivity.
Defined.

(** ** The department dashboard's heading *)

(** X22. After a department has been entered, the dashboard's
    [getDepartmentName] shows the department's name when it is truthy;
    without one it shows "未知處室" for a truthy department id and "系統"
    for a falsy one. *)
Theorem getDepartmentName_entered (b : Browser) (dept : Department) (user : JSON)
    (Huser : stored_user (localStorage b) = Some user) (Hnn : user ≠ JNull) :
  let b1 := (enterDepartmentDashboard dept b).2 in
  getDepartmentName (Dashboard_getUserInfo (localStorage b1))
  = Return (if truthy (dept_name dept) then dept_name dept
            else if truthy (dept_id dept) then text "未知處室" else text "系統").
Proof.
  rewrite (enterDepartmentDashboard_run dept b user Huser Hnn). cbn [snd].
  change (localStorage (entered user dept b))
    with (entered_storage user dept (localStorage b)).
  pose proof (stored_user_entered user dept (localStorage b))
    as (s & Hs & Hp)%stored_user_Some.
  unfold Dashboard_getUserInfo. rewrite Hs, Hp.
  pose proof (tempUser_members (member user "id") (member user "username") dept)
    as (_ & _ & Hid & Hname & _).
  unfold getDepartmentName.
  rewrite !get_member by apply object_literal_nonnull. cbn [bindC].
  rewrite Hname, Hid. by destruct (truthy (dept_name dept)), (truthy (dept_id dept)).
Qed.

Lemma getDepartmentName_entered_witness :
  let b1 := (enterDepartmentDashboard library
               (browser_of (Some super_admin_user) (answering JNull))).2 in
  getDepartmentName (Dashboard_getUserInfo (localStorage b1))
  = Return (if truthy (dept_name library) then dept_name library
            else if truthy (dept_id library) then text "未知處室" else text "系統").
Proof.
  apply (getDepartmentName_entered _ library super_admin_user);
    [vm_compute; reflexivity|discriminate].
Defined.

(** ** Granting from the picker *)


Lemma loadPermissions_frame userId p b p' b' :
  loadPermissions userId p b = (Return p', b') →
  grantForm p' = grantForm p
  ∧ showGrantDialog p' = showGrantDialog p
  ∧ toast_successes p' = toast_successes p
  ∧ showRevokeConfirm p' = showRevokeConfirm p.
Proof.
  unfold loadPermissions, bind, try_catch.
  destruct (getQueryUserPermissions _ _ b) as [[data|e] b1]; simpl.
  - unfold lift. destruct (get (Some data) "items") as [items|]; simpl.
    + destruct (js_or items (Some (JArr []))) as [[]|]; simpl;
        intros [= <- <-] || intros [=]; done.
    + by intros [= <- <-].
  - by intros [= <- <-].
Qed.

Lemma loadPermissions_toasts userId p b p' b' :
  loadPermissions userId p b = (Return p', b') →
  toasts (panel_view p') = toasts (panel_view p)
  ∨ toasts (panel_view p') = toasts (panel_view p) ++ ["載入權限失敗"].
Proof.
  unfold loadPermissions, bind, try_catch.
  destruct (getQueryUserPermissions _ _ b) as [[data|e] b1]; simpl.
  - unfold lift. destruct (get (Some data) "items") as [items|]; simpl.
    + destruct (js_or items (Some (JArr []))) as [[]|]; simpl;
        intros [= <- <-] || intros [=]; by left.
    + intros [= <- <-]. by right.
  - intros [= <- <-]. by right.
Qed.



(** ** Revoking *)

Lemma revokeFilePermission_calls userId permissionId b auth :
  getAuthHeader (localStorage b) = Return auth →
  let run := revokeFilePermission userId permissionId b in
  calls (sent run.2) = calls (sent b) ++ [revoke_call (env b) permissionId]
  ∧ env run.2 = env b
  ∧ (∀ data, run.1 = Return data → localStorage run.2 = localStorage b).
Proof.
  intros Hauth. unfold revokeFilePermission, try_catch, bind, getAuthHeaderM.
  simpl. rewrite Hauth.
  destruct (apiFetch_frame
              (API_BASE_URL (env b) +:+ "/query-users/permissions/" +:+ template permissionId)
              (delete_options auth) b) as (Henv & _ & Hcalls & Hls).
  destruct (apiFetch _ _ b) as [[r|e] b1]; simpl in *; [|done].
  specialize (Hls r eq_refl).
  unfold lift, ret, throw, detail_or, bindC.
  destruct (ok r); simpl; destruct_reads; done.
Qed.

Lemma permissions_query selectedDepartment :
  URLSearchParams_toString
    (if truthy selectedDepartment then [("department_id", selectedDepartment)] else [])
  = if truthy selectedDepartment
    then "department_id=" +:+ urlencode (template selectedDepartment)
    else "".
Proof. by destruct (truthy selectedDepartment). Qed.

Lemma loadPermissions_calls userId p b auth :
  getAuthHeader (localStorage b) = Return auth →
  calls (sent (loadPermissions userId p b).2)
  = calls (sent b) ++ [reload_call (env b) userId (selectedDepartment p)].
Proof.
  intros Hauth. unfold loadPermissions, getQueryUserPermissions, try_catch, bind,
    getAuthHeaderM.
  simpl. rewrite Hauth, permissions_query. unfold reload_call.
  set (url := if negb _ then _ else _).
  assert (url = API_BASE_URL (env b) +:+ "/query-users/" +:+ template userId
                  +:+ "/permissions"
                  +:+ (if truthy (selectedDepartment p)
                       then "?department_id="
                            +:+ urlencode (template (selectedDepartment p))
                       else "")) as ->.
  { unfold url. destruct (truthy (selectedDepartment p)); simpl.
    - reflexivity.
    - by rewrite append_empty_r. }
  destruct (apiFetch_frame
              (API_BASE_URL (env b) +:+ "/query-users/" +:+ template userId
                 +:+ "/permissions"
                 +:+ (if truthy (selectedDepartment p)
                      then "?department_id="
                           +:+ urlencode (template (selectedDepartment p))
                      else ""))
              (get_options auth) b) as (_ & _ & Hcalls & _).
  destruct (apiFetch _ _ b) as [[r|e] b1]; simpl in *; [|done].
  unfold lift, ret, throw, detail_or, bindC.
  destruct (ok r); simpl; destruct_reads;
    try done; by destruct (js_or _ _) as [[]|].
Qed.

(** X24. [handleRevokePermission] first asks for the deletion of the
    permission, addressed by the permission's id alone. If
    [revokeFilePermission] fails (it throws), the handler returns with the
    confirmation as it was and the error shown, and nothing else is asked;
    if it succeeds (it returns the answer), the user's permissions are asked
    for again, for the chosen department when there is one, and the panel
    returned has the confirmation closed and the success reported. *)
Theorem handleRevokePermission_calls (userId : JsVal) (permissionId : JsVal)
    (p : Panel) (b : Browser) (auth : gmap string string)
    (Hauth : getAuthHeader (localStorage b) = Return auth) :
  let run := handleRevokePermission userId permissionId p b in
  match (revokeFilePermission userId permissionId b).1 with
  | Throw _ =>
      calls (sent run.2) = calls (sent b) ++ [revoke_call (env b) permissionId]
      ∧ ∃ p', run.1 = Return p'
          ∧ showRevokeConfirm p' = showRevokeConfirm p
          ∧ toasts (panel_view p') = toasts (panel_view p) ++ ["撤銷失敗"]
          ∧ toast_successes p' = toast_successes p
  | Return _ =>
      calls (sent run.2)
      = calls (sent b) ++ [revoke_call (env b) permissionId;
                           reload_call (env b) userId (selectedDepartment p)]
      ∧ ∀ p', run.1 = Return p' →
          showRevokeConfirm p' = Some JNull
          ∧ toast_successes p' = toast_successes p ++ ["權限已撤銷"]
          ∧ (toasts (panel_view p') = toasts (panel_view p)
             ∨ toasts (panel_view p') = toasts (panel_view p) ++ ["載入權限失敗"])
  end.
Proof.
  unfold handleRevokePermission, bind, try_catch.
  destruct (revokeFilePermission_calls userId permissionId b auth Hauth)
    as (Hcalls & Henv & Hls).
  destruct (revokeFilePermission userId permissionId b) as [[data|e] b1];
    cbn -[loadPermissions] in *.
  - specialize (Hls data eq_refl).
    pose proof (loadPermissions_calls userId
                  (setLoading false
                     (setShowRevokeConfirm (Some JNull) (toast_success "權限已撤銷" p)))
                  b1 auth) as Hreload.
    rewrite Hls in Hreload. specialize (Hreload Hauth). cbn in Hreload.
    split; [by rewrite Hreload, Hcalls, Henv, <- app_assoc|].
    intros p' Hp'.
    destruct (loadPermissions userId _ b1) as [[q|e] b2] eqn:Hrun; [|done].
    simpl in Hp'. injection Hp' as ->.
    pose proof (loadPermissions_toasts _ _ _ _ _ Hrun) as Htoasts.
    apply loadPermissions_frame in Hrun as (_ & _ & Hsucc & Hconfirm).
    split_and!; done.
  - split; [done|]. by eexists.
Qed.

Lemma handleRevokePermission_calls_witness :
  let userId := Some (JNum 40) in
  let permissionId := Some (JNum 50) in
  (let b := browser_of (Some admin_user) (answering (JObj [("items", JArr [])])) in
   let run := handleRevokePermission userId permissionId sample_panel b in
   (calls (sent run.2)
    = calls (sent b) ++ [revoke_call (env b) permissionId;
                         reload_call (env b) userId (selectedDepartment sample_panel)]
    ∧ ∀ p', run.1 = Return p' →
        showRevokeConfirm p' = Some JNull
        ∧ toast_successes p' = toast_successes sample_panel ++ ["權限已撤銷"]
        ∧ (toasts (panel_view p') = toasts (panel_view sample_panel)
           ∨ toasts (panel_view p')
             = toasts (panel_view sample_panel) ++ ["載入權限失敗"]))
   ∧ ∃ p', run.1 = Return p')
  ∧ (let b := browser_of (Some admin_user) (answering_empty 500) in
     let run := handleRevokePermission userId permissionId sample_panel b in
     calls (sent run.2) = calls (sent b) ++ [revoke_call (env b) permissionId]
     ∧ ∃ p', run.1 = Return p'
         ∧ showRevokeConfirm p' = showRevokeConfirm sample_panel
         ∧ toasts (panel_view p') = toasts (panel_view sample_panel) ++ ["撤銷失敗"]
         ∧ toast_successes p' = toast_successes sample_panel).
Proof.
  split; [split|].
  - apply (handleRevokePermission_calls (Some (JNum 40)) (Some (JNum 50)) sample_panel
             (browser_of (Some admin_user) (answering (JObj [("items", JArr [])])))
             {[ "Authorization" := "Bearer t0" ]}).
    vm_compute. reflexivity.
  - eexists. vm_compute. reflexivity.
  - apply (handleRevokePermission_calls (Some (JNum 40)) (Some (JNum 50)) sample_panel
             (browser_of (Some admin_user) (answering_empty 500))
             {[ "Authorization" := "Bearer t0" ]}).
    vm_compute. reflexivity.
Defined.

(** X25. When the session has expired, [handleGrantPermission] shows the
    text of the expired login, which the query-user functions pass on as it
    was thrown; the form and the chosen files are kept, while the stored
    credentials are gone. *)
Theorem handleGrantPermission_expired (userId : JsVal)
    (engine_message : Exn → string) (p : Panel) (b : Browser)
    (auth : gmap string string)
    (Hdept : truthy (grantForm_department_id (panel_view p)) = true)
    (Hids : grantForm_file_ids (panel_view p) ≠ [])
    (Hauth : getAuthHeader (localStorage b) = Return auth)
    (H401 : always_401 b) :
  handleGrantPermission userId engine_message p b
  = (Return (setLoading false (toast_error "登入已過期，請重新登入" p)),
     expired b (grant_request b auth userId (grantForm_file_ids (panel_view p)))).
Proof.
  unfold handleGrantPermission. rewrite Hdept.
  destruct (grantForm_file_ids (panel_view p)) as [|id ids] eqn:Hsel; [done|].
  cbn [negb orb length Nat.eqb].
  unfold batchGrantPermissions, getAuthHeaderM. unfold bind, try_catch. simpl.
  rewrite Hauth. rewrite apiFetch_always_401 by done. done.
Qed.

Lemma handleGrantPermission_expired_witness :
  let b := browser_of (Some admin_user) (answering_empty 401) in
  handleGrantPermission (Some (JNum 40)) failed_to_fetch sample_panel b
  = (Return (setLoading false (toast_error "登入已過期，請重新登入" sample_panel)),
     expired b (grant_request b {[ "Authorization" := "Bearer t0" ]} (Some (JNum 40))
                  (grantForm_file_ids (panel_view sample_panel)))).
Proof.
  apply (handleGrantPermission_expired (Some (JNum 40)) failed_to_fetch sample_panel
           (browser_of (Some admin_user) (answering_empty 401))
           {[ "Authorization" := "Bearer t0" ]});
    [reflexivity|discriminate|vm_compute; reflexivity|].
  intros req. by eexists.
Defined.

(** ** The department form *)

Lemma slug_char_alphabet c : slug_char c = true → c ∈ slug_alphabet.
Proof.
  destruct c as [[] [] [] [] [] [] [] []]; intros H;
    first [by vm_compute in H
          |apply (bool_decide_unpack _); vm_compute; exact I].
Qed.

Lemma every_char_characters p s :
  every_char p s = true → Forall (λ c, p c = true) (characters s).
Proof.
  induction s as [|c s IH]; simpl; [constructor|].
  intros [Hc Hs]%andb_prop. constructor; auto.
Qed.

Lemma slugRegex_test_alphabet s :
  slugRegex_test s = true →
  s ≠ "" ∧ Forall (λ c, c ∈ slug_alphabet) (characters s).
Proof.
  unfold slugRegex_test. intros [Hne Hall]%andb_prop. split.
  - apply negb_true_iff, bool_decide_eq_false in Hne. done.
  - eapply Forall_impl; [by apply every_char_characters|].
    intros c. apply slug_char_alphabet.
Qed.

(** X26. [handleAddDepartment] makes a request only when the form's name
    holds more than white space, its slug is not empty and is made of
    lowercase letters, digits and hyphens alone, and the stored user passes
    the check for SUPER_ADMIN. *)
Theorem handleAddDepartment_validates (onRefresh : M unit) (v : DepartmentView)
    (b : Browser)
    (Hsent : sent (handleAddDepartment onRefresh v b).2 ≠ sent b) :
  blank (form_name (formData v)) = false
  ∧ form_slug (formData v) ≠ ""
  ∧ Forall (λ c, c ∈ slug_alphabet) (characters (form_slug (formData v)))
  ∧ hasPermission (checkPermission (localStorage b) SUPER_ADMIN) = true.
Proof.
  unfold handleAddDepartment in Hsent.
  destruct (blank (form_name (formData v))); [done|].
  destruct (blank (form_slug (formData v))); [done|].
  destruct (slugRegex_test (form_slug (formData v))) eqn:Hslug; [|done].
  apply slugRegex_test_alphabet in Hslug as [Hne Hall].
  split_and!; [done|done|done|].
  destruct (hasPermission (checkPermission (localStorage b) SUPER_ADMIN)) eqn:Hperm;
    [done|].
  exfalso. apply Hsent.
  unfold addDepartment, try_catch, bind, checkPermissionM. simpl.
  by rewrite Hperm.
Qed.

Lemma handleAddDepartment_validates_witness :
  blank (form_name (formData sample_department_view)) = false
  ∧ form_slug (formData sample_department_view) ≠ ""
  ∧ Forall (λ c, c ∈ slug_alphabet)
           (characters (form_slug (formData sample_department_view)))
  ∧ hasPermission
      (checkPermission
         (localStorage (browser_of (Some super_admin_user) (answering JNull)))
         SUPER_ADMIN) = true.
Proof.
  apply (handleAddDepartment_validates (ret ()) sample_department_view
           (browser_of (Some super_admin_user) (answering JNull))).
  vm_compute. discriminate.
Defined.

(** ** Selecting every file, and none *)

Lemma find_category_elem categoryId cs category :
  find_category categoryId cs = Return (Some category) → category ∈ cs.
Proof.
  induction cs as [|c cs IH]; simpl; [done|].
  destruct (get (Some c) "category_id") as [id|]; simpl; [|done].
  destruct (strict_equal id categoryId).
  - intros [= ->]. by left.
  - intros H. right. auto.
Qed.

Lemma flatMap_throwing_elem {A B} (f : A → Completion (list B)) l all x ys y :
  flatMap_throwing f l = Return all → x ∈ l → f x = Return ys → y ∈ ys → y ∈ all.
Proof.
  revert all. induction l as [|a l IH]; intros all; simpl.
  { by intros _ ?%elem_of_nil. }
  destruct (f a) as [ya|] eqn:Ha; simpl; [|done].
  destruct (flatMap_throwing f l) as [rest|]; simpl; [|done].
  intros [= <-] [->|Hx]%elem_of_cons Hfx Hy; apply elem_of_app.
  - left. congruence.
  - right. by eapply IH.
Qed.

(** X27. After [selectAllFiles] every category of the picker that has files
    is selected and none is partially selected; after [deselectAllFiles] no
    category is selected or partially selected. *)
Theorem selectAllFiles_selects (categoryId : JsVal) (view view' : PermissionsView)
    (category : JSON) (ids : list JsVal)
    (Hall : selectAllFiles view = Return view')
    (Hfound : find_category categoryId (categoriesData view) = Return (Some category))
    (Htruthy : truthy (Some category) = true)
    (Hids : categoryFileIds (Some category) = Return ids)
    (Hprimitive : forallb primitive ids = true) :
  isCategorySelected categoryId view' = Return (bool_decide (ids ≠ []))
  ∧ isCategoryPartiallySelected categoryId view' = Return false
  ∧ isCategorySelected categoryId (deselectAllFiles view') = Return false
  ∧ isCategoryPartiallySelected categoryId (deselectAllFiles view') = Return false.
Proof.
  unfold selectAllFiles in Hall.
  destruct (flatMap_throwing _ (categoriesData view)) as [all|] eqn:Hflat;
    simpl in Hall; [|done].
  injection Hall as <-.
  assert (forallb (includes all) ids = true) as Hsel.
  { apply forallb_forall. intros x Hx%list_elem_of_In. apply includes_spec. split.
    - eapply (flatMap_throwing_elem _ _ _ category ids);
        [exact Hflat|by eapply find_category_elem|exact Hids|exact Hx].
    - rewrite forallb_forall in Hprimitive. apply Hprimitive.
      by apply list_elem_of_In. }
  destruct (count_selected all ids) as (_ & Hcount & _).
  apply Hcount in Hsel as Hlen.
  destruct (count_selected [] ids) as (_ & _ & Hnone).
  assert (length (filter (λ id, includes [] id = true) ids) = 0%nat) as Hzero.
  { apply Hnone. apply Forall_forall. done. }
  unfold isCategorySelected, isCategoryPartiallySelected, deselectAllFiles.
  cbn [categoriesData grantForm_file_ids setGrantForm_file_ids].
  rewrite Hfound. cbn [bindC]. rewrite Htruthy. cbn [negb]. rewrite Hids.
  cbn [bindC]. rewrite Hsel, Hlen, Hzero. split_and!; f_equal.
  - rewrite andb_true_r. apply bool_decide_ext.
    destruct ids; simpl; split; (done || lia).
  - rewrite (bool_decide_eq_false_2 (length ids < length ids)%nat) by lia.
    apply andb_false_r.
  - destruct ids; [done|]. apply andb_false_r.
Qed.

Lemma selectAllFiles_selects_witness :
  let view' := match selectAllFiles picker_view with
               | Return v => v
               | Throw _ => picker_view
               end in
  let categoryId := Some (JNum 1) in
  let ids := [Some (JNum 1); Some (JNum 2)] in
  isCategorySelected categoryId view' = Return (bool_decide (ids ≠ []))
  ∧ isCategoryPartiallySelected categoryId view' = Return false
  ∧ isCategorySelected categoryId (deselectAllFiles view') = Return false
  ∧ isCategoryPartiallySelected categoryId (deselectAllFiles view') = Return false.
Proof.
  apply (selectAllFiles_selects (Some (JNum 1)) picker_view _
           (JObj [("category_id", JNum 1);
                  ("files", JArr [file_entry 1 "a.pdf"; file_entry 2 "b.pdf"])])
           [Some (JNum 1); Some (JNum 2)]);
    reflexivity.
Defined.

(** ** The permissions by department *)

Lemma reduce_group_permission perms acc :
  Forall (λ p, p ≠ JNull) perms →
  Forall (λ p, department_of p ∉ Object_prototype_names) perms →
  ∃ groups, reduce_throwing group_permission perms acc = Return groups
    ∧ ∀ name, groups !! name
        = match acc !! name, filter (λ p, department_of p = name) perms with
          | Some group, rest => Some (group ++ rest)
          | None, [] => None
          | None, rest => Some rest
          end.
Proof.
  revert acc. induction perms as [|p perms IH]; intros acc Hnn Hnames.
  { exists acc. split; [done|]. intros name. simpl.
    destruct (acc !! name); [by rewrite app_nil_r|done]. }
  apply Forall_cons_1 in Hnn as [Hp Hnn].
  apply Forall_cons_1 in Hnames as [Hname Hnames].
  simpl. unfold group_permission at 1, deptName_of.
  rewrite get_member by done. cbn [bindC]. fold (department_of p).
  set (k := department_of p) in *.
  destruct (acc !! k) as [group|] eqn:Hk; cbn [bindC].
  - destruct (IH (<[k := group ++ [p]]> acc) Hnn Hnames) as (groups & Hrun & Hgroups).
    exists groups. split; [done|]. intros name. rewrite Hgroups, filter_cons.
    destruct (decide (k = name)) as [<-|Hne].
    + rewrite lookup_insert_eq, Hk, <- app_assoc.
      by rewrite decide_True by reflexivity.
    + rewrite lookup_insert_ne by done.
      by rewrite decide_False by exact Hne.
  - rewrite decide_False by done.
    destruct (IH (<[k := [p]]> acc) Hnn Hnames) as (groups & Hrun & Hgroups).
    exists groups. split; [done|]. intros name. rewrite Hgroups, filter_cons.
    destruct (decide (k = name)) as [<-|Hne].
    + rewrite lookup_insert_eq, Hk.
      by rewrite decide_True by reflexivity.
    + rewrite lookup_insert_ne by done.
      by rewrite decide_False by exact Hne.
Qed.

(** X28. The list of permissions is shown by department: when no permission
    is filed under a name that objects inherit, [groupedPermissions] files
    every permission under the name of its department, or under "未知處室"
    without one, keeps the order of the list within each group, and has no
    group without a permission. *)
Theorem groupedPermissions_partition (perms : list JSON)
    (Hnn : Forall (λ p, p ≠ JNull) perms)
    (Hnames : Forall (λ p, department_of p ∉ Object_prototype_names) perms) :
  ∃ groups, groupedPermissions perms = Return groups
    ∧ ∀ name, groups !! name
        = match filter (λ p, department_of p = name) perms with
          | [] => None
          | group => Some group
          end.
Proof.
  destruct (reduce_group_permission perms ∅ Hnn Hnames) as (groups & Hrun & Hgroups).
  exists groups. split; [done|]. intros name. rewrite Hgroups.
  by rewrite lookup_empty.
Qed.

Lemma groupedPermissions_partition_witness :
  ∃ groups, groupedPermissions sample_permissions = Return groups
    ∧ ∀ name, groups !! name
        = match filter (λ p, department_of p = name) sample_permissions with
          | [] => None
          | group => Some group
          end.
Proof.
  apply (groupedPermissions_partition sample_permissions).
  - repeat constructor; discriminate.
  - repeat constructor; apply (bool_decide_unpack _); vm_compute; exact I.
Defined.
